(** * LocalDevManager: the watch-and-sync orchestrator of the HubSpot CLI

    A shallow embedding of [packages/cli/lib/LocalDevManager.js].

    The JavaScript class is an event-driven program: file-watch callbacks,
    key presses, one debounce timer and the completions of asynchronous
    calls all run on a single thread, each running until its next [await].
    The embedding follows that execution model:

    - [config] is the whole program state: the fields of the manager, the
      p-queue instance, the pending timers, the suspended async functions
      (the [pool]) and the chronological list of effects (the [trace]);
    - every method is the function that runs its body up to its first
      [await]; what follows an [await] is a constructor of [kont] and the
      function that [resume] runs for it;
    - [step] performs one turn of the event loop for one [input].

    External collaborators (the remote build API, the dev-server bridge,
    chokidar, the spinner registry, the logger) appear as effects in the
    trace; the results of asynchronous calls arrive as inputs. *)

From Stdlib Require Import List String Ascii ZArith NArith Bool Arith Lia.
From Stdlib Require Import Permutation.
Import ListNotations.
Open Scope string_scope.
Open Scope list_scope.
Open Scope nat_scope.

Set Primitive Projections.

(** ** Constants and enumerations *)

Definition BUILD_DEBOUNCE_TIME : Z := 3500.

(** [WATCH_EVENTS] *)
Inductive watch_event : Type :=
| WE_add
| WE_change
| WE_unlink
| WE_unlinkDir.

(** [UPLOAD_PERMISSIONS] *)
Inductive upload_permission : Type :=
| UP_always
| UP_manual
| UP_never.

(** [EXIT_CODES] of [./enums/exitCodes]: only the two names used here. *)
Inductive exit_code : Type :=
| SUCCESS
| ERROR.

(** [ERROR_TYPES]: the sub-categories the manager tests for, and any other. *)
Inductive error_type : Type :=
| BUILD_NOT_IN_PROGRESS
| PROJECT_LOCKED
| MISSING_PROJECT_PROVISION
| OTHER_SUBCATEGORY (tag : string).

(** A JavaScript error value: an API error with its sub-category, a
    [TypeError] raised by the runtime, or any other error. *)
Inductive js_error : Type :=
| ApiError (subCategory : error_type)
| TypeError (message : string)
| OtherError (message : string).

Definition error_type_eqb (a b : error_type) : bool :=
  match a, b with
  | BUILD_NOT_IN_PROGRESS, BUILD_NOT_IN_PROGRESS => true
  | PROJECT_LOCKED, PROJECT_LOCKED => true
  | MISSING_PROJECT_PROVISION, MISSING_PROJECT_PROVISION => true
  | OTHER_SUBCATEGORY s, OTHER_SUBCATEGORY t => String.eqb s t
  | _, _ => false
  end.

(** [isSpecifiedError(err, { subCategory })] *)
Definition isSpecifiedError (err : js_error) (subCategory : error_type) : bool :=
  match err with
  | ApiError sub => error_type_eqb sub subCategory
  | _ => false
  end.

(** The display states of the ['devModeStatus'] line
    ([header.status.<langKey>]). *)
Inductive dev_status : Type :=
| clean
| supportedChange
| uploadPending
| manualUpload
| manualUploadRequired
| noUploadsAllowed.

Definition status_langKey (s : dev_status) : string :=
  match s with
  | clean => "clean"
  | supportedChange => "supportedChange"
  | uploadPending => "uploadPending"
  | manualUpload => "manualUpload"
  | manualUploadRequired => "manualUploadRequired"
  | noUploadsAllowed => "noUploadsAllowed"
  end.

(** ** Data *)

Record projectConfig : Type := {
  name : string;
  srcDir : option string            (* [undefined] when absent *)
}.

(** The [options] object handed to the constructor; [None] is a missing
    (undefined) property. *)
Record options : Type := {
  o_targetAccountId : option Z;
  o_projectConfig : option projectConfig;
  o_projectDir : option string;
  o_port : option Z;
  o_uploadPermission : option upload_permission;
  o_debug : option bool
}.

(** [changeInfo]; [supported] is absent on the object built by
    [handleWatchEvent] and present on the copies put in the standby list. *)
Record changeInfo : Type := {
  event : watch_event;
  filePath : string;
  remotePath : string;
  supported : option bool
}.

Definition with_supported (ci : changeInfo) (b : bool) : changeInfo :=
  {| event := event ci; filePath := filePath ci;
     remotePath := remotePath ci; supported := Some b |}.

(** What an awaited external call resolves to. [VNotify] is the object
    [{ uploadRequired }], [VBuild] the object [{ buildId }]. *)
Inductive value : Type :=
| VUndefined
| VNotify (uploadRequired : bool)
| VBuild (buildId : N).

Inductive response : Type :=
| Resolved (v : value)
| Rejected (e : js_error).

(** JavaScript truthiness of the values tested by the code. *)
Definition truthy_num (x : option Z) : bool :=
  match x with Some n => negb (Z.eqb n 0) | None => false end.

Definition truthy_str (x : option string) : bool :=
  match x with Some s => negb (String.eqb s EmptyString) | None => false end.

Definition truthy_build (x : option N) : bool :=
  match x with Some n => negb (N.eqb n 0) | None => false end.

Definition truthy_obj {A : Type} (x : option A) : bool :=
  match x with Some _ => true | None => false end.

(** [String.prototype.includes] *)
Fixpoint includes (s sub : string) : bool :=
  if String.prefix sub s then true
  else match s with
       | EmptyString => false
       | String _ rest => includes rest sub
       end.

(** ** Effects *)

(** Asynchronous operations of the collaborators; each returns a promise. *)
Inductive ext_call : Type :=
| provisionBuild (accountId : Z) (projectName : string)
| uploadFileToBuild (accountId : Z) (projectName : string)
    (file remote : string)
| deleteFileFromBuild (accountId : Z) (projectName : string) (remote : string)
| api_queueBuild (accountId : Z) (projectName : string)
| cancelStagedBuild (accountId : Z) (projectName : string)
| pollProjectBuildAndDeploy (accountId : Z) (cfg : projectConfig)
    (buildId : option N)
| DevServerManager_start
| DevServerManager_notify (ci : changeInfo)
| DevServerManager_execute (ci : changeInfo) (notifyResponse : value)
| DevServerManager_cleanup
| watcher_close.

Inductive spin_key : Type :=
| Key (k : string)
| Generated (n : nat).               (* the key returned by [add(null, ...)] *)

Inductive spin_state : Type :=
| spinning
| non_spinnable
| st_succeed
| st_fail.

(** A display text: an [i18n] lookup under [cli.lib.LocalDevManager] with
    its interpolation arguments, or a literal. *)
Inductive text : Type :=
| i18n (key : string) (args : list string)
| literal (s : string).

(** Calls on the spinner registry. Layout options (indent, colours,
    category) are not recorded. *)
Inductive spin_op : Type :=
| sp_add (k : spin_key) (t : text) (st : spin_state)
| sp_addOrUpdate (k : spin_key) (t : text) (st : spin_state)
| sp_update (k : spin_key) (t : text) (st : spin_state)
| sp_remove (k : spin_key)
| sp_succeed (k : spin_key) (t : text)
| sp_fail (k : spin_key) (t : text)
| sp_removeAll (preserveCategory targetCategory : option string).

Inductive log_op : Type :=
| logger_log (t : text)
| logger_debug_error (e : js_error)
| logger_debug (t : text)
| logger_error (e : js_error)
| logApiErrorInstance (e : js_error) (accountId : Z) (projectName : string).

(** The two closures handed to the upload queue. *)
Inductive task : Type :=
| flush_task (ci : changeInfo)       (* flushStandbyChanges, lines 553-561 *)
| send_task (ci : changeInfo).       (* handleWatchEvent, lines 357-359 *)

Inductive queue_op : Type :=
| q_pause
| q_start
| q_add (id : nat) (t : task)
| q_run (id : nat)                   (* the queue starts a task *)
| q_settled (id : nat)               (* a task's promise resolved *)
| q_onIdle.                          (* an [onIdle()] promise resolved *)

Inductive timer_op : Type :=
| setTimeout (id : nat) (deadline : Z)
| clearTimeout (id : nat)
| timer_fired (id : nat).

Inductive effect : Type :=
| E_call (c : ext_call)
| E_spin (op : spin_op)
| E_log (op : log_op)
| E_queue (op : queue_op)
| E_timer (op : timer_op)
| E_watch                             (* chokidar.watch and the four handlers *)
| E_keypress                          (* handleKeypress registered *)
| E_unhandled (e : js_error)          (* an async function rejected, uncaught *)
| E_exit (code : exit_code).          (* process.exit *)

(** ** Suspended async functions *)

(** Where an awaited callee returns to. [createNewStagingBuild] and
    [flushStandbyChanges] are awaited from several places. *)
Inductive frame : Type :=
| F_startWatching                     (* startWatching, line 299 *)
| F_keypress_created                  (* keypress handler, line 248 *)
| F_keypress_flushed                  (* keypress handler, line 249 *)
| F_queueBuild_created                (* queueBuild, line 537 *)
| F_handleWatchEvent (ci : changeInfo)   (* handleWatchEvent, line 351 *)
| F_detached.                         (* called without await, line 543 *)

(** The rest of an async function after the [await] it is suspended at. *)
Inductive kont : Type :=
| K_startServers                      (* line 581, from start line 96 *)
| K_provisionBuild (ret : frame)      (* line 282 *)
| K_cancelLocked                      (* line 290 *)
| K_notify (ci : changeInfo)          (* line 604, from line 327 *)
| K_execute                           (* line 620, from line 333 *)
| K_addAll (ids : list nat) (ret : frame)
                                      (* line 551: the jobs awaited *)
| K_task (id : nat) (ci : changeInfo) (spinniesKey : spin_key)
                                      (* lines 442 and 452, inside a queue task *)
| K_onIdle (spinniesKey : spin_key)   (* line 273, from line 493 *)
| K_queueBuild (spinniesKey : spin_key)   (* line 496 *)
| K_poll (spinniesKey : spin_key)     (* line 518 *)
| K_watcherClose                      (* line 569, from line 112 *)
| K_cleanup                           (* line 634, from line 113 *)
| K_cancelStaged.                     (* line 119 *)

(** [K_onIdle] and [K_addAll] wait for a promise of the upload queue; every
    other continuation waits for the external call it was suspended at. *)
Definition awaits_queue (k : kont) : bool :=
  match k with
  | K_onIdle _ | K_addAll _ _ => true
  | _ => false
  end.

(** ** The upload queue (p-queue) *)

(** [new PQueue({ concurrency: 10 })]. [waiting] is the queue of jobs not
    yet started, [pending] the started ones that have not settled
    (p-queue's [_pendingCount] is its length). Jobs are numbered in the
    order of their [add]. *)
Record PQueue : Type := {
  isPaused : bool;
  waiting : list (nat * task);
  pending : list nat;
  nextTask : nat
}.

Definition CONCURRENCY : nat := 10.

Definition new_PQueue : PQueue :=
  {| isPaused := false; waiting := []; pending := []; nextTask := 0 |}.

(** The condition under which [onIdle()] resolves:
    [_pendingCount === 0 && _queue.size === 0]. *)
Definition is_idle (q : PQueue) : bool :=
  match pending q, waiting q with
  | [], [] => true
  | _, _ => false
  end.

(** A job's promise has settled: it was added, is not waiting, not running. *)
Definition settled (q : PQueue) (id : nat) : bool :=
  (id <? nextTask q)
  && negb (existsb (fun j => fst j =? id) (waiting q))
  && negb (existsb (Nat.eqb id) (pending q)).

(** ** Program state *)

Record config : Type := {
  (* fields of the manager *)
  targetAccountId : Z;
  projectCfg : projectConfig;
  projectDir : string;
  port : option Z;
  uploadPermission : upload_permission;
  debug : bool;
  projectSourceDir : string;
  standbyChanges : list changeInfo;
  debouncedBuild : option nat;
  currentStagedBuildId : option N;
  uploadQueue : PQueue;
  (* collaborators *)
  devModeStatus : option dev_status;  (* text of the 'devModeStatus' line *)
  spinCount : nat;                    (* keys generated by the registry *)
  watching : bool;                    (* the watcher delivers events *)
  listening : bool;                   (* the keypress handler is installed *)
  (* event loop *)
  now : Z;                            (* the clock, in ms *)
  timers : list (nat * Z);            (* pending timers and their deadlines *)
  timerCount : nat;
  pool : list kont;                   (* suspended async functions *)
  exited : option exit_code;
  trace : list effect                 (* effects so far, oldest first *)
}.

(** Field updates. *)
Definition set_standbyChanges (v : list changeInfo) (c : config) : config :=
  Build_config (targetAccountId c) (projectCfg c) (projectDir c) (port c)
    (uploadPermission c) (debug c) (projectSourceDir c) v (debouncedBuild c)
    (currentStagedBuildId c) (uploadQueue c) (devModeStatus c) (spinCount c)
    (watching c) (listening c) (now c) (timers c) (timerCount c) (pool c)
    (exited c) (trace c).

Definition set_debouncedBuild (v : option nat) (c : config) : config :=
  Build_config (targetAccountId c) (projectCfg c) (projectDir c) (port c)
    (uploadPermission c) (debug c) (projectSourceDir c) (standbyChanges c) v
    (currentStagedBuildId c) (uploadQueue c) (devModeStatus c) (spinCount c)
    (watching c) (listening c) (now c) (timers c) (timerCount c) (pool c)
    (exited c) (trace c).

Definition set_currentStagedBuildId (v : option N) (c : config) : config :=
  Build_config (targetAccountId c) (projectCfg c) (projectDir c) (port c)
    (uploadPermission c) (debug c) (projectSourceDir c) (standbyChanges c)
    (debouncedBuild c) v (uploadQueue c) (devModeStatus c) (spinCount c)
    (watching c) (listening c) (now c) (timers c) (timerCount c) (pool c)
    (exited c) (trace c).

Definition set_uploadQueue (v : PQueue) (c : config) : config :=
  Build_config (targetAccountId c) (projectCfg c) (projectDir c) (port c)
    (uploadPermission c) (debug c) (projectSourceDir c) (standbyChanges c)
    (debouncedBuild c) (currentStagedBuildId c) v (devModeStatus c)
    (spinCount c) (watching c) (listening c) (now c) (timers c) (timerCount
    c) (pool c) (exited c) (trace c).

Definition set_devModeStatus (v : option dev_status) (c : config) : config :=
  Build_config (targetAccountId c) (projectCfg c) (projectDir c) (port c)
    (uploadPermission c) (debug c) (projectSourceDir c) (standbyChanges c)
    (debouncedBuild c) (currentStagedBuildId c) (uploadQueue c) v (spinCount
    c) (watching c) (listening c) (now c) (timers c) (timerCount c) (pool c)
    (exited c) (trace c).

Definition set_spinCount (v : nat) (c : config) : config :=
  Build_config (targetAccountId c) (projectCfg c) (projectDir c) (port c)
    (uploadPermission c) (debug c) (projectSourceDir c) (standbyChanges c)
    (debouncedBuild c) (currentStagedBuildId c) (uploadQueue c)
    (devModeStatus c) v (watching c) (listening c) (now c) (timers c)
    (timerCount c) (pool c) (exited c) (trace c).

Definition set_watching (v : bool) (c : config) : config :=
  Build_config (targetAccountId c) (projectCfg c) (projectDir c) (port c)
    (uploadPermission c) (debug c) (projectSourceDir c) (standbyChanges c)
    (debouncedBuild c) (currentStagedBuildId c) (uploadQueue c)
    (devModeStatus c) (spinCount c) v (listening c) (now c) (timers c)
    (timerCount c) (pool c) (exited c) (trace c).

Definition set_listening (v : bool) (c : config) : config :=
  Build_config (targetAccountId c) (projectCfg c) (projectDir c) (port c)
    (uploadPermission c) (debug c) (projectSourceDir c) (standbyChanges c)
    (debouncedBuild c) (currentStagedBuildId c) (uploadQueue c)
    (devModeStatus c) (spinCount c) (watching c) v (now c) (timers c)
    (timerCount c) (pool c) (exited c) (trace c).

Definition set_now (v : Z) (c : config) : config :=
  Build_config (targetAccountId c) (projectCfg c) (projectDir c) (port c)
    (uploadPermission c) (debug c) (projectSourceDir c) (standbyChanges c)
    (debouncedBuild c) (currentStagedBuildId c) (uploadQueue c)
    (devModeStatus c) (spinCount c) (watching c) (listening c) v (timers c)
    (timerCount c) (pool c) (exited c) (trace c).

Definition set_timers (v : list (nat * Z)) (c : config) : config :=
  Build_config (targetAccountId c) (projectCfg c) (projectDir c) (port c)
    (uploadPermission c) (debug c) (projectSourceDir c) (standbyChanges c)
    (debouncedBuild c) (currentStagedBuildId c) (uploadQueue c)
    (devModeStatus c) (spinCount c) (watching c) (listening c) (now c) v
    (timerCount c) (pool c) (exited c) (trace c).

Definition set_timerCount (v : nat) (c : config) : config :=
  Build_config (targetAccountId c) (projectCfg c) (projectDir c) (port c)
    (uploadPermission c) (debug c) (projectSourceDir c) (standbyChanges c)
    (debouncedBuild c) (currentStagedBuildId c) (uploadQueue c)
    (devModeStatus c) (spinCount c) (watching c) (listening c) (now c)
    (timers c) v (pool c) (exited c) (trace c).

Definition set_pool (v : list kont) (c : config) : config :=
  Build_config (targetAccountId c) (projectCfg c) (projectDir c) (port c)
    (uploadPermission c) (debug c) (projectSourceDir c) (standbyChanges c)
    (debouncedBuild c) (currentStagedBuildId c) (uploadQueue c)
    (devModeStatus c) (spinCount c) (watching c) (listening c) (now c)
    (timers c) (timerCount c) v (exited c) (trace c).

Definition set_exited (v : option exit_code) (c : config) : config :=
  Build_config (targetAccountId c) (projectCfg c) (projectDir c) (port c)
    (uploadPermission c) (debug c) (projectSourceDir c) (standbyChanges c)
    (debouncedBuild c) (currentStagedBuildId c) (uploadQueue c)
    (devModeStatus c) (spinCount c) (watching c) (listening c) (now c)
    (timers c) (timerCount c) (pool c) v (trace c).

Definition set_trace (v : list effect) (c : config) : config :=
  Build_config (targetAccountId c) (projectCfg c) (projectDir c) (port c)
    (uploadPermission c) (debug c) (projectSourceDir c) (standbyChanges c)
    (debouncedBuild c) (currentStagedBuildId c) (uploadQueue c)
    (devModeStatus c) (spinCount c) (watching c) (listening c) (now c)
    (timers c) (timerCount c) (pool c) (exited c) v.

(** ** Library functions taken as parameters *)

(** Node's [path] module and the two predicates of [@hubspot/cli-lib]. *)
Class Externals : Type := {
  path_join : string -> string -> string;
  path_relative : string -> string -> string;
  (** [isAllowedExtension(filePath, ['jsx'])] *)
  isAllowedExtension : string -> bool;
  (** [shouldIgnoreFile(filePath, isInProject)] *)
  shouldIgnoreFile : string -> bool -> bool
}.

(** ** Primitive operations *)

Definition emit (e : effect) (c : config) : config :=
  set_trace (trace c ++ [e]) c.

(** [await call(...)]: the call is issued and the caller is suspended. *)
Definition await_call (call : ext_call) (k : kont) (c : config) : config :=
  set_pool (pool c ++ [k]) (emit (E_call call) c).

(** [await promise] on a promise of the upload queue. *)
Definition await_queue (k : kont) (c : config) : config :=
  set_pool (pool c ++ [k]) c.

Definition process_exit (code : exit_code) (c : config) : config :=
  set_exited (Some code) (emit (E_exit code) c).

Definition spinnies (op : spin_op) (c : config) : config :=
  emit (E_spin op) c.

(** [spinnies.add(null, { text, status })] returns a fresh key. *)
Definition spinnies_add_null (t : text) (st : spin_state) (c : config)
  : config * spin_key :=
  let k := Generated (spinCount c) in
  (set_spinCount (S (spinCount c)) (spinnies (sp_add k t st) c), k).

Definition logger (op : log_op) (c : config) : config :=
  emit (E_log op) c.

Definition is_always (p : upload_permission) : bool :=
  match p with UP_always => true | _ => false end.

Definition is_never (p : upload_permission) : bool :=
  match p with UP_never => true | _ => false end.

Definition is_manual (p : upload_permission) : bool :=
  match p with UP_manual => true | _ => false end.

(** [clearTimeout(id)] *)
Definition clear_timer (id : nat) (c : config) : config :=
  emit (E_timer (clearTimeout id))
    (set_timers (filter (fun t => negb (fst t =? id)) (timers c)) c).

(** [setTimeout(this.queueBuild.bind(this), delay)]; the only callback ever
    registered is [queueBuild], so a timer is its id and its deadline. *)
Definition set_timer (delay : Z) (c : config) : config * nat :=
  let id := timerCount c in
  let deadline := (now c + delay)%Z in
  (set_timerCount (S id)
     (set_timers (timers c ++ [(id, deadline)])
        (emit (E_timer (setTimeout id deadline)) c)), id).

(** ** Methods of the manager that do not await *)

(** [updateDevModeStatus(langKey)] *)
Definition updateDevModeStatus (s : dev_status) (c : config) : config :=
  set_devModeStatus (Some s)
    (spinnies (sp_update (Key "devModeStatus")
                 (i18n ("header.status." ++ status_langKey s) [])
                 non_spinnable) c).

(** [hasAnyUnsupportedStandbyChanges()]: [some(({ supported }) => !supported)] *)
Definition not_supported (ci : changeInfo) : bool :=
  match supported ci with
  | Some true => false
  | _ => true
  end.

Definition hasAnyUnsupportedStandbyChanges (c : config) : bool :=
  existsb not_supported (standbyChanges c).

(** [this.standbyChanges.find(ci => ci.filePath === filePath)], as a test. *)
Definition standby_has_path (p : string) (c : config) : bool :=
  existsb (fun ci => String.eqb (filePath ci) p) (standbyChanges c).

(** [debounceQueueBuild()], lines 470-483 *)
Definition debounceQueueBuild (c : config) : config :=
  let c1 := if is_always (uploadPermission c)
            then updateDevModeStatus uploadPending c else c in
  let c2 := match debouncedBuild c1 with
            | Some id => clear_timer id c1
            | None => c1
            end in
  let (c3, id) := set_timer BUILD_DEBOUNCE_TIME c2 in
  set_debouncedBuild (Some id) c3.

Section Model.

Context {ext : Externals}.

(** [addChangeToStandbyQueue(changeInfo)], lines 413-428 *)
Definition addChangeToStandbyQueue (ci : changeInfo) (c : config) : config :=
  let extension_checked :=
    match event ci with
    | WE_add | WE_change => true
    | _ => false
    end in
  if extension_checked && negb (isAllowedExtension (filePath ci)) then
    logger (logger_debug (literal ("Extension not allowed: " ++ filePath ci))) c
  else if shouldIgnoreFile (filePath ci) true then
    logger (logger_debug (literal ("File ignored: " ++ filePath ci))) c
  else
    set_standbyChanges (standbyChanges c ++ [ci]) c.

(** [handlePreventedUpload(changeInfo)], lines 363-411 *)
Definition handlePreventedUpload (ci : changeInfo) (c : config) : config :=
  if is_never (uploadPermission c) then
    spinnies (sp_add (Key "noUploadsAllowed")
                (i18n "content.noUploadsAllowed" [remotePath ci]) st_fail)
      (updateDevModeStatus noUploadsAllowed c)
  else
    let c1 := updateDevModeStatus manualUploadRequired c in
    let c2 := if negb (standby_has_path (filePath ci) c1)
              then addChangeToStandbyQueue (with_supported ci false) c1
              else c1 in
    spinnies (sp_add (Key "manualUploadPrompt")
                (i18n "content.manualUploadPrompt" []) non_spinnable)
      (spinnies (sp_add (Key "manualUploadExplanation2")
                   (i18n "content.manualUploadExplanation2" []) non_spinnable)
         (spinnies (sp_add (Key "manualUploadExplanation1")
                      (i18n "content.manualUploadExplanation1" [])
                      non_spinnable)
            (spinnies (sp_add (Key "manualUploadRequired")
                         (i18n "content.manualUploadRequired" []) st_fail)
               c2))).

(** ** The upload queue and its tasks *)

(** [sendChanges(changeInfo)], lines 430-457, up to the awaited API call.
    It only ever runs as (part of) queue job [id]. *)
Definition sendChanges (id : nat) (ci : changeInfo) (c : config) : config :=
  let (c1, spinniesKey) :=
    spinnies_add_null (i18n "content.uploadingChange" [remotePath ci])
      non_spinnable c in
  match event ci with
  | WE_add | WE_change =>
      await_call (uploadFileToBuild (targetAccountId c1) (name (projectCfg c1))
                    (filePath ci) (remotePath ci))
        (K_task id ci spinniesKey) c1
  | WE_unlink | WE_unlinkDir =>
      await_call (deleteFileFromBuild (targetAccountId c1)
                    (name (projectCfg c1)) (remotePath ci))
        (K_task id ci spinniesKey) c1
  end.

(** [sendChanges], lines 458-467: after the API call settled. *)
Definition sendChanges_settled (ci : changeInfo) (spinniesKey : spin_key)
  (r : response) (c : config) : config :=
  let c1 := match r with
            | Rejected err => logger (logger_debug_error err) c
            | Resolved _ => c
            end in
  spinnies (sp_update spinniesKey (i18n "upload.uploadedChange" [remotePath ci])
              non_spinnable) c1.

(** The body of a queue task, run when the queue starts job [id]. *)
Definition run_task (id : nat) (t : task) (c : config) : config :=
  match t with
  | flush_task ci =>
      let c1 := if is_always (uploadPermission c)
                   && negb (isPaused (uploadQueue c))
                then debounceQueueBuild c else c in
      sendChanges id ci c1
  | send_task ci => sendChanges id ci c
  end.

Definition set_isPaused (b : bool) (q : PQueue) : PQueue :=
  {| isPaused := b; waiting := waiting q; pending := pending q;
     nextTask := nextTask q |}.

(** p-queue's [_tryToStartAnother()]: starts the oldest waiting job when the
    queue is not paused and fewer than [CONCURRENCY] jobs are running. *)
Definition tryToStartAnother (c : config) : bool * config :=
  let q := uploadQueue c in
  match waiting q with
  | [] => (false, c)
  | (id, t) :: rest =>
      if negb (isPaused q) && (List.length (pending q) <? CONCURRENCY) then
        let q' := {| isPaused := isPaused q; waiting := rest;
                     pending := pending q ++ [id]; nextTask := nextTask q |} in
        (true, run_task id t (emit (E_queue (q_run id)) (set_uploadQueue q' c)))
      else (false, c)
  end.

(** p-queue's [_processQueue()]: [while (this._tryToStartAnother()) {}].
    Every iteration removes one waiting job, so the number of waiting jobs
    bounds the number of iterations. *)
Fixpoint processQueue_loop (fuel : nat) (c : config) : config :=
  match fuel with
  | 0 => c
  | S n =>
      let (started, c') := tryToStartAnother c in
      if started then processQueue_loop n c' else c'
  end.

Definition processQueue (c : config) : config :=
  processQueue_loop (List.length (waiting (uploadQueue c))) c.

(** [uploadQueue.add(task)]: returns the number of the new job, which
    stands for the promise [add] returns. *)
Definition queue_add (t : task) (c : config) : config * nat :=
  let q := uploadQueue c in
  let id := nextTask q in
  let q' := {| isPaused := isPaused q; waiting := waiting q ++ [(id, t)];
               pending := pending q; nextTask := S id |} in
  (snd (tryToStartAnother (emit (E_queue (q_add id t)) (set_uploadQueue q' c))),
   id).

(** [uploadQueue.addAll(tasks)]: [add] for each task, in order. *)
Fixpoint queue_addAll (ts : list task) (c : config) : config * list nat :=
  match ts with
  | [] => (c, [])
  | t :: rest =>
      let (c1, id) := queue_add t c in
      let (c2, ids) := queue_addAll rest c1 in
      (c2, id :: ids)
  end.

(** [uploadQueue.pause()] *)
Definition queue_pause (c : config) : config :=
  emit (E_queue q_pause) (set_uploadQueue (set_isPaused true (uploadQueue c)) c).

(** [uploadQueue.start()] *)
Definition queue_start (c : config) : config :=
  let c1 := emit (E_queue q_start) c in
  if isPaused (uploadQueue c1) then
    processQueue (set_uploadQueue (set_isPaused false (uploadQueue c1)) c1)
  else c1.

(** Job [id] settled: p-queue resolves its promise and runs [_next()]. *)
Definition queue_next (id : nat) (c : config) : config :=
  let q := uploadQueue c in
  let q' := {| isPaused := isPaused q; waiting := waiting q;
               pending := filter (fun j => negb (j =? id)) (pending q);
               nextTask := nextTask q |} in
  snd (tryToStartAnother (emit (E_queue (q_settled id)) (set_uploadQueue q' c))).

(** ** Async methods of the manager

    Each definition runs a method up to its first [await]; the
    [_settled]/[_drained]/... definitions are what runs when the awaited
    promise settles. An [await] on an async method that completes without
    suspending continues in the same turn. *)

(** [createNewStagingBuild()], lines 280-286 *)
Definition createNewStagingBuild (ret : frame) (c : config) : config :=
  await_call (provisionBuild (targetAccountId c) (name (projectCfg c)))
    (K_provisionBuild ret) c.

(** [createNewStagingBuild], the [catch] block, lines 287-294 *)
Definition createNewStagingBuild_catch (err : js_error) (c : config) : config :=
  let c1 := logger (logger_debug_error err) c in
  if isSpecifiedError err PROJECT_LOCKED then
    await_call (cancelStagedBuild (targetAccountId c1) (name (projectCfg c1)))
      K_cancelLocked c1
  else process_exit ERROR c1.

Definition createNewStagingBuild_cancelled (r : response) (c : config)
  : config :=
  match r with
  | Resolved _ =>
      process_exit ERROR
        (logger (logger_log (i18n "previousStagingBuildCancelled" [])) c)
  | Rejected e => emit (E_unhandled e) c
  end.

(** [flushStandbyChanges()], lines 549-563. The boolean tells whether the
    method completed without suspending (the list was empty). *)
Definition flushStandbyChanges (ret : frame) (c : config) : config * bool :=
  match standbyChanges c with
  | [] => (c, true)
  | _ :: _ =>
      let (c1, ids) := queue_addAll (map flush_task (standbyChanges c)) c in
      (await_queue (K_addAll ids ret) c1, false)
  end.

(** [flushStandbyChanges], line 564: after [addAll] resolved. *)
Definition flushStandbyChanges_settled (c : config) : config :=
  set_standbyChanges [] c.

(** [clearConsoleContent()] *)
Definition clearConsoleContent (c : config) : config :=
  spinnies (sp_removeAll (Some "header") None) c.

(** [stop()], lines 105-112; [stopWatching()] closes the watcher, which
    stops delivering events at once. *)
Definition stop (c : config) : config :=
  let c1 := spinnies (sp_add (Key "cleanupMessage") (i18n "exitingStart" [])
                        spinning) (clearConsoleContent c) in
  await_call watcher_close K_watcherClose (set_watching false c1).

(** [stop], line 113: [cleanupServers()] *)
Definition stop_closed (r : response) (c : config) : config :=
  match r with
  | Rejected e => emit (E_unhandled e) c
  | Resolved _ => await_call DevServerManager_cleanup K_cleanup c
  end.

(** [stop], lines 138-148 *)
Definition stop_exit (exitCode : exit_code) (c : config) : config :=
  process_exit exitCode
    match exitCode with
    | SUCCESS =>
        spinnies (sp_succeed (Key "cleanupMessage") (i18n "exitingSucceed" [])) c
    | ERROR =>
        spinnies (sp_fail (Key "cleanupMessage") (i18n "exitingFail" [])) c
    end.

(** [cleanupServers], lines 635-643, then [stop], lines 115-119 *)
Definition stop_cleaned (r : response) (c : config) : config :=
  let c1 := match r with
            | Rejected e =>
                spinnies (sp_add (Key "devServerCleanupError")
                            (i18n "content.devServerCleanupError" [])
                            non_spinnable)
                  (if debug c then logger (logger_error e) c else c)
            | Resolved _ => c
            end in
  if truthy_build (currentStagedBuildId c1) then
    await_call (cancelStagedBuild (targetAccountId c1) (name (projectCfg c1)))
      K_cancelStaged c1
  else stop_exit SUCCESS c1.

(** [stop], lines 120-148: after [cancelStagedBuild] settled. *)
Definition stop_cancelled (r : response) (c : config) : config :=
  match r with
  | Resolved _ => stop_exit SUCCESS c
  | Rejected err =>
      if negb (isSpecifiedError err BUILD_NOT_IN_PROGRESS) then
        stop_exit ERROR
          (logger (logApiErrorInstance err (targetAccountId c)
                     (name (projectCfg c))) c)
      else stop_exit SUCCESS c
  end.

(** [queueBuild], line 496: the remote call. *)
Definition queueBuild_drained (spinniesKey : spin_key) (c : config) : config :=
  await_call (api_queueBuild (targetAccountId c) (name (projectCfg c)))
    (K_queueBuild spinniesKey) c.

(** [pauseUploadQueue()], lines 271-274: [pause()], then [await onIdle()].
    [onIdle()] resolves at once when the queue is idle; otherwise the caller
    [k] is suspended on it. The boolean tells whether the method completed
    without suspending. *)
Definition pauseUploadQueue (k : kont) (c : config) : config * bool :=
  let c1 := queue_pause c in
  if is_idle (uploadQueue c1) then (emit (E_queue q_onIdle) c1, true)
  else (await_queue k c1, false).

(** [queueBuild()], lines 485-493 *)
Definition queueBuild (c : config) : config :=
  let (c1, spinniesKey) :=
    spinnies_add_null (i18n "content.uploadingChanges" []) spinning c in
  let (c2, completed) := pauseUploadQueue (K_onIdle spinniesKey) c1 in
  if completed then queueBuild_drained spinniesKey c2 else c2.

(** [queueBuild], lines 497-524: after the remote call settled. *)
Definition queueBuild_queued (spinniesKey : spin_key) (r : response)
  (c : config) : config :=
  match r with
  | Rejected err =>
      let c1 := logger (logger_debug_error err) c in
      if isSpecifiedError err MISSING_PROJECT_PROVISION then
        stop (logger (logger_log (i18n "cancelledFromUI" [])) c1)
      else
        logger (logApiErrorInstance err (targetAccountId c1)
                  (name (projectCfg c1))) c1
  | Resolved _ =>
      await_call (pollProjectBuildAndDeploy (targetAccountId c) (projectCfg c)
                    (currentStagedBuildId c))
        (K_poll spinniesKey) c
  end.

(** [queueBuild], lines 540-546 *)
Definition queueBuild_finish (c : config) : config :=
  let c1 := queue_start c in
  if hasAnyUnsupportedStandbyChanges c1 then
    fst (flushStandbyChanges F_detached c1)
  else updateDevModeStatus clean c1.

(** [queueBuild], lines 526-538: after the poll settled. *)
Definition queueBuild_polled (spinniesKey : spin_key) (r : response)
  (c : config) : config :=
  match r with
  | Rejected e => emit (E_unhandled e) c
  | Resolved _ =>
      let c1 := spinnies (sp_removeAll None (Some "projectPollStatus"))
                  (spinnies (sp_succeed spinniesKey
                               (i18n "content.uploadedChanges" [])) c) in
      if is_always (uploadPermission c1) then
        createNewStagingBuild F_queueBuild_created c1
      else queueBuild_finish c1
  end.

(** [notifyServers(changeInfo)], lines 600-604 *)
Definition notifyServers (ci : changeInfo) (c : config) : config :=
  await_call (DevServerManager_notify ci) (K_notify ci) c.

(** [notifyServers], lines 605-615: the value the method returns. *)
Definition notifyServers_settled (r : response) (c : config) : config * value :=
  match r with
  | Resolved notifyResponse => (c, notifyResponse)
  | Rejected e =>
      (spinnies (sp_add (Key "devServerNotifyError")
                   (i18n "content.devServerNotifyError" []) non_spinnable)
         (if debug c then logger (logger_error e) c else c),
       VNotify true)
  end.

(** [handleWatchEvent(filePath, event)], lines 316-327 *)
Definition handleWatchEvent (path : string) (ev : watch_event) (c : config)
  : config :=
  let changeInfo :=
    {| event := ev; filePath := path;
       remotePath := path_relative (projectSourceDir c) path;
       supported := None |} in
  if includes (filePath changeInfo) "dist" then c
  else notifyServers changeInfo c.

(** [handleWatchEvent], lines 353-359 *)
Definition handleWatchEvent_flushed (ci : changeInfo) (c : config) : config :=
  let c1 := if negb (isPaused (uploadQueue c))
            then debounceQueueBuild c else c in
  fst (queue_add (send_task ci) c1).

(** [handleWatchEvent], lines 337-360: the change requires an upload. *)
Definition handleWatchEvent_upload (ci : changeInfo) (c : config) : config :=
  if negb (is_always (uploadPermission c)) then handlePreventedUpload ci c
  else if isPaused (uploadQueue c) then
    if negb (standby_has_path (filePath ci) c)
    then addChangeToStandbyQueue (with_supported ci false) c
    else c
  else
    let (c1, completed) := flushStandbyChanges (F_handleWatchEvent ci) c in
    if completed then handleWatchEvent_flushed ci c1 else c1.

(** [handleWatchEvent], lines 329-335: the dev server handles the change. *)
Definition handleWatchEvent_supported (ci : changeInfo) (resp : value)
  (c : config) : config :=
  let c1 := updateDevModeStatus supportedChange c in
  let c2 := addChangeToStandbyQueue (with_supported ci true) c1 in
  await_call (DevServerManager_execute ci resp) K_execute c2.

(** [handleWatchEvent], lines 327-329: [notifyResponse.uploadRequired]. *)
Definition handleWatchEvent_notified (ci : changeInfo) (r : response)
  (c : config) : config :=
  let (c1, notifyResponse) := notifyServers_settled r c in
  match notifyResponse with
  | VUndefined =>
      emit (E_unhandled (TypeError "Cannot read properties of undefined")) c1
  | VNotify true => handleWatchEvent_upload ci c1
  | VNotify false | VBuild _ =>
      handleWatchEvent_supported ci notifyResponse c1
  end.

(** [executeServers], lines 621-629 *)
Definition executeServers_settled (r : response) (c : config) : config :=
  match r with
  | Rejected e =>
      spinnies (sp_add (Key "devServerExecuteError")
                  (i18n "content.devServerExecuteError" []) non_spinnable)
        (if debug c then logger (logger_error e) c else c)
  | Resolved _ => c
  end.

(** A key press as delivered by [handleKeypress]. *)
Record keypress : Type := { key_ctrl : bool; key_name : string }.

(** The handler installed by [updateKeypressListeners()], lines 227-260 *)
Definition onKeypress (key : keypress) (c : config) : config :=
  if (key_ctrl key && String.eqb (key_name key) "c")
     || String.eqb (key_name key) "q" then
    stop c
  else if (String.eqb (key_name key) "y" || String.eqb (key_name key) "n")
          && is_manual (uploadPermission c)
          && hasAnyUnsupportedStandbyChanges c then
    let c1 := spinnies (sp_remove (Key "manualUploadPrompt"))
                (spinnies (sp_remove (Key "manualUploadExplanation2"))
                   (spinnies (sp_remove (Key "manualUploadExplanation1"))
                      (spinnies (sp_remove (Key "manualUploadRequired")) c))) in
    if String.eqb (key_name key) "y" then
      let c2 := fst (spinnies_add_null (i18n "content.manualUploadConfirmed" [])
                       st_succeed c1) in
      createNewStagingBuild F_keypress_created
        (updateDevModeStatus manualUpload c2)
    else
      fst (spinnies_add_null (i18n "content.manualUploadSkipped" []) st_fail c1)
  else c.

(** [updateConsoleHeader()], lines 151-220. The text of the link line
    depends on [DevServerManager.initialized], which is not recorded. *)
Definition updateConsoleHeader (c : config) : config :=
  let header := [
    sp_addOrUpdate (Key "betaMessage") (i18n "header.betaMessage" [])
      non_spinnable;
    sp_addOrUpdate (Key "spacer-1") (literal " ") non_spinnable;
    sp_addOrUpdate (Key "devModeRunning") (i18n "header.running" []) spinning;
    sp_addOrUpdate (Key "devModeStatus") (i18n "header.status.clean" [])
      non_spinnable;
    sp_addOrUpdate (Key "viewInHubSpotLink")
      (i18n "header.viewInHubSpotLink" []) non_spinnable;
    sp_addOrUpdate (Key "spacer-2") (literal " ") non_spinnable;
    sp_addOrUpdate (Key "quitHelper") (i18n "header.quitHelper" [])
      non_spinnable;
    sp_addOrUpdate (Key "lineSeparator")
      (literal "--------------------------------------------------")
      non_spinnable ] in
  set_devModeStatus (Some clean)
    (fold_left (fun acc op => spinnies op acc) header c).

(** [start()], lines 74-96. [console.clear()] and the debug listener on
    queue errors are not recorded. *)
Definition start (c : config) : config :=
  let c1 := emit E_watch c in
  let c2 := updateConsoleHeader (spinnies (sp_removeAll None None) c1) in
  let c3 := queue_start c2 in
  await_call DevServerManager_start K_startServers c3.

(** [startWatching], lines 302-313, then [start], lines 99-102 *)
Definition start_watching (c : config) : config :=
  let c1 := set_watching true c in
  let c2 := set_listening true (emit E_keypress c1) in
  updateConsoleHeader c2.

(** [startServers], lines 589-597, then [startWatching], lines 298-300 *)
Definition start_served (r : response) (c : config) : config :=
  let c1 := match r with
            | Rejected e =>
                spinnies (sp_add (Key "devServerStartError")
                            (i18n "content.devServerStartError" [])
                            non_spinnable)
                  (if debug c then logger (logger_error e) c else c)
            | Resolved _ => c
            end in
  if is_always (uploadPermission c1) then
    createNewStagingBuild F_startWatching c1
  else start_watching c1.

(** [handleServerLog(serverKey, ...args)] *)
Definition handleServerLog (message : string) (c : config) : config :=
  fst (spinnies_add_null (literal message) non_spinnable c).

(** ** The event loop *)

(** Return to the method that awaited a callee. *)
Definition continue (ret : frame) (c : config) : config :=
  match ret with
  | F_startWatching => start_watching c
  | F_keypress_created =>
      let (c1, completed) := flushStandbyChanges F_keypress_flushed c in
      if completed then queueBuild c1 else c1
  | F_keypress_flushed => queueBuild c
  | F_queueBuild_created => queueBuild_finish c
  | F_handleWatchEvent ci => handleWatchEvent_flushed ci c
  | F_detached => c
  end.

(** [createNewStagingBuild], line 286: [const { buildId } = await ...]. *)
Definition createNewStagingBuild_settled (ret : frame) (r : response)
  (c : config) : config :=
  match r with
  | Resolved (VBuild buildId) =>
      continue ret (set_currentStagedBuildId (Some buildId) c)
  | Resolved (VNotify _) => continue ret (set_currentStagedBuildId None c)
  | Resolved VUndefined =>
      createNewStagingBuild_catch
        (TypeError "Cannot destructure property 'buildId'") c
  | Rejected err => createNewStagingBuild_catch err c
  end.

(** Run a suspended function whose awaited promise settled with [r]. *)
Definition resume (k : kont) (r : response) (c : config) : config :=
  match k with
  | K_startServers => start_served r c
  | K_provisionBuild ret => createNewStagingBuild_settled ret r c
  | K_cancelLocked => createNewStagingBuild_cancelled r c
  | K_notify ci => handleWatchEvent_notified ci r c
  | K_execute => executeServers_settled r c
  | K_addAll _ ret => continue ret (flushStandbyChanges_settled c)
  | K_task id ci spinniesKey =>
      queue_next id (sendChanges_settled ci spinniesKey r c)
  | K_onIdle spinniesKey =>
      queueBuild_drained spinniesKey (emit (E_queue q_onIdle) c)
  | K_queueBuild spinniesKey => queueBuild_queued spinniesKey r c
  | K_poll spinniesKey => queueBuild_polled spinniesKey r c
  | K_watcherClose => stop_closed r c
  | K_cleanup => stop_cleaned r c
  | K_cancelStaged => stop_cancelled r c
  end.

(** What the environment can make happen. *)
Inductive input : Type :=
| InWatch (ev : watch_event) (path : string)  (* the watcher emits an event *)
| InKey (key : keypress)
| InServerLog (message : string)
| InAdvance (dt : Z)                  (* time passes *)
| InTimer (id : nat)                  (* a due timer fires *)
| InSettle (n : nat) (r : response)   (* the call awaited by the n-th
                                         suspended function settles *)
| InWake (n : nat).                   (* the queue promise awaited by the
                                         n-th suspended function resolved *)

Fixpoint remove_nth {A : Type} (n : nat) (l : list A) : list A :=
  match n, l with
  | _, [] => []
  | 0, _ :: rest => rest
  | S m, x :: rest => x :: remove_nth m rest
  end.

Definition timer_deadline (id : nat) (c : config) : option Z :=
  option_map snd (find (fun t => fst t =? id) (timers c)).

(** A timer fires: it leaves the timer list and [queueBuild] is called. *)
Definition fire_timer (id : nat) (c : config) : config :=
  queueBuild
    (emit (E_timer (timer_fired id))
       (set_timers (filter (fun t => negb (fst t =? id)) (timers c)) c)).

(** Whether the queue promise a suspended function awaits has resolved. *)
Definition ready (k : kont) (c : config) : bool :=
  match k with
  | K_onIdle _ => is_idle (uploadQueue c)
  | K_addAll ids _ => forallb (settled (uploadQueue c)) ids
  | _ => false
  end.

(** One turn of the event loop. Nothing runs after [process.exit]; an
    input that cannot occur in the current state changes nothing. *)
Definition step (c : config) (i : input) : config :=
  match exited c with
  | Some _ => c
  | None =>
      match i with
      | InWatch ev path =>
          if watching c && negb (shouldIgnoreFile path false)
          then handleWatchEvent path ev c else c
      | InKey key => if listening c then onKeypress key c else c
      | InServerLog message => handleServerLog message c
      | InAdvance dt =>
          if (0 <=? dt)%Z then set_now (now c + dt)%Z c else c
      | InTimer id =>
          match timer_deadline id c with
          | Some deadline =>
              if (deadline <=? now c)%Z then fire_timer id c else c
          | None => c
          end
      | InSettle n r =>
          match nth_error (pool c) n with
          | Some k =>
              if awaits_queue k then c
              else resume k r (set_pool (remove_nth n (pool c)) c)
          | None => c
          end
      | InWake n =>
          match nth_error (pool c) n with
          | Some k =>
              if ready k c
              then resume k (Resolved VUndefined)
                     (set_pool (remove_nth n (pool c)) c)
              else c
          | None => c
          end
      end
  end.

Definition run (c : config) (inputs : list input) : config :=
  fold_left step inputs c.

(** ** The constructor *)

Inductive constructed : Type :=
| Manager (c : config)                (* [new LocalDevManager(options)] returned *)
| Exits (log : list effect) (code : exit_code)   (* process.exit *)
| Throws (e : js_error).

(** [constructor(options)], lines 48-72 *)
Definition constructor (o : options) : constructed :=
  match o_projectConfig o with
  | None => Throws (TypeError "Cannot read properties of undefined")
  | Some cfg =>
      match o_projectDir o, srcDir cfg with
      | Some dir, Some src =>
          if negb (truthy_num (o_targetAccountId o))
             || negb (truthy_obj (Some cfg))
             || negb (truthy_str (Some dir)) then
            Exits [E_log (logger_log (i18n "failedToInitialize" []));
                   E_exit ERROR] ERROR
          else
            Manager
              {| targetAccountId :=
                   match o_targetAccountId o with Some n => n | None => 0%Z end;
                 projectCfg := cfg;
                 projectDir := dir;
                 port := o_port o;
                 uploadPermission :=
                   match o_uploadPermission o with
                   | Some p => p
                   | None => UP_always
                   end;
                 debug := match o_debug o with Some b => b | None => false end;
                 projectSourceDir := path_join dir src;
                 standbyChanges := [];
                 debouncedBuild := None;
                 currentStagedBuildId := None;
                 uploadQueue := new_PQueue;
                 devModeStatus := None;
                 spinCount := 0;
                 watching := false;
                 listening := false;
                 now := 0%Z;
                 timers := [];
                 timerCount := 0;
                 pool := [];
                 exited := None;
                 trace := [] |}
      | _, _ =>
          Throws (TypeError "The path argument must be of type string")
      end
  end.

End Model.

(** ** Vocabulary of the properties *)

(** *** Effects in a trace *)

Definition count (p : effect -> bool) (tr : list effect) : nat :=
  List.length (filter p tr).

Arguments count : simpl never.

Definition is_cancel_call (e : effect) : bool :=
  match e with
  | E_call (cancelStagedBuild _ _) => true
  | _ => false
  end.

(** The remote [queueBuild] call. *)
Definition is_queue_call (e : effect) : bool :=
  match e with
  | E_call (api_queueBuild _ _) => true
  | _ => false
  end.

(** [uploadFileToBuild] or [deleteFileFromBuild]. *)
Definition is_upload_call (e : effect) : bool :=
  match e with
  | E_call (uploadFileToBuild _ _ _ _) => true
  | E_call (deleteFileFromBuild _ _ _) => true
  | _ => false
  end.

Definition is_upload_of (path : string) (e : effect) : bool :=
  match e with
  | E_call (uploadFileToBuild _ _ file _) => String.eqb file path
  | _ => false
  end.

Definition is_poll_call (e : effect) : bool :=
  match e with
  | E_call (pollProjectBuildAndDeploy _ _ _) => true
  | _ => false
  end.

(** The first effect of every run of the method [queueBuild], and of
    nothing else: the spinner line [content.uploadingChanges]. *)
Definition is_queueBuild_entry (e : effect) : bool :=
  match e with
  | E_spin (sp_add _ (i18n key _) _) => String.eqb key "content.uploadingChanges"
  | _ => false
  end.

Definition is_add (e : effect) : bool :=
  match e with E_queue (q_add _ _) => true | _ => false end.

(** The tasks handed to the upload queue, in the order of their [add]. *)
Definition added_tasks (tr : list effect) : list task :=
  flat_map (fun e => match e with E_queue (q_add _ t) => [t] | _ => [] end) tr.

(** *** The standby filter, in the spec's words *)

(** An event is kept when its kind is exempt from the extension check or
    its extension is allowed, and its path matches no ignore rule. *)
Definition exempt_from_extension_check (ev : watch_event) : bool :=
  match ev with
  | WE_add | WE_change => false
  | WE_unlink | WE_unlinkDir => true
  end.

Definition enters_standby {ext : Externals} (ci : changeInfo) : bool :=
  (exempt_from_extension_check (event ci) || isAllowedExtension (filePath ci))
  && negb (shouldIgnoreFile (filePath ci) true).

(** *** Runs of the event loop *)

(** The call awaited by the most recently suspended function settles. *)
Definition settle_last {ext : Externals} (r : response) (c : config) : config :=
  step c (InSettle (List.length (pool c) - 1) r).

(** [stop()] run to its end: the watcher closes, the dev servers clean up
    with [r_cleanup], and the cancellation (if one is issued) settles with
    [r_cancel]. *)
Definition stop_to_exit {ext : Externals} (r_cleanup r_cancel : response)
  (c : config) : config :=
  settle_last r_cancel
    (settle_last r_cleanup (settle_last (Resolved VUndefined) (stop c))).

(** The exit code [stop()] derives from the outcome of the cancellation. *)
Definition cancel_exit_code (r_cancel : response) : exit_code :=
  match r_cancel with
  | Resolved _ => SUCCESS
  | Rejected err =>
      if isSpecifiedError err BUILD_NOT_IN_PROGRESS then SUCCESS else ERROR
  end.

(** An upload-required change arrives: the watcher reports it and the dev
    servers answer that it has to be uploaded. *)
Definition upload_required_change {ext : Externals} (ev : watch_event)
  (path : string) (c : config) : config :=
  settle_last (Resolved (VNotify true)) (step c (InWatch ev path)).

(** [dt] ms pass, then the event loop runs the timers that are due. *)
Definition elapse {ext : Externals} (dt : Z) (c : config) : config :=
  let c1 := step c (InAdvance dt) in
  fold_left (fun acc t => step acc (InTimer (fst t))) (timers c1) c1.

(** Further changes, each arriving [gap] ms after the one before it. *)
Fixpoint burst {ext : Externals} (changes : list (Z * (watch_event * string)))
  (c : config) : config :=
  match changes with
  | [] => c
  | (gap, (ev, path)) :: rest =>
      burst rest (upload_required_change ev path (elapse gap c))
  end.

Definition within_quiet_period (change : Z * (watch_event * string)) : Prop :=
  (0 <= fst change < BUILD_DEBOUNCE_TIME)%Z.

(** A path the watcher reports and [handleWatchEvent] does not skip. *)
Definition visible {ext : Externals} (path : string) : Prop :=
  shouldIgnoreFile path false = false /\ includes path "dist" = false.

(** *** The timer slot *)

(** At most one timer is pending, and it is the one [debouncedBuild] holds. *)
Definition slot_ok (c : config) : Prop :=
  timers c = [] \/
  exists id d, timers c = [(id, d)] /\ debouncedBuild c = Some id.

Definition deadlines (c : config) : list Z := map snd (timers c).

(** The single timer is pending and due one quiet period from now. *)
Definition armed (c : config) : Prop :=
  slot_ok c /\ deadlines c = [(now c + BUILD_DEBOUNCE_TIME)%Z].

(** The session uploads changes as they come: [always] mode, the watcher
    on, the upload queue running and the standby list empty. *)
Definition uploading (c : config) : Prop :=
  exited c = None
  /\ watching c = true
  /\ uploadPermission c = UP_always
  /\ isPaused (uploadQueue c) = false
  /\ standbyChanges c = [].

(** *** What a method leaves alone *)

(** Effects other than the remote [queueBuild] call and the entry of the
    method [queueBuild]. *)
Definition quiet_effect (e : effect) : bool :=
  negb (is_queue_call e || is_queueBuild_entry e).

(** [c'] extends the trace of [c] by effects satisfying [p]. *)
Definition emits (p : effect -> bool) (c c' : config) : Prop :=
  exists d, trace c' = trace c ++ d /\ forallb p d = true.

(** The timer slot survives, and either keeps its deadline or was re-armed. *)
Definition timer_frame (c c' : config) : Prop :=
  slot_ok c ->
  slot_ok c'
  /\ (deadlines c' = deadlines c
      \/ deadlines c' = [(now c + BUILD_DEBOUNCE_TIME)%Z]).

(** [c'] is reached from [c] without running any part of [queueBuild] and
    without the clock moving. *)
Definition quiet (c c' : config) : Prop :=
  emits quiet_effect c c' /\ now c' = now c /\ timer_frame c c'.

(** How a turn of the event loop can end with respect to [queueBuild]:
    without running any of it, by entering it, or by resuming it after
    [onIdle()] resolved. *)
Inductive ends_queueing (c : config) : config -> Prop :=
| eq_quiet c' : quiet c c' -> ends_queueing c c'
| eq_entry c1 : quiet c c1 -> ends_queueing c (queueBuild c1)
| eq_wake c1 key :
    quiet c c1 -> is_idle (uploadQueue c1) = true ->
    ends_queueing c (queueBuild_drained key (emit (E_queue q_onIdle) c1)).

(** [c'] differs from [c] by the start of queue jobs only. *)
Definition keeps (c c' : config) : Prop :=
  exited c' = exited c
  /\ watching c' = watching c
  /\ uploadPermission c' = uploadPermission c
  /\ standbyChanges c' = standbyChanges c
  /\ isPaused (uploadQueue c') = isPaused (uploadQueue c)
  /\ nextTask (uploadQueue c') = nextTask (uploadQueue c)
  /\ added_tasks (trace c') = added_tasks (trace c).

(** *** Upload permission [never] *)

(** The suspended functions a session in [never] mode can have. *)
Definition never_kont (k : kont) : bool :=
  match k with
  | K_startServers | K_notify _ | K_execute
  | K_watcherClose | K_cleanup | K_cancelStaged => true
  | _ => false
  end.

(** A session in [never] mode: no timer pending and nothing suspended that
    could reach the upload queue. *)
Definition never_uploads (c : config) : Prop :=
  uploadPermission c = UP_never
  /\ timers c = []
  /\ forallb never_kont (pool c) = true.

(** [c'] extends [c] without an upload and without leaving [never] mode. *)
Definition calm (c c' : config) : Prop :=
  uploadPermission c' = uploadPermission c
  /\ timers c' = timers c
  /\ (exists ks, pool c' = pool c ++ ks /\ forallb never_kont ks = true)
  /\ count is_upload_call (trace c') = count is_upload_call (trace c).

(** *** Sample data *)

Definition strip_prefix (from to : string) : string :=
  if String.prefix from to
  then substring (S (String.length from)) (String.length to) to
  else to.

(** Stand-ins for the library functions, for the concrete runs below. *)
Definition sample_externals : Externals := {|
  path_join a b := (a ++ "/" ++ b)%string;
  path_relative := strip_prefix;
  isAllowedExtension p := negb (includes p ".exe");
  shouldIgnoreFile p _ := includes p "node_modules"
|}.

Definition sample_options (permission : upload_permission) : options :=
  {| o_targetAccountId := Some 42%Z;
     o_projectConfig := Some {| name := "proj"; srcDir := Some "src" |};
     o_projectDir := Some "/p";
     o_port := None;
     o_uploadPermission := Some permission;
     o_debug := None |}.

(** The manager built from [sample_options], before [start()]. *)
Definition sample_manager (permission : upload_permission) : config :=
  {| targetAccountId := 42%Z;
     projectCfg := {| name := "proj"; srcDir := Some "src" |};
     projectDir := "/p";
     port := None;
     uploadPermission := permission;
     debug := false;
     projectSourceDir := "/p/src";
     standbyChanges := [];
     debouncedBuild := None;
     currentStagedBuildId := None;
     uploadQueue := new_PQueue;
     devModeStatus := None;
     spinCount := 0;
     watching := false;
     listening := false;
     now := 0%Z;
     timers := [];
     timerCount := 0;
     pool := [];
     exited := None;
     trace := [] |}.

(** The sample manager after [start()]: the dev servers started and, under
    [always], build 7 was provisioned. *)
Definition sample_running (permission : upload_permission) : config :=
  run (ext := sample_externals) (start (sample_manager permission))
    [InSettle 0 (Resolved VUndefined); InSettle 0 (Resolved (VBuild 7))].

Definition sample_change (path : string) : changeInfo :=
  {| event := WE_change; filePath := path;
     remotePath := strip_prefix "/p/src" path; supported := Some true |}.

(** The running sample after the dev servers handled a change to
    ['/p/src/a.jsx'] themselves: the change sits in the standby list. *)
Definition sample_buffered : config :=
  run (ext := sample_externals) (sample_running UP_always)
    [InWatch WE_change "/p/src/a.jsx";
     InSettle 0 (Resolved (VNotify false));
     InSettle 0 (Resolved VUndefined)].

(** The running sample after one uploaded change, with the debounce timer
    due. *)
Definition sample_due : config :=
  run (ext := sample_externals) (sample_running UP_always)
    [InWatch WE_change "/p/src/theme/template.html";
     InSettle 0 (Resolved (VNotify true));
     InSettle 0 (Resolved VUndefined);
     InAdvance 3500].


(** *** The jobs of the upload queue *)

Definition task_id (k : kont) : list nat :=
  match k with
  | K_task id _ _ => [id]
  | _ => []
  end.

(** The queue jobs whose upload or delete call has been issued and has not
    settled: the [sendChanges] calls suspended in the pool. *)
Definition in_flight (c : config) : list nat := flat_map task_id (pool c).

(** The jobs the queue holds, started or not. *)
Definition job_ids (q : PQueue) : list nat := pending q ++ map fst (waiting q).

(** The books of the queue are in order: the started jobs are the
    suspended uploads, no job is held twice, every job was numbered by
    [add], and no more than [CONCURRENCY] jobs are started. *)
Definition queue_ok (c : config) : Prop :=
  Permutation (in_flight c) (pending (uploadQueue c))
  /\ NoDup (job_ids (uploadQueue c))
  /\ Forall (fun id => id < nextTask (uploadQueue c)) (job_ids (uploadQueue c))
  /\ List.length (pending (uploadQueue c)) <= CONCURRENCY.

(** *** The standby list *)

(** The paths buffered as requiring an upload. *)
Definition unsupported_paths (c : config) : list string :=
  map filePath (filter not_supported (standbyChanges c)).

Definition standby_distinct (c : config) : Prop := NoDup (unsupported_paths c).

Definition session_ok (c : config) : Prop := queue_ok c /\ standby_distinct c.

(** [c'] is in order whenever [c] is. *)
Definition steady (c c' : config) : Prop := session_ok c -> session_ok c'.

(** The API call [sendChanges] makes for a watch event. *)
Definition api_call_of (c : config) (ci : changeInfo) : ext_call :=
  match event ci with
  | WE_add | WE_change =>
      uploadFileToBuild (targetAccountId c) (name (projectCfg c))
        (filePath ci) (remotePath ci)
  | WE_unlink | WE_unlinkDir =>
      deleteFileFromBuild (targetAccountId c) (name (projectCfg c))
        (remotePath ci)
  end.

(** *** Upload permission [manual] *)

(** The key press that confirms a manual upload. *)
Definition is_approval (i : input) : bool :=
  match i with
  | InKey key => String.eqb (key_name key) "y"
  | _ => false
  end.

(** A call to the remote build API: the functions of
    [@hubspot/cli-lib/api/dfs] and the poll of a build. *)
Definition is_build_api_call (e : effect) : bool :=
  match e with
  | E_call (provisionBuild _ _)
  | E_call (uploadFileToBuild _ _ _ _)
  | E_call (deleteFileFromBuild _ _ _)
  | E_call (api_queueBuild _ _)
  | E_call (cancelStagedBuild _ _)
  | E_call (pollProjectBuildAndDeploy _ _ _) => true
  | _ => false
  end.

(** The suspended functions of a session that has no staged build and may
    not upload. *)
Definition offline_kont (k : kont) : bool :=
  match k with
  | K_startServers | K_notify _ | K_execute | K_watcherClose | K_cleanup => true
  | _ => false
  end.

(** A session that cannot reach the remote build by itself: the permission
    is not [always], no build is staged, no timer is pending and nothing
    suspended could reach the upload queue. *)
Definition gated (c : config) : Prop :=
  is_always (uploadPermission c) = false
  /\ timers c = []
  /\ currentStagedBuildId c = None
  /\ forallb offline_kont (pool c) = true.

(** [c'] extends [c] without a call to the remote build API and without
    leaving the gated states. *)
Definition offline (c c' : config) : Prop :=
  uploadPermission c' = uploadPermission c
  /\ timers c' = timers c
  /\ currentStagedBuildId c' = currentStagedBuildId c
  /\ (exists ks, pool c' = pool c ++ ks /\ forallb offline_kont ks = true)
  /\ emits (fun e => negb (is_build_api_call e)) c c'.

(** *** Staging builds *)

Definition is_provision_call (e : effect) : bool :=
  match e with
  | E_call (provisionBuild _ _) => true
  | _ => false
  end.

(** The outcome of an awaited upload or delete call, as [sendChanges] logs
    it: a debug line for a failure, nothing for a success. *)
Definition upload_outcome_log (r : response) : list effect :=
  match r with
  | Rejected err => [E_log (logger_debug_error err)]
  | Resolved _ => []
  end.

(** [c'] is reached from [c] without a [provisionBuild] call and with the
    staged build as it was. *)
Definition unstaged (c c' : config) : Prop :=
  currentStagedBuildId c' = currentStagedBuildId c
  /\ emits (fun e => negb (is_provision_call e)) c c'.

(** * Other commands and helpers of the CLI

    Each module below embeds one of the other sources. What a function gets
    from modules that are not part of these sources (the account config,
    the prompt, the remote calls) is a field of a record or a parameter of
    the section; what it does to the outside is a list of effects. *)

(** ** [hs sandbox sync]: the command handler *)

Module SandboxSync.

(** A property that may be [undefined], [null] or a string. *)
Inductive js_string : Type :=
| Undefined
| Null
| Str (s : string).

(** An entry of [config.portals]. *)
Record portal : Type := {
  portalId : Z;
  parentAccountId : option Z          (* [undefined] when absent *)
}.

(** What [initiateSync] resolves to: [result.links.status] is read. *)
Inductive sync_result : Type :=
| no_result                           (* [undefined] *)
| no_links                            (* an object without [links] *)
| links (status : option string).

Inductive settled (A : Type) : Type :=
| resolved (v : A)
| rejected (e : string).

Arguments resolved {A} v.
Arguments rejected {A} e.

(** The outside of the handler: what the modules it calls return. *)
Record world : Type := {
  portals : list portal;              (* [getConfig().portals] *)
  accountId : Z;                      (* [getAccountId(options)] *)
  sandboxAccountType : js_string;     (* of [getAccountConfig(accountId)] *)
  (** [getAccountId({ account })], as a truth value *)
  known_account : option Z -> bool;
  env_is_qa : bool;                   (* [getEnv(accountId) === 'qa'] *)
  confirmSandboxSyncPrompt : bool;    (* the answer to the prompt *)
  syncTasks : settled (list string);  (* [getSyncTasks(accountConfig)] *)
  (** [initiateSync(parentAccountId, accountId, tasks, accountId)] *)
  syncOutcome : option Z -> Z -> list string -> settled sync_result
}.

(** The values interpolated in a message. *)
Inductive arg : Type :=
| arg_account (id : option Z)
| arg_accountName (id : option Z)     (* [getAccountName(getAccountConfig(id))] *)
| arg_url (qa : bool) (parent : option Z)
    (* [`${getHubSpotWebsiteOrigin(env)}/sandboxes/${parentAccountId}`] *)
| arg_command (qa : bool) (parent : option Z)
    (* [`hs auth ${qa ? '--qa' : ''} --account=${parentAccountId}`] *)
| arg_status (url : option string).

(** A message: [i18n] of a key under
    [cli.commands.sandbox.subcommands.sync], or a literal. *)
Inductive message : Type :=
| i18n (key : string) (args : list arg)
| literal (s : string).

Inductive effect : Type :=
| loadAndValidateOptions
| logger_log (m : message)
| logger_warn (m : message)
| logger_error (m : message)
| uiLine
| promptUser (name : string) (m : message)
| spinnies_add (key : string) (m : message)
| spinnies_update (key : string) (m : message)
| spinnies_succeed (key : string) (m : message)
| spinnies_fail (key : string) (m : message)
| getSyncTasks
| initiateSync (parent : option Z) (account : Z) (tasks : list string)
    (sandbox : Z)
| console_log (s : string)
| debugErrorAndContext (e : string)
| process_exit (code : exit_code).

(** How the promise of the handler ends. *)
Inductive outcome : Type :=
| Returned
| Exited (code : exit_code).

(** Lines 787-794: the [parentAccountId] of the last entry of
    [config.portals] for this account that has one. *)
Definition find_parent (ps : list portal) (account : Z) : option Z :=
  fold_left
    (fun parent p =>
       if Z.eqb (portalId p) account then
         if truthy_num (parentAccountId p) then parentAccountId p else parent
       else parent)
    ps None.

(** Lines 880-891: the [catch] block around the sync. *)
Definition sync_failed (e : string) : list effect * outcome :=
  ([console_log "error with sync: ";
    debugErrorAndContext e;
    spinnies_fail "sandboxSync" (i18n "loading.fail" []);
    process_exit ERROR],
   Exited ERROR).

(** Lines 847-899: the sync itself. *)
Definition sync (w : world) (parent : option Z) : list effect * outcome :=
  let started :=
    [spinnies_add "sandboxSync" (i18n "loading.startSync" []); getSyncTasks] in
  match syncTasks w with
  | rejected e => (started ++ fst (sync_failed e), snd (sync_failed e))
  | resolved tasks =>
      let called :=
        started ++ [initiateSync parent (accountId w) tasks (accountId w)] in
      match syncOutcome w parent (accountId w) tasks with
      | rejected e => (called ++ fst (sync_failed e), snd (sync_failed e))
      | resolved no_result =>
          (called
           ++ fst (sync_failed
                     "TypeError: Cannot read properties of undefined (reading 'links')"),
           Exited ERROR)
      | resolved no_links =>
          (called
           ++ fst (sync_failed
                     "TypeError: Cannot read properties of undefined (reading 'status')"),
           Exited ERROR)
      | resolved (links status) =>
          (called
           ++ [logger_log (i18n "info.syncStatus" [arg_status status]);
               logger_log (literal EmptyString);
               console_log "result: ";
               spinnies_update "sandboxSync" (i18n "loading.syncing" []);
               logger_log (literal EmptyString);
               spinnies_succeed "sandboxSync" (i18n "loading.succeed" []);
               console_log "it is done"],
           Returned)
      end
  end.

(** [exports.handler], lines 755-900 *)
Definition handler (w : world) : list effect * outcome :=
  match sandboxAccountType w with
  | Undefined | Null =>
      ([loadAndValidateOptions;
        logger_error (i18n "failure.notSandbox" []);
        process_exit ERROR],
       Exited ERROR)
  | Str type =>
      if negb (String.eqb type "DEVELOPER") then
        ([loadAndValidateOptions; process_exit ERROR], Exited ERROR)
      else
        let checked :=
          [loadAndValidateOptions;
           logger_log (i18n "info.developmentSandbox" [])] in
        let parent := find_parent (portals w) (accountId w) in
        if negb (known_account w parent) then
          (checked
           ++ [logger_log (literal EmptyString);
               logger_error
                 (i18n "missingParentPortal"
                    [arg_account parent;
                     arg_url (env_is_qa w) parent;
                     arg_command (env_is_qa w) parent]);
               logger_log (literal EmptyString);
               process_exit ERROR],
           Exited ERROR)
        else
          let names := [arg_accountName parent;
                        arg_accountName (Some (accountId w))] in
          let asked :=
            checked
            ++ [logger_log (i18n "info.sync" names);
                uiLine;
                logger_warn (i18n "warning" []);
                uiLine;
                promptUser "confirmSandboxSyncPrompt"
                  (i18n "confirm.developmentSandbox" names)] in
          if negb (confirmSandboxSyncPrompt w) then
            (asked ++ [process_exit SUCCESS], Exited SUCCESS)
          else
            (asked ++ fst (sync w parent), snd (sync w parent))
  end.

(** A call of [initiateSync]. *)
Definition is_sync_call (e : effect) : bool :=
  match e with
  | initiateSync _ _ _ _ => true
  | _ => false
  end.

End SandboxSync.

(** ** The template validator of the theme validators *)

Module TemplateValidator.

Definition TEMPLATE_LIMIT : nat := 50.

Definition TEMPLATE_COUNT_IGNORE_LIST : list string := ["global_partial"; "none"].

(** An entry of [VALIDATIONS_BY_TYPE]; a property the entry does not have
    is [None] ([undefined]). *)
Record validations : Type := {
  allowed : option bool;
  label : option bool;
  screenshot : option bool
}.

Definition rule (a l s : bool) : validations :=
  {| allowed := Some a; label := Some l; screenshot := Some s |}.

(** [{ allowed: false }] *)
Definition not_allowed : validations :=
  {| allowed := Some false; label := None; screenshot := None |}.

Definition VALIDATIONS_BY_TYPE : list (string * validations) :=
  [("page", rule true true true);
   ("starter_landing_pages", not_allowed);
   ("email", not_allowed);
   ("blog", not_allowed);
   ("none", rule true false false);
   ("error_page", rule true true false);
   ("password_prompt_page", rule true true false);
   ("email_subscription_preferences_page", rule true true false);
   ("email_backup_unsubscribe_page", rule true true false);
   ("email_subscriptions_confirmation_page", rule true true false);
   ("search_results_page", rule true true false);
   ("membership_login_page", rule true true false);
   ("membership_register_page", rule true true false);
   ("membership_reset_page", rule true true false);
   ("membership_reset_request_page", rule true true false);
   ("membership_email_page", rule true true false);
   ("global_partial", rule true true false);
   ("knowledge_article", not_allowed);
   ("drag_drop_email", not_allowed);
   ("proposal", not_allowed);
   ("blog_listing", rule true true true);
   ("blog_post", rule true true true)].

(** The names an object literal inherits from [Object.prototype]: looking
    one of them up in [VALIDATIONS_BY_TYPE] yields a function (or the
    prototype itself), which is truthy and has none of the three
    properties. *)
Definition OBJECT_PROTOTYPE : list string :=
  ["constructor"; "hasOwnProperty"; "isPrototypeOf"; "propertyIsEnumerable";
   "toLocaleString"; "toString"; "valueOf"; "__proto__"; "__defineGetter__";
   "__defineSetter__"; "__lookupGetter__"; "__lookupSetter__"].

Definition inherited : validations :=
  {| allowed := None; label := None; screenshot := None |}.

(** [VALIDATIONS_BY_TYPE[templateType]] *)
Definition lookup (templateType : string) : option validations :=
  match find (fun entry => String.eqb (fst entry) templateType)
          VALIDATIONS_BY_TYPE with
  | Some entry => Some (snd entry)
  | None =>
      if existsb (String.eqb templateType) OBJECT_PROTOTYPE
      then Some inherited else None
  end.

(** [ANNOTATION_KEYS], the four that are read. *)
Inductive annotation_key : Type :=
| isAvailableForNewContent
| templateType
| label_key
| screenshotPath.

(** [@hubspot/cli-lib/templates] and Node's [path.relative]. *)
Class Library : Type := {
  annotations : Type;
  isCodedFile : string -> bool;
  getFileAnnotations : string -> annotations;
  (** a string, or [None] when the annotation is absent *)
  getAnnotationValue : annotations -> annotation_key -> option string;
  path_relative : string -> string -> string
}.

(** What [this.getError(this.errors.X, context)] is built from: the entry
    of [this.errors], named by its [key], and the context. *)
Inductive validation_error : Type :=
| limitExceeded (limit total : nat)
| missingTemplateType (templatePath : string)
| unknownTemplateType (templatePath type : string)
| restrictedTemplateType (templatePath type : string)
| missingLabel (templatePath : string)
| missingScreenshotPath (templatePath : string).

Definition truthy (flag : option bool) : bool :=
  match flag with
  | Some b => b
  | None => false
  end.

Definition is_false_literal (x : option string) : bool :=
  match x with
  | Some s => String.eqb s "false"
  | None => false
  end.

Section Validate.

Context {lib : Library}.

(** The body of [files.forEach], lines 101-171, on the two accumulators
    [validationErrors] and [templateCount]. *)
Definition visit (absoluteThemePath : string)
  (acc : list validation_error * nat) (filePath : string)
  : list validation_error * nat :=
  let (validationErrors, templateCount) := acc in
  if isCodedFile filePath then
    let annotations := getFileAnnotations filePath in
    if negb (is_false_literal
               (getAnnotationValue annotations isAvailableForNewContent)) then
      let templatePath := path_relative absoluteThemePath filePath in
      let missing :=
        (validationErrors ++ [missingTemplateType templatePath], templateCount) in
      match getAnnotationValue annotations templateType with
      | None => missing
      | Some type =>
          if String.eqb type EmptyString then missing
          else
            let label := getAnnotationValue annotations label_key in
            let screenshotPath :=
              getAnnotationValue annotations screenshotPath in
            let templateCount :=
              if negb (existsb (String.eqb type) TEMPLATE_COUNT_IGNORE_LIST)
              then S templateCount else templateCount in
            match lookup type with
            | Some validations =>
                let e1 := if negb (truthy (allowed validations))
                          then [restrictedTemplateType templatePath type]
                          else [] in
                let e2 := if truthy (TemplateValidator.label validations)
                             && negb (truthy_str label)
                          then [missingLabel templatePath] else [] in
                let e3 := if truthy (screenshot validations)
                             && negb (truthy_str screenshotPath)
                          then [missingScreenshotPath templatePath] else [] in
                (validationErrors ++ e1 ++ e2 ++ e3, templateCount)
            | None =>
                (validationErrors ++ [unknownTemplateType templatePath type],
                 templateCount)
            end
      end
    else acc
  else acc.

(** [validate(absoluteThemePath, files)], lines 97-183 *)
Definition validate (absoluteThemePath : string) (files : list string)
  : list validation_error :=
  let (validationErrors, templateCount) :=
    fold_left (visit absoluteThemePath) files ([], 0) in
  if TEMPLATE_LIMIT <? templateCount then
    validationErrors ++ [limitExceeded TEMPLATE_LIMIT templateCount]
  else validationErrors.

(** The errors of one file, and whether it counts towards the limit. *)
Definition file_errors (absoluteThemePath filePath : string)
  : list validation_error :=
  fst (visit absoluteThemePath ([], 0) filePath).

Definition counts (filePath : string) : bool :=
  isCodedFile filePath
  && negb (is_false_literal
             (getAnnotationValue (getFileAnnotations filePath)
                isAvailableForNewContent))
  && match getAnnotationValue (getFileAnnotations filePath) templateType with
     | Some type =>
         negb (String.eqb type EmptyString)
         && negb (String.eqb type "global_partial")
         && negb (String.eqb type "none")
     | None => false
     end.

(** A file the validator does not look into. *)
Definition skipped (filePath : string) : bool :=
  negb (isCodedFile filePath)
  || is_false_literal
       (getAnnotationValue (getFileAnnotations filePath)
          isAvailableForNewContent).

End Validate.

End TemplateValidator.

(** ** [hs mv]: the destination of a moved folder *)

Module Mv.

(** [String.prototype.split('/')] *)
Fixpoint split (s : string) : list string :=
  match s with
  | EmptyString => [EmptyString]
  | String c rest =>
      if Ascii.eqb c "/" then EmptyString :: split rest
      else match split rest with
           | segment :: segments => String c segment :: segments
           | [] => [String c EmptyString]
           end
  end.

(** [Array.prototype.pop()], as the value it returns. *)
Definition pop (l : list string) : option string :=
  match rev l with
  | x :: _ => Some x
  | [] => None
  end.

(** A value interpolated in a template literal. *)
Definition interpolate (x : option string) : string :=
  match x with
  | Some s => s
  | None => "undefined"
  end.

(** [Array.prototype.join('/')] *)
Fixpoint join (l : list string) : string :=
  match l with
  | [] => EmptyString
  | [x] => x
  | x :: rest => (x ++ "/" ++ join rest)%string
  end.

Section Dest.

(** [isPathFolder] of [../lib/filesystem] *)
Variable isPathFolder : string -> bool.

(** [getCorrectedDestPath(srcPath, destPath)] *)
Definition getCorrectedDestPath (srcPath destPath : string) : string :=
  if negb (isPathFolder srcPath) then destPath
  else (destPath ++ "/" ++ interpolate (pop (split srcPath)))%string.

End Dest.

End Mv.

(** ** The components of a project ([projectStructure]) *)

Module ProjectStructure.

Definition APP_COMPONENT_CONFIG : string := "app.json".

(** What [JSON.parse] returns. Of a number only whether it is zero is ever
    observed. *)
#[local] Unset Elimination Schemes.
Inductive json : Type :=
| JNull
| JBool (b : bool)
| JNumber (n : Z)
| JString (s : string)
| JArray (items : list json)
| JObject (members : list (string * json)).
#[local] Set Elimination Schemes.

(** A JavaScript value read from a config: [None] is [undefined]. *)
Definition value : Type := option json.

Definition truthy (v : value) : bool :=
  match v with
  | None | Some JNull => false
  | Some (JBool b) => b
  | Some (JNumber n) => negb (Z.eqb n 0)
  | Some (JString s) => negb (String.eqb s EmptyString)
  | Some (JArray _) | Some (JObject _) => true
  end.

(** [v.key] for the keys read here ([extensions], [crm], [cards], [file],
    [data], [module], [name]), none of which a string, a number, a boolean
    or an array has; of a repeated member [JSON.parse] keeps the last.
    Reading a property of [null] throws: the code guards every read but
    the destructuring of a card, which [visit_card] treats. *)
Definition get (v : value) (key : string) : value :=
  match v with
  | Some (JObject members) =>
      option_map snd
        (find (fun member => String.eqb (fst member) key) (rev members))
  | _ => None
  end.

Inductive result (A : Type) : Type :=
| Ok (a : A)
| Throw (e : js_error).

Arguments Ok {A} a.
Arguments Throw {A} e.

(** [String.prototype.endsWith] *)
Definition endsWith (s suffix : string) : bool :=
  String.eqb
    (substring (String.length s - String.length suffix) (String.length suffix)
       s)
    suffix
  && (String.length suffix <=? String.length s).

(** [String.prototype.indexOf] *)
Definition indexOf (s sub : string) : Z :=
  match String.index 0 sub s with
  | Some n => Z.of_nat n
  | None => (-1)%Z
  end.

(** [s.substring(0, to)], which takes a negative [to] for 0. *)
Definition substring_to (to : Z) (s : string) : string :=
  substring 0 (Z.to_nat to) s.

(** One property of an object, by its key; the list holds the assignments,
    the latest first. *)
Definition object (A : Type) : Type := list (string * A).

Definition read {A : Type} (obj : object A) (key : string) : option A :=
  option_map snd (find (fun member => String.eqb (fst member) key) obj).

(** An entry of [componentsByType.app]. *)
Record component : Type := {
  config : json;
  runnable : bool;
  path : string
}.

(** The file system as [fs.readFileSync] followed by [JSON.parse] sees it
    ([None]: one of them threw), Node's [path.join], and the conversion of
    a value to a property key, which leaves a string as it is. *)
Class FileSystem : Type := {
  parse_file : string -> option json;
  path_join : string -> string -> string;
  toPropertyKey : value -> string
}.

Section Files.

Context {fs : FileSystem}.

(** [safeLoadConfigFile(configPath)]; the debug line logged for a file that
    cannot be read or parsed is not recorded. *)
Definition safeLoadConfigFile (configPath : string) : json :=
  if negb (String.eqb configPath EmptyString) then
    match parse_file configPath with
    | Some parsedConfig => parsedConfig
    | None => JNull
    end
  else JNull.

(** The callback of [cards.forEach], lines 34-41, on the accumulator
    [cardConfigs]. *)
Definition visit_card (appPath : string) (acc : result (list json))
  (card : json) : result (list json) :=
  match acc with
  | Throw e => Throw e
  | Ok cardConfigs =>
      match card with
      | JNull => Throw (TypeError "Cannot destructure property 'file'")
      | _ =>
          match get (Some card) "file" with
          | Some (JString file) =>
              let cardConfigPath := path_join appPath file in
              let cardConfig := safeLoadConfigFile cardConfigPath in
              if truthy (Some cardConfig) then Ok (cardConfigs ++ [cardConfig])
              else Ok cardConfigs
          | _ => Throw (TypeError "The path argument must be of type string")
          end
      end
  end.

(** [getAppCardConfigs(appConfig, appPath)] *)
Definition getAppCardConfigs (appConfig : value) (appPath : string)
  : result (list json) :=
  let cards :=
    if truthy appConfig
       && truthy (get appConfig "extensions")
       && truthy (get (get appConfig "extensions") "crm")
    then get (get (get appConfig "extensions") "crm") "cards"
    else None in
  if truthy cards then
    match cards with
    | Some (JArray items) => fold_left (visit_card appPath) items (Ok [])
    | _ => Throw (TypeError "cards.forEach is not a function")
    end
  else Ok [].

(** [isReactExtension], lines 58-62, as a truth value. *)
Definition isReactExtension (cardConfig : json) : bool :=
  truthy (Some cardConfig)
  && truthy (get (Some cardConfig) "data")
  && truthy (get (get (Some cardConfig) "data") "module")
  && truthy (get (get (get (Some cardConfig) "data") "module") "file").

(** [getIsLegacyApp(appConfig, appPath)] *)
Definition getIsLegacyApp (appConfig : value) (appPath : string) : result bool :=
  match getAppCardConfigs appConfig appPath with
  | Throw e => Throw e
  | Ok cardConfigs =>
      if Nat.eqb (List.length cardConfigs) 0 then Ok false
      else
        let hasAnyReactExtensions :=
          fold_left
            (fun hasAnyReactExtensions cardConfig =>
               if negb hasAnyReactExtensions then isReactExtension cardConfig
               else hasAnyReactExtensions)
            cardConfigs false in
        Ok (negb hasAnyReactExtensions)
  end.

(** The callback of [projectFiles.forEach], lines 76-99, on
    [componentsByType.app]. *)
Definition visit_file (acc : result (object component)) (projectFile : string)
  : result (object component) :=
  match acc with
  | Throw e => Throw e
  | Ok apps =>
      if endsWith projectFile APP_COMPONENT_CONFIG then
        let parsedAppConfig := safeLoadConfigFile projectFile in
        if truthy (Some parsedAppConfig)
           && truthy (get (Some parsedAppConfig) "name") then
          let appPath :=
            substring_to (indexOf projectFile APP_COMPONENT_CONFIG)
              projectFile in
          match getIsLegacyApp (Some parsedAppConfig) appPath with
          | Throw e => Throw e
          | Ok isLegacy =>
              Ok ((toPropertyKey (get (Some parsedAppConfig) "name"),
                   {| config := parsedAppConfig; runnable := negb isLegacy;
                      path := appPath |}) :: apps)
          end
        else Ok apps
      else Ok apps
  end.

(** [findProjectComponents(projectSourceDir)], given the files [walk]
    resolved with: the [app] member of the object it returns, empty when
    the object has no such member. *)
Definition findProjectComponents (projectFiles : list string)
  : result (object component) :=
  fold_left visit_file projectFiles (Ok []).

End Files.

End ProjectStructure.

(** *** Components and the files they come from *)

Section ComponentOrigin.

Context {fs : ProjectStructure.FileSystem}.

(** The component registered under [key] was read from [projectFile]. *)
Definition from_app_config (projectFile key : string)
  (comp : ProjectStructure.component) : Prop :=
  exists at_,
    ProjectStructure.endsWith projectFile "app.json" = true
    /\ ProjectStructure.parse_file projectFile
       = Some (ProjectStructure.config comp)
    /\ ProjectStructure.truthy
         (ProjectStructure.get (Some (ProjectStructure.config comp)) "name")
       = true
    /\ key = ProjectStructure.toPropertyKey
               (ProjectStructure.get (Some (ProjectStructure.config comp))
                  "name")
    /\ ProjectStructure.indexOf projectFile "app.json" = Z.of_nat at_
    /\ ProjectStructure.path comp = substring 0 at_ projectFile
    /\ substring at_ 8 projectFile = "app.json"
    /\ (forall p, p < at_ -> substring p 8 projectFile <> "app.json")
    /\ ProjectStructure.getIsLegacyApp (Some (ProjectStructure.config comp))
         (ProjectStructure.path comp)
       = ProjectStructure.Ok (negb (ProjectStructure.runnable comp)).

End ComponentOrigin.

(** *** Sample data for the concrete runs *)

(** The running sample with one upload awaited. *)
Definition sample_uploading : config :=
  run (ext := sample_externals) (sample_running UP_always)
    [InWatch WE_change "/p/src/theme/template.html";
     InSettle 0 (Resolved (VNotify true))].

(** The running sample while the queued build is polled: the debounce
    timer fired and the remote [queueBuild] call resolved. *)
Definition sample_polling : config :=
  run (ext := sample_externals) sample_due
    [InTimer 0; InSettle 0 (Resolved VUndefined)].

(** The sample under [manual] with a change waiting for approval. *)
Definition sample_prompting : config :=
  run (ext := sample_externals) (sample_running UP_manual)
    [InWatch WE_change "/p/src/a.jsx"; InSettle 0 (Resolved (VNotify true))].

(** Twelve changes, each found to require an upload. *)
Definition sample_changes : list input :=
  flat_map
    (fun n => [InWatch WE_change ("/p/src/" ++ String (ascii_of_nat (97 + n)) ".css");
               InSettle (Nat.min n 10) (Resolved (VNotify true))])
    (seq 0 12).

(** A development sandbox of account 1, found last in the config. *)
Definition sample_world : SandboxSync.world :=
  {| SandboxSync.portals :=
       [{| SandboxSync.portalId := 2; SandboxSync.parentAccountId := Some 9%Z |};
        {| SandboxSync.portalId := 2; SandboxSync.parentAccountId := Some 1%Z |};
        {| SandboxSync.portalId := 2; SandboxSync.parentAccountId := None |}];
     SandboxSync.accountId := 2;
     SandboxSync.sandboxAccountType := SandboxSync.Str "DEVELOPER";
     SandboxSync.known_account := fun id => truthy_num id;
     SandboxSync.env_is_qa := false;
     SandboxSync.confirmSandboxSyncPrompt := true;
     SandboxSync.syncTasks := SandboxSync.resolved ["object-schemas"];
     SandboxSync.syncOutcome :=
       fun _ _ _ => SandboxSync.resolved (SandboxSync.links (Some "https://status"))
  |}.

(** A project with a React app, a legacy app and a file that is no config. *)
Definition sample_files : ProjectStructure.FileSystem :=
  {| ProjectStructure.parse_file file :=
       if String.eqb file "/p/src/app/app.json" then
         Some (ProjectStructure.JObject
                 [("name", ProjectStructure.JString "react-app");
                  ("extensions",
                   ProjectStructure.JObject
                     [("crm",
                       ProjectStructure.JObject
                         [("cards",
                           ProjectStructure.JArray
                             [ProjectStructure.JObject
                                [("file", ProjectStructure.JString "card.json")];
                              ProjectStructure.JObject
                                [("file", ProjectStructure.JString "gone.json")]])])])])
       else if String.eqb file "/p/src/app/card.json" then
         Some (ProjectStructure.JObject
                 [("data",
                   ProjectStructure.JObject
                     [("module",
                       ProjectStructure.JObject
                         [("file", ProjectStructure.JString "Card.jsx")])])])
       else if String.eqb file "/p/src/app.json.d/app.json" then
         Some (ProjectStructure.JObject
                 [("name", ProjectStructure.JString "legacy-app");
                  ("extensions",
                   ProjectStructure.JObject
                     [("crm",
                       ProjectStructure.JObject
                         [("cards",
                           ProjectStructure.JArray
                             [ProjectStructure.JObject
                                [("file", ProjectStructure.JString "old.json")]])])])])
       else if String.eqb file "/p/src/old.json" then
         Some (ProjectStructure.JObject
                 [("title", ProjectStructure.JString "a card")])
       else None;
     ProjectStructure.path_join a b := (a ++ b)%string;
     ProjectStructure.toPropertyKey v :=
       match v with
       | Some (ProjectStructure.JString s) => s
       | _ => "undefined"
       end
  |}.

(** A theme library for the concrete runs: [.html] files are coded, and a
    file's name tells its annotations. *)
Definition sample_library : TemplateValidator.Library :=
  {| TemplateValidator.annotations := string;
     TemplateValidator.isCodedFile file := includes file ".html";
     TemplateValidator.getFileAnnotations file := file;
     TemplateValidator.getAnnotationValue file key :=
       match key with
       | TemplateValidator.isAvailableForNewContent =>
           if includes file "hidden" then Some "false" else None
       | TemplateValidator.templateType =>
           if includes file "page" then Some "page"
           else if includes file "email" then Some "email"
           else if includes file "odd" then Some "constructor"
           else None
       | TemplateValidator.label_key =>
           if includes file "labelled" then Some "A page" else None
       | TemplateValidator.screenshotPath => None
       end;
     TemplateValidator.path_relative := strip_prefix
  |}.

(** [start()] of the sample, then the twelve changes. *)
Definition sample_session : list input :=
  [InSettle 0 (Resolved VUndefined); InSettle 0 (Resolved (VBuild 7))]
  ++ sample_changes.

(** The sample under [always] while its first staging build is provisioned. *)
Definition sample_provisioning : config :=
  settle_last (ext := sample_externals) (Resolved VUndefined)
    (start (sample_manager UP_always)).

(** The sample while the queued build is polled, with a deletion reported
    by the watcher and not yet classified by the dev servers. *)
Definition sample_polling_notified : config :=
  run (ext := sample_externals) sample_polling [InWatch WE_unlink "/p/src/a.css"].

(** Under [manual]: a change that requires an upload, which the user
    declines, and another key. *)
Definition sample_declined : list input :=
  [InSettle 0 (Resolved VUndefined);
   InWatch WE_change "/p/src/a.jsx";
   InSettle 0 (Resolved (VNotify true));
   InKey {| key_ctrl := false; key_name := "n" |};
   InKey {| key_ctrl := false; key_name := "x" |}].

(** Under [manual]: a change and then a deletion of the same file, both
    requiring an upload. *)
Definition sample_twice : list input :=
  [InSettle 0 (Resolved VUndefined);
   InWatch WE_change "/p/src/a.jsx";
   InSettle 0 (Resolved (VNotify true));
   InWatch WE_unlink "/p/src/a.jsx";
   InSettle 0 (Resolved (VNotify true))].
(** ** Properties *)

(** *** Strings *)

Lemma prefix_iff_app (sub s : string) :
  String.prefix sub s = true <-> exists post, s = (sub ++ post)%string.
Proof.
  revert s. induction sub as [|a sub IH]; intros s.
  - split; [intros _; exists s; reflexivity | destruct s; reflexivity].
  - destruct s as [|b s]; simpl.
    + split; [discriminate | intros [post H]; discriminate].
    + destruct (ascii_dec a b) as [->|Hne].
      * rewrite IH. split; intros [post H]; exists post.
        -- now rewrite H.
        -- now injection H.
      * split; [discriminate | intros [post H]; injection H; congruence].
Qed.

Lemma includes_unfold (s sub : string) :
  includes s sub =
  if String.prefix sub s then true
  else match s with
       | EmptyString => false
       | String _ rest => includes rest sub
       end.
Proof. destruct s; reflexivity. Qed.

(** [includes] is the substring test. *)
Lemma includes_iff_substring (s sub : string) :
  includes s sub = true <-> exists pre post, s = (pre ++ sub ++ post)%string.
Proof.
  split.
  - induction s as [|a s IH]; rewrite includes_unfold;
      destruct (String.prefix sub _) eqn:P.
    + intros _. apply prefix_iff_app in P as [post ->]. now exists EmptyString, post.
    + discriminate.
    + intros _. apply prefix_iff_app in P as [post ->]. now exists EmptyString, post.
    + intros H. destruct (IH H) as (pre & post & ->).
      now exists (String a pre), post.
  - intros (pre & post & ->). induction pre as [|a pre IH].
    + rewrite includes_unfold.
      replace (String.prefix sub (EmptyString ++ sub ++ post)%string) with true;
        [reflexivity|].
      symmetry. apply prefix_iff_app. now exists post.
    + rewrite includes_unfold. destruct (String.prefix sub _); [reflexivity|].
      exact IH.
Qed.

Section Watch.

Context {ext : Externals}.

(** C10. A watch event whose path contains the substring ['dist'] has no
    effect at all: [handleWatchEvent] returns the state it was called in
    (no notification of the dev servers, nothing queued or buffered, no timer,
    the status line untouched), and so does the event loop's turn for it. *)
Theorem handleWatchEvent_dist_is_noop :
  forall (c : config) (ev : watch_event) (path pre post : string),
    path = (pre ++ "dist" ++ post)%string ->
    handleWatchEvent path ev c = c /\ step c (InWatch ev path) = c.
Proof.
  intros c ev path pre post Hpath.
  assert (Hinc : includes path "dist" = true).
  { apply includes_iff_substring. now exists pre, post. }
  assert (H : handleWatchEvent path ev c = c).
  { unfold handleWatchEvent. cbn [filePath]. now rewrite Hinc. }
  split; [exact H|].
  unfold step. destruct (exited c); [reflexivity|].
  destruct (watching c && negb (shouldIgnoreFile path false));
    [exact H | reflexivity].
Qed.

(** C9. [addChangeToStandbyQueue] appends the change to the end of the
    standby list exactly when the spec's filter keeps it: add and change
    events need an allowed extension, unlink and unlinkDir events skip that
    check, and a path matching the ignore rules is always dropped. Apart
    from a debug log line for a dropped change, nothing else is touched. *)
Theorem addChangeToStandbyQueue_filters :
  forall (ci : changeInfo) (c : config),
    let c' := addChangeToStandbyQueue ci c in
    standbyChanges c' =
      (if enters_standby ci then standbyChanges c ++ [ci] else standbyChanges c)
    /\ uploadQueue c' = uploadQueue c
    /\ pool c' = pool c
    /\ timers c' = timers c
    /\ devModeStatus c' = devModeStatus c
    /\ count is_upload_call (trace c') = count is_upload_call (trace c).
Proof.
  intros ci c. unfold addChangeToStandbyQueue, enters_standby,
    exempt_from_extension_check.
  destruct (event ci); cbn [orb andb negb];
    destruct (isAllowedExtension (filePath ci));
    destruct (shouldIgnoreFile (filePath ci) true); cbn;
    unfold count; rewrite ?filter_app, ?app_nil_r; cbn;
    rewrite ?app_nil_r; repeat split; reflexivity.
Qed.

(** C4. When the dev-server bridge's [notify] rejects (or throws),
    [notifyServers] returns [{ uploadRequired: true }], the process goes on
    (nothing exits), the only effects are the optional debug line and the
    non-spinnable warning line ['devServerNotifyError'], and the event
    continues on the upload-required branch of [handleWatchEvent]. *)
Theorem notify_failure_means_upload_required :
  forall (ci : changeInfo) (e : js_error) (c : config),
    let c' := fst (notifyServers_settled (Rejected e) c) in
    snd (notifyServers_settled (Rejected e) c) = VNotify true
    /\ exited c' = exited c
    /\ trace c' =
         trace c
         ++ (if debug c then [E_log (logger_error e)] else [])
         ++ [E_spin (sp_add (Key "devServerNotifyError")
                       (i18n "content.devServerNotifyError" []) non_spinnable)]
    /\ resume (K_notify ci) (Rejected e) c = handleWatchEvent_upload ci c'.
Proof.
  intros ci e c. cbn. destruct (debug c); cbn;
    rewrite <- ?app_assoc; repeat split; reflexivity.
Qed.

End Watch.

(** *** The constructor *)

Section Construction.

Context {ext : Externals}.

(** C8. The guard of the constructor (lines 68-71) comes after line 57,
    which reads [this.projectConfig.srcDir] and calls [path.join]: with
    [projectConfig] or [projectDir] missing the constructor throws a
    [TypeError] and neither logs the failure message nor calls
    [process.exit]. Only a missing [targetAccountId] reaches the guard. *)
Theorem constructor_guard_comes_too_late :
  forall (account : option Z) (cfg : projectConfig) (dir : option string)
         (src : string) (prt : option Z) (perm : option upload_permission)
         (dbg : option bool),
    constructor {| o_targetAccountId := account; o_projectConfig := None;
                   o_projectDir := dir; o_port := prt;
                   o_uploadPermission := perm; o_debug := dbg |}
      = Throws (TypeError "Cannot read properties of undefined")
    /\ constructor {| o_targetAccountId := account; o_projectConfig := Some cfg;
                      o_projectDir := None; o_port := prt;
                      o_uploadPermission := perm; o_debug := dbg |}
      = Throws (TypeError "The path argument must be of type string")
    /\ constructor {| o_targetAccountId := None;
                      o_projectConfig := Some {| name := name cfg;
                                                 srcDir := Some src |};
                      o_projectDir := dir; o_port := prt;
                      o_uploadPermission := perm; o_debug := dbg |}
      = match dir with
        | Some _ =>
            Exits [E_log (logger_log (i18n "failedToInitialize" []));
                   E_exit ERROR] ERROR
        | None => Throws (TypeError "The path argument must be of type string")
        end.
Proof.
  intros account cfg dir src prt perm dbg.
  split; [reflexivity | split].
  - unfold constructor; cbn. destruct (srcDir cfg); reflexivity.
  - unfold constructor; cbn. destruct dir; reflexivity.
Qed.

End Construction.

(** *** Shutdown *)

Lemma nth_error_last_snoc {A : Type} (l : list A) (x : A) :
  nth_error (l ++ [x]) (List.length (l ++ [x]) - 1) = Some x.
Proof.
  rewrite length_app; cbn. replace (List.length l + 1 - 1) with (List.length l) by lia.
  rewrite nth_error_app2 by lia. now rewrite Nat.sub_diag.
Qed.

Lemma remove_nth_last_snoc {A : Type} (l : list A) (x : A) :
  remove_nth (List.length (l ++ [x]) - 1) (l ++ [x]) = l.
Proof.
  rewrite length_app; cbn. replace (List.length l + 1 - 1) with (List.length l) by lia.
  induction l as [|a l IH]; cbn; [reflexivity | now rewrite IH].
Qed.

Lemma count_app (p : effect -> bool) (a b : list effect) :
  count p (a ++ b) = count p a + count p b.
Proof. unfold count. now rewrite filter_app, length_app. Qed.

Lemma count_one (p : effect -> bool) (e : effect) :
  count p [e] = if p e then 1 else 0.
Proof. unfold count; cbn. now destruct (p e). Qed.

Lemma count_nil (p : effect -> bool) : count p [] = 0.
Proof. reflexivity. Qed.

Lemma count_cons (p : effect -> bool) (e : effect) (l : list effect) :
  count p (e :: l) = (if p e then 1 else 0) + count p l.
Proof. unfold count; cbn. now destruct (p e). Qed.

(** Normalises the count of an effect over a trace built by appending. *)
Ltac count_effects :=
  rewrite ?count_app, ?count_cons, ?count_nil; cbn.

Section Shutdown.

Context {ext : Externals}.

(** Settling the call of the function suspended last resumes that function. *)
Lemma settle_last_resumes (c : config) (k : kont) (p : list kont) (r : response) :
  pool c = p ++ [k] -> exited c = None -> awaits_queue k = false ->
  settle_last r c = resume k r (set_pool p c).
Proof.
  intros Hp He Hk. unfold settle_last, step. rewrite He, Hp.
  rewrite nth_error_last_snoc, Hk, remove_nth_last_snoc. reflexivity.
Qed.

(** [stop()] run to its end: the exit code and the number of cancellations. *)
Lemma stop_to_exit_outcome (c : config) (r_cleanup r_cancel : response) :
  exited c = None ->
  let c' := stop_to_exit r_cleanup r_cancel c in
  if truthy_build (currentStagedBuildId c) then
    count is_cancel_call (trace c') = S (count is_cancel_call (trace c))
    /\ exited c' = Some (cancel_exit_code r_cancel)
  else
    count is_cancel_call (trace c') = count is_cancel_call (trace c)
    /\ exited c' = Some SUCCESS.
Proof.
  intros He. unfold stop_to_exit.
  rewrite (@settle_last_resumes (stop c) K_watcherClose (pool c))
    by (try reflexivity; exact He).
  cbn [resume stop_closed].
  match goal with
  | |- context [settle_last r_cleanup ?x] =>
      rewrite (@settle_last_resumes x K_cleanup (pool c))
        by (try reflexivity; exact He)
  end.
  cbn [resume]. unfold stop_cleaned.
  destruct r_cleanup as [v|e]; cbn; [|destruct (debug c); cbn];
    destruct (truthy_build (currentStagedBuildId c)) eqn:Hb.
  all: try (match goal with
            | |- context [settle_last ?rc ?x] =>
                rewrite (@settle_last_resumes x K_cancelStaged (pool c))
                  by (try reflexivity; exact He);
                destruct rc as [v'|err]; cbn;
                [|destruct (isSpecifiedError err BUILD_NOT_IN_PROGRESS); cbn]
            end).
  all: try (unfold settle_last, step; cbn).
  all: count_effects; split; (lia || reflexivity).
Qed.

(** C7. [stop()] run to its end. With no staged build
    ([currentStagedBuildId] null) it issues no [cancelStagedBuild] call and
    exits with [SUCCESS]. With a staged build it issues exactly one; the
    process then exits with [SUCCESS] when the cancellation succeeds or
    fails with [BUILD_NOT_IN_PROGRESS], and with [ERROR] on any other
    failure: it exits in every case. *)
Theorem stop_cancels_the_staged_build_once :
  forall (c : config) (r_cleanup r_cancel : response),
    exited c = None ->
    let c' := stop_to_exit r_cleanup r_cancel c in
    (currentStagedBuildId c = None ->
       count is_cancel_call (trace c') = count is_cancel_call (trace c)
       /\ exited c' = Some SUCCESS)
    /\ (truthy_build (currentStagedBuildId c) = true ->
          count is_cancel_call (trace c') = S (count is_cancel_call (trace c))
          /\ exited c' =
               Some match r_cancel with
                    | Resolved _ => SUCCESS
                    | Rejected err =>
                        if isSpecifiedError err BUILD_NOT_IN_PROGRESS
                        then SUCCESS else ERROR
                    end).
Proof.
  intros c r_cleanup r_cancel He c'.
  pose proof (stop_to_exit_outcome c r_cleanup r_cancel He) as H.
  cbv zeta in H. fold c' in H. split; intros Hb.
  - rewrite Hb in H. exact H.
  - rewrite Hb in H. exact H.
Qed.

(** C6. After the remote [queueBuild] call failed. With
    [MISSING_PROJECT_PROVISION] the error is not reported as an API error:
    the method logs the cancelled-from-UI notice and calls [stop()], which
    runs to [process.exit] (with [SUCCESS] unless cancelling a staged build
    fails). With any other error it logs the error and returns: the upload
    queue, the staged build id and the suspended functions are as before,
    so no poll starts and the queue that [queueBuild] paused stays paused. *)
Theorem queueBuild_failure_handling :
  forall (spinniesKey : spin_key) (err : js_error) (c : config),
    exited c = None ->
    let c' := queueBuild_queued spinniesKey (Rejected err) c in
    (isSpecifiedError err MISSING_PROJECT_PROVISION = true ->
       c' = stop (logger (logger_log (i18n "cancelledFromUI" []))
                    (logger (logger_debug_error err) c))
       /\ trace c' =
            trace c
            ++ [E_log (logger_debug_error err);
                E_log (logger_log (i18n "cancelledFromUI" []));
                E_spin (sp_removeAll (Some "header") None);
                E_spin (sp_add (Key "cleanupMessage") (i18n "exitingStart" [])
                          spinning);
                E_call watcher_close]
       /\ forall r_cleanup r_cancel,
            exited (settle_last r_cancel
                      (settle_last r_cleanup
                         (settle_last (Resolved VUndefined) c')))
            = Some (if truthy_build (currentStagedBuildId c)
                    then cancel_exit_code r_cancel else SUCCESS))
    /\ (isSpecifiedError err MISSING_PROJECT_PROVISION = false ->
          trace c' =
            trace c
            ++ [E_log (logger_debug_error err);
                E_log (logApiErrorInstance err (targetAccountId c)
                         (name (projectCfg c)))]
          /\ uploadQueue c' = uploadQueue c
          /\ currentStagedBuildId c' = currentStagedBuildId c
          /\ standbyChanges c' = standbyChanges c
          /\ pool c' = pool c
          /\ exited c' = None)
    /\ (isSpecifiedError err MISSING_PROJECT_PROVISION = false ->
          is_idle (uploadQueue c) = true ->
          let c'' := settle_last (Rejected err) (queueBuild c) in
          isPaused (uploadQueue c'') = true
          /\ currentStagedBuildId c'' = currentStagedBuildId c
          /\ count is_poll_call (trace c'') = count is_poll_call (trace c)
          /\ pool c'' = pool c
          /\ exited c'' = None).
Proof.
  intros key err c He c'. subst c'. unfold queueBuild_queued.
  split; [|split].
  - intros Hm. rewrite Hm. split; [reflexivity|]. split.
    + cbn. rewrite <- !app_assoc. reflexivity.
    + intros r_cleanup r_cancel.
      pose proof (stop_to_exit_outcome
                    (logger (logger_log (i18n "cancelledFromUI" []))
                       (logger (logger_debug_error err) c))
                    r_cleanup r_cancel He) as H.
      cbv zeta in H. unfold stop_to_exit in H.
      change (currentStagedBuildId
                (logger (logger_log (i18n "cancelledFromUI" []))
                   (logger (logger_debug_error err) c)))
        with (currentStagedBuildId c) in H.
      destruct (truthy_build (currentStagedBuildId c)); exact (proj2 H).
  - intros Hm. rewrite Hm. cbn. rewrite <- !app_assoc.
    repeat split; (reflexivity || exact He).
  - intros Hm Hidle. unfold queueBuild, pauseUploadQueue, spinnies_add_null.
    cbv zeta.
    match goal with
    | |- context [is_idle (uploadQueue ?x)] =>
        change (is_idle (uploadQueue x)) with (is_idle (uploadQueue c))
    end.
    rewrite Hidle.
    rewrite (@settle_last_resumes _ (K_queueBuild (Generated (spinCount c)))
               (pool c)) by (try reflexivity; exact He).
    cbn. rewrite Hm. cbn. count_effects.
    repeat split; (reflexivity || exact He || lia).
Qed.

End Shutdown.

(** *** What the methods leave alone *)

Lemma emits_refl p c : emits p c c.
Proof. exists []. now rewrite app_nil_r. Qed.

Lemma emits_trans p c1 c2 c3 : emits p c1 c2 -> emits p c2 c3 -> emits p c1 c3.
Proof.
  intros (d1 & H1 & P1) (d2 & H2 & P2). exists (d1 ++ d2).
  rewrite H2, H1, app_assoc, forallb_app, P1, P2. now split.
Qed.

Lemma quiet_refl c : quiet c c.
Proof.
  split; [apply emits_refl|]. split; [reflexivity|].
  intros H; split; [exact H | now left].
Qed.

Lemma quiet_trans c1 c2 c3 : quiet c1 c2 -> quiet c2 c3 -> quiet c1 c3.
Proof.
  intros (E1 & N1 & T1) (E2 & N2 & T2).
  split; [eapply emits_trans; eassumption|]. split; [congruence|].
  intros S1. destruct (T1 S1) as [S2 D1]. destruct (T2 S2) as [S3 D2].
  split; [exact S3|]. rewrite N1 in D2.
  destruct D2 as [D2|D2]; [rewrite D2; exact D1 | now right].
Qed.

(** A change that touches neither the clock nor the timers and emits only
    quiet effects. *)
Lemma quiet_intro c c' d :
  trace c' = trace c ++ d -> forallb quiet_effect d = true ->
  now c' = now c -> timers c' = timers c ->
  debouncedBuild c' = debouncedBuild c ->
  quiet c c'.
Proof.
  intros Ht Hq Hn Hti Hd. split; [now exists d|]. split; [exact Hn|].
  intros S. split; [|left; unfold deadlines; now rewrite Hti].
  unfold slot_ok in *. rewrite Hti, Hd. exact S.
Qed.


Lemma quiet_emit e c : quiet_effect e = true -> quiet c (emit e c).
Proof. intros H. apply quiet_intro with [e]; cbn; rewrite ?H; reflexivity. Qed.

Lemma quiet_spinnies op c :
  quiet_effect (E_spin op) = true -> quiet c (spinnies op c).
Proof. apply quiet_emit. Qed.

Lemma quiet_logger op c : quiet c (logger op c).
Proof. now apply quiet_emit. Qed.

Lemma quiet_await_call call k c :
  quiet_effect (E_call call) = true -> quiet c (await_call call k c).
Proof. intros H. apply quiet_intro with [E_call call]; cbn; rewrite ?H; reflexivity. Qed.

Lemma quiet_await_queue k c : quiet c (await_queue k c).
Proof. apply quiet_intro with []; cbn; rewrite ?app_nil_r; reflexivity. Qed.

Lemma quiet_process_exit code c : quiet c (process_exit code c).
Proof. apply quiet_intro with [E_exit code]; reflexivity. Qed.

Lemma quiet_same c c' :
  trace c' = trace c -> now c' = now c -> timers c' = timers c ->
  debouncedBuild c' = debouncedBuild c -> quiet c c'.
Proof. intros H. apply quiet_intro with []; now rewrite ?app_nil_r. Qed.

Lemma quiet_set_standbyChanges v c : quiet c (set_standbyChanges v c).
Proof. now apply quiet_same. Qed.
Lemma quiet_set_currentStagedBuildId v c : quiet c (set_currentStagedBuildId v c).
Proof. now apply quiet_same. Qed.
Lemma quiet_set_uploadQueue v c : quiet c (set_uploadQueue v c).
Proof. now apply quiet_same. Qed.
Lemma quiet_set_devModeStatus v c : quiet c (set_devModeStatus v c).
Proof. now apply quiet_same. Qed.
Lemma quiet_set_spinCount v c : quiet c (set_spinCount v c).
Proof. now apply quiet_same. Qed.
Lemma quiet_set_watching v c : quiet c (set_watching v c).
Proof. now apply quiet_same. Qed.
Lemma quiet_set_listening v c : quiet c (set_listening v c).
Proof. now apply quiet_same. Qed.
Lemma quiet_set_pool v c : quiet c (set_pool v c).
Proof. now apply quiet_same. Qed.
Lemma quiet_set_exited v c : quiet c (set_exited v c).
Proof. now apply quiet_same. Qed.

Create HintDb quiet.
#[local] Hint Resolve quiet_refl quiet_emit quiet_spinnies quiet_logger
  quiet_await_call quiet_await_queue quiet_process_exit
  quiet_set_standbyChanges quiet_set_currentStagedBuildId
  quiet_set_uploadQueue quiet_set_devModeStatus quiet_set_spinCount
  quiet_set_watching quiet_set_listening quiet_set_pool quiet_set_exited
  : quiet.
#[local] Hint Extern 1 (quiet_effect _ = true) => reflexivity : quiet.

(** Proves [R c (f_n (... (f_1 c)))] for a preorder [R] from the hints for
    each [f_i], splitting on the tests met on the way. *)
Ltac rel_chain refl trans hints :=
  cbv zeta; cbn [fst snd];
  lazymatch goal with
  | |- _ ?c ?c => apply refl
  | |- _ ?c (if ?b then _ else _) => destruct b; rel_chain refl trans hints
  | |- _ ?c ?t =>
      first
        [ lazymatch t with
          | fst (?f ?x) =>
              apply trans with x; [rel_chain refl trans hints | solve [hints]]
          | snd (?f ?x) =>
              apply trans with x; [rel_chain refl trans hints | solve [hints]]
          | ?f ?x =>
              apply trans with x; [rel_chain refl trans hints | solve [hints]]
          end
        | lazymatch t with
          | context [match ?x with _ => _ end] =>
              destruct x; rel_chain refl trans hints
          end ]
  end.

Ltac quiet_chain := rel_chain quiet_refl quiet_trans ltac:(auto with quiet).

Lemma quiet_updateDevModeStatus s c : quiet c (updateDevModeStatus s c).
Proof. unfold updateDevModeStatus. quiet_chain. Qed.
#[local] Hint Resolve quiet_updateDevModeStatus : quiet.

Lemma debounceQueueBuild_arms c :
  slot_ok c ->
  timers (debounceQueueBuild c) = [(timerCount c, (now c + BUILD_DEBOUNCE_TIME)%Z)]
  /\ debouncedBuild (debounceQueueBuild c) = Some (timerCount c).
Proof.
  intros S. unfold debounceQueueBuild.
  destruct (is_always (uploadPermission c)); cbn;
    destruct (debouncedBuild c) as [n|] eqn:D; cbn;
    destruct S as [T|(id & d & T & Dq)]; rewrite ?T; cbn;
    try (split; reflexivity); try congruence.
  all: assert (n = id) by congruence; subst n; rewrite Nat.eqb_refl; cbn;
    split; reflexivity.
Qed.

Lemma quiet_debounceQueueBuild c : quiet c (debounceQueueBuild c).
Proof.
  split; [|split].
  - unfold debounceQueueBuild, set_timer, clear_timer, updateDevModeStatus,
      spinnies, emit.
    destruct (is_always (uploadPermission c)); cbn;
      destruct (debouncedBuild c) as [n|]; cbn;
      (eexists; split; [rewrite <- ?app_assoc; reflexivity | reflexivity]).
  - unfold debounceQueueBuild, set_timer, clear_timer, updateDevModeStatus,
      spinnies, emit.
    destruct (is_always (uploadPermission c)); cbn;
      destruct (debouncedBuild c) as [n|]; reflexivity.
  - intros S. destruct (debounceQueueBuild_arms c S) as [T D]. split.
    + right. eauto.
    + right. unfold deadlines. now rewrite T.
Qed.
#[local] Hint Resolve quiet_debounceQueueBuild : quiet.

Section Quiet.
Context {ext : Externals}.

Lemma quiet_addChangeToStandbyQueue ci c : quiet c (addChangeToStandbyQueue ci c).
Proof. unfold addChangeToStandbyQueue. quiet_chain. Qed.
#[local] Hint Resolve quiet_addChangeToStandbyQueue : quiet.

Lemma quiet_handlePreventedUpload ci c : quiet c (handlePreventedUpload ci c).
Proof. unfold handlePreventedUpload. quiet_chain. Qed.
#[local] Hint Resolve quiet_handlePreventedUpload : quiet.

Lemma quiet_sendChanges id ci c : quiet c (sendChanges id ci c).
Proof. unfold sendChanges, spinnies_add_null. quiet_chain. Qed.
#[local] Hint Resolve quiet_sendChanges : quiet.

Lemma quiet_run_task id t c : quiet c (run_task id t c).
Proof. unfold run_task. quiet_chain. Qed.
#[local] Hint Resolve quiet_run_task : quiet.

Lemma quiet_tryToStartAnother c : quiet c (snd (tryToStartAnother c)).
Proof. unfold tryToStartAnother. quiet_chain. Qed.
#[local] Hint Resolve quiet_tryToStartAnother : quiet.

Lemma quiet_processQueue_loop n c : quiet c (processQueue_loop n c).
Proof.
  revert c. induction n as [|n IH]; intros c; cbn [processQueue_loop];
    [apply quiet_refl|].
  pose proof (quiet_tryToStartAnother c) as H.
  destruct (tryToStartAnother c) as [[] c']; cbn [snd] in H; [|exact H].
  eapply quiet_trans; [exact H | apply IH].
Qed.
#[local] Hint Resolve quiet_processQueue_loop : quiet.

Lemma quiet_processQueue c : quiet c (processQueue c).
Proof. unfold processQueue. auto with quiet. Qed.
#[local] Hint Resolve quiet_processQueue : quiet.

Lemma quiet_queue_add t c : quiet c (fst (queue_add t c)).
Proof. unfold queue_add. quiet_chain. Qed.
#[local] Hint Resolve quiet_queue_add : quiet.

Lemma queue_addAll_cons t ts c :
  queue_addAll (t :: ts) c =
  (fst (queue_addAll ts (fst (queue_add t c))),
   snd (queue_add t c) :: snd (queue_addAll ts (fst (queue_add t c)))).
Proof.
  cbn [queue_addAll]. destruct (queue_add t c) as [c1 id]; cbn [fst snd].
  now destruct (queue_addAll ts c1).
Qed.

Lemma quiet_queue_addAll ts c : quiet c (fst (queue_addAll ts c)).
Proof.
  revert c. induction ts as [|t ts IH]; intros c; [apply quiet_refl|].
  rewrite queue_addAll_cons; cbn [fst].
  eapply quiet_trans; [apply quiet_queue_add | apply IH].
Qed.
#[local] Hint Resolve quiet_queue_addAll : quiet.

Lemma quiet_queue_pause c : quiet c (queue_pause c).
Proof. unfold queue_pause. quiet_chain. Qed.
Lemma quiet_queue_start c : quiet c (queue_start c).
Proof. unfold queue_start. quiet_chain. Qed.
Lemma quiet_queue_next id c : quiet c (queue_next id c).
Proof. unfold queue_next. quiet_chain. Qed.
#[local] Hint Resolve quiet_queue_pause quiet_queue_start quiet_queue_next : quiet.

Lemma flushStandbyChanges_cons ret ci l c :
  standbyChanges c = ci :: l ->
  flushStandbyChanges ret c =
  (await_queue (K_addAll (snd (queue_addAll (map flush_task (ci :: l)) c)) ret)
     (fst (queue_addAll (map flush_task (ci :: l)) c)), false).
Proof.
  intros E. unfold flushStandbyChanges. rewrite E.
  now destruct (queue_addAll (map flush_task (ci :: l)) c).
Qed.

Lemma quiet_flushStandbyChanges ret c : quiet c (fst (flushStandbyChanges ret c)).
Proof.
  destruct (standbyChanges c) as [|ci l] eqn:E.
  - unfold flushStandbyChanges. rewrite E. apply quiet_refl.
  - rewrite (flushStandbyChanges_cons ret ci l c E); cbn [fst].
    eapply quiet_trans; [apply quiet_queue_addAll | auto with quiet].
Qed.
#[local] Hint Resolve quiet_flushStandbyChanges : quiet.

Lemma quiet_stop c : quiet c (stop c).
Proof. unfold stop, clearConsoleContent. quiet_chain. Qed.
#[local] Hint Resolve quiet_stop : quiet.

Lemma quiet_queueBuild_finish c : quiet c (queueBuild_finish c).
Proof. unfold queueBuild_finish. quiet_chain. Qed.

#[local] Hint Resolve quiet_queueBuild_finish : quiet.

Lemma quiet_createNewStagingBuild ret c : quiet c (createNewStagingBuild ret c).
Proof. unfold createNewStagingBuild. quiet_chain. Qed.
#[local] Hint Resolve quiet_createNewStagingBuild : quiet.

Lemma quiet_createNewStagingBuild_catch err c :
  quiet c (createNewStagingBuild_catch err c).
Proof. unfold createNewStagingBuild_catch. quiet_chain. Qed.

Lemma quiet_createNewStagingBuild_cancelled r c :
  quiet c (createNewStagingBuild_cancelled r c).
Proof. unfold createNewStagingBuild_cancelled. quiet_chain. Qed.

Lemma quiet_flushStandbyChanges_settled c : quiet c (flushStandbyChanges_settled c).
Proof. unfold flushStandbyChanges_settled. quiet_chain. Qed.

Lemma quiet_stop_closed r c : quiet c (stop_closed r c).
Proof. unfold stop_closed. quiet_chain. Qed.

Lemma quiet_stop_exit code c : quiet c (stop_exit code c).
Proof. unfold stop_exit. destruct code; quiet_chain. Qed.
#[local] Hint Resolve quiet_stop_exit : quiet.

Lemma quiet_stop_cleaned r c : quiet c (stop_cleaned r c).
Proof. unfold stop_cleaned. quiet_chain. Qed.

Lemma quiet_stop_cancelled r c : quiet c (stop_cancelled r c).
Proof. unfold stop_cancelled. quiet_chain. Qed.

Lemma quiet_queueBuild_queued key r c : quiet c (queueBuild_queued key r c).
Proof. unfold queueBuild_queued. quiet_chain. Qed.

Lemma quiet_queueBuild_polled key r c : quiet c (queueBuild_polled key r c).
Proof. unfold queueBuild_polled. quiet_chain. Qed.

Lemma quiet_notifyServers ci c : quiet c (notifyServers ci c).
Proof. unfold notifyServers. quiet_chain. Qed.
#[local] Hint Resolve quiet_notifyServers : quiet.

Lemma quiet_notifyServers_settled r c : quiet c (fst (notifyServers_settled r c)).
Proof. unfold notifyServers_settled. destruct r; quiet_chain. Qed.

Lemma quiet_handleWatchEvent path ev c : quiet c (handleWatchEvent path ev c).
Proof. unfold handleWatchEvent. quiet_chain. Qed.

Lemma quiet_handleWatchEvent_flushed ci c : quiet c (handleWatchEvent_flushed ci c).
Proof. unfold handleWatchEvent_flushed. quiet_chain. Qed.
#[local] Hint Resolve quiet_handleWatchEvent_flushed : quiet.

Lemma quiet_handleWatchEvent_upload ci c : quiet c (handleWatchEvent_upload ci c).
Proof.
  unfold handleWatchEvent_upload.
  destruct (negb (is_always (uploadPermission c))); [auto with quiet|].
  destruct (isPaused (uploadQueue c)); [quiet_chain|].
  pose proof (quiet_flushStandbyChanges (F_handleWatchEvent ci) c) as H.
  destruct (flushStandbyChanges (F_handleWatchEvent ci) c) as [c1 []];
    cbn [fst] in H; [|exact H].
  eapply quiet_trans; [exact H | auto with quiet].
Qed.

Lemma quiet_handleWatchEvent_supported ci v c :
  quiet c (handleWatchEvent_supported ci v c).
Proof. unfold handleWatchEvent_supported. quiet_chain. Qed.

Lemma quiet_handleWatchEvent_notified ci r c :
  quiet c (handleWatchEvent_notified ci r c).
Proof.
  unfold handleWatchEvent_notified.
  pose proof (quiet_notifyServers_settled r c) as H.
  destruct (notifyServers_settled r c) as [c1 v]; cbn [fst] in H.
  eapply quiet_trans; [exact H|].
  destruct v as [|[]|];
    auto using quiet_handleWatchEvent_upload, quiet_handleWatchEvent_supported
      with quiet.
Qed.

Lemma quiet_executeServers_settled r c : quiet c (executeServers_settled r c).
Proof. unfold executeServers_settled. quiet_chain. Qed.

Lemma quiet_onKeypress key c : quiet c (onKeypress key c).
Proof. unfold onKeypress, spinnies_add_null. quiet_chain. Qed.

Lemma quiet_updateConsoleHeader c : quiet c (updateConsoleHeader c).
Proof. unfold updateConsoleHeader. cbn [fold_left]. quiet_chain. Qed.
#[local] Hint Resolve quiet_updateConsoleHeader : quiet.

Lemma quiet_start_watching c : quiet c (start_watching c).
Proof. unfold start_watching. quiet_chain. Qed.
#[local] Hint Resolve quiet_start_watching : quiet.

Lemma quiet_start_served r c : quiet c (start_served r c).
Proof. unfold start_served. quiet_chain. Qed.

Lemma quiet_handleServerLog m c : quiet c (handleServerLog m c).
Proof. unfold handleServerLog, spinnies_add_null. quiet_chain. Qed.

End Quiet.

(** *** What starting a queue job leaves alone *)

Lemma added_tasks_app (a b : list effect) :
  added_tasks (a ++ b) = added_tasks a ++ added_tasks b.
Proof. apply flat_map_app. Qed.

Lemma keeps_refl c : keeps c c.
Proof. repeat split. Qed.

Lemma keeps_trans c1 c2 c3 : keeps c1 c2 -> keeps c2 c3 -> keeps c1 c3.
Proof.
  unfold keeps. intros (A1 & A2 & A3 & A4 & A5 & A6 & A7)
    (B1 & B2 & B3 & B4 & B5 & B6 & B7).
  repeat split; congruence.
Qed.

Lemma keeps_emit e c : is_add e = false -> keeps c (emit e c).
Proof.
  intros H. repeat split. cbn. rewrite added_tasks_app. cbn.
  destruct e as [| | |[]| | | | |]; try discriminate; cbn; now rewrite app_nil_r.
Qed.

Lemma keeps_spinnies op c : keeps c (spinnies op c).
Proof. now apply keeps_emit. Qed.

Lemma keeps_await_call call k c : keeps c (await_call call k c).
Proof.
  repeat split. cbn. rewrite added_tasks_app. cbn. now rewrite app_nil_r.
Qed.

Lemma keeps_logger op c : keeps c (logger op c).
Proof. now apply keeps_emit. Qed.

Lemma keeps_set_spinCount v c : keeps c (set_spinCount v c).
Proof. repeat split. Qed.
Lemma keeps_set_devModeStatus v c : keeps c (set_devModeStatus v c).
Proof. repeat split. Qed.
Lemma keeps_set_timers v c : keeps c (set_timers v c).
Proof. repeat split. Qed.
Lemma keeps_set_timerCount v c : keeps c (set_timerCount v c).
Proof. repeat split. Qed.
Lemma keeps_set_debouncedBuild v c : keeps c (set_debouncedBuild v c).
Proof. repeat split. Qed.

Create HintDb keeps.
#[local] Hint Resolve keeps_refl keeps_emit keeps_spinnies keeps_await_call
  keeps_logger keeps_set_spinCount keeps_set_devModeStatus keeps_set_timers
  keeps_set_timerCount keeps_set_debouncedBuild : keeps.
#[local] Hint Extern 1 (is_add _ = false) => reflexivity : keeps.

Ltac keeps_chain := rel_chain keeps_refl keeps_trans ltac:(auto with keeps).

Lemma keeps_updateDevModeStatus s c : keeps c (updateDevModeStatus s c).
Proof. unfold updateDevModeStatus. keeps_chain. Qed.
#[local] Hint Resolve keeps_updateDevModeStatus : keeps.

Lemma keeps_debounceQueueBuild c : keeps c (debounceQueueBuild c).
Proof. unfold debounceQueueBuild, set_timer, clear_timer. keeps_chain. Qed.
#[local] Hint Resolve keeps_debounceQueueBuild : keeps.

Section Keeps.
Context {ext : Externals}.

Lemma keeps_sendChanges id ci c : keeps c (sendChanges id ci c).
Proof. unfold sendChanges, spinnies_add_null. keeps_chain. Qed.
#[local] Hint Resolve keeps_sendChanges : keeps.

Lemma keeps_run_task id t c : keeps c (run_task id t c).
Proof. unfold run_task. keeps_chain. Qed.
#[local] Hint Resolve keeps_run_task : keeps.

Lemma keeps_tryToStartAnother c : keeps c (snd (tryToStartAnother c)).
Proof.
  unfold tryToStartAnother.
  destruct (waiting (uploadQueue c)) as [|[id t] rest]; [apply keeps_refl|].
  destruct (negb (isPaused (uploadQueue c))
            && (List.length (pending (uploadQueue c)) <? CONCURRENCY));
    [|apply keeps_refl].
  cbn [snd]. eapply keeps_trans; [|apply keeps_run_task].
  eapply keeps_trans; [|apply keeps_emit; reflexivity].
  repeat split.
Qed.

End Keeps.

Section Flush.

Context {ext : Externals}.

Lemma queue_add_spec t c :
  let c' := fst (queue_add t c) in
  snd (queue_add t c) = nextTask (uploadQueue c)
  /\ nextTask (uploadQueue c') = S (nextTask (uploadQueue c))
  /\ added_tasks (trace c') = added_tasks (trace c) ++ [t]
  /\ standbyChanges c' = standbyChanges c
  /\ exited c' = exited c.
Proof.
  unfold queue_add. cbv zeta. cbn [fst snd].
  match goal with
  | |- context [tryToStartAnother ?x] =>
      destruct (keeps_tryToStartAnother x) as (K1 & K2 & K3 & K4 & K5 & K6 & K7)
  end.
  rewrite K1, K4, K6, K7. cbn. rewrite added_tasks_app. cbn.
  repeat split; reflexivity.
Qed.

Lemma queue_addAll_spec ts c :
  let c' := fst (queue_addAll ts c) in
  snd (queue_addAll ts c) = seq (nextTask (uploadQueue c)) (List.length ts)
  /\ nextTask (uploadQueue c') = nextTask (uploadQueue c) + List.length ts
  /\ added_tasks (trace c') = added_tasks (trace c) ++ ts
  /\ standbyChanges c' = standbyChanges c
  /\ exited c' = exited c.
Proof.
  revert c. induction ts as [|t ts IH]; intros c.
  - cbn. rewrite app_nil_r, Nat.add_0_r. repeat split; reflexivity.
  - rewrite queue_addAll_cons. cbn [fst snd List.length seq].
    destruct (queue_add_spec t c) as (A1 & A2 & A3 & A4 & A5).
    destruct (IH (fst (queue_add t c))) as (B1 & B2 & B3 & B4 & B5).
    cbv zeta in *. rewrite B1, B2, B3, B4, B5, A1, A2, A3, A4, A5.
    rewrite <- app_assoc. cbn. repeat split; (reflexivity || lia).
Qed.

(** C3. The standby list is flushed in two steps. Called on a non-empty
    list, [flushStandbyChanges] hands one task per entry to the upload
    queue, in the order of the list, and suspends until all of them have
    settled; the list itself is untouched while it waits. It is reset to
    empty when the method resumes, and the event loop resumes it only once
    every one of its jobs has settled. Called on an empty list the method
    changes nothing. *)
Theorem flushStandbyChanges_schedules_in_order :
  forall (ret : frame) (c : config),
    (standbyChanges c = [] -> flushStandbyChanges ret c = (c, true))
    /\ (standbyChanges c <> [] ->
          let c1 := fst (flushStandbyChanges ret c) in
          let ids := seq (nextTask (uploadQueue c))
                       (List.length (standbyChanges c)) in
          snd (flushStandbyChanges ret c) = false
          /\ added_tasks (trace c1)
             = added_tasks (trace c) ++ map flush_task (standbyChanges c)
          /\ standbyChanges c1 = standbyChanges c
          /\ (exists p, pool c1 = p ++ [K_addAll ids ret])
          /\ exited c1 = exited c)
    /\ (forall ids r c2,
          resume (K_addAll ids ret) r c2
          = continue ret (set_standbyChanges [] c2))
    /\ (forall ids n c2,
          nth_error (pool c2) n = Some (K_addAll ids ret) ->
          forallb (settled (uploadQueue c2)) ids = false ->
          step c2 (InWake n) = c2
          /\ forall r, step c2 (InSettle n r) = c2).
Proof.
  intros ret c. split; [|split; [|split]].
  - intros E. unfold flushStandbyChanges. now rewrite E.
  - intros NE. destruct (standbyChanges c) as [|ci l] eqn:E; [congruence|].
    rewrite (flushStandbyChanges_cons ret ci l c E). cbn [fst snd].
    destruct (queue_addAll_spec (map flush_task (ci :: l)) c)
      as (A1 & A2 & A3 & A4 & A5).
    cbv zeta in *. rewrite A1, length_map. cbn [await_queue].
    split; [reflexivity|]. split; [exact A3|].
    split; [exact (eq_trans A4 E)|].
    split; [|exact A5]. eexists. reflexivity.
  - reflexivity.
  - intros ids n c2 Hn Hs. unfold step. destruct (exited c2); [now split|].
    rewrite Hn. cbn. rewrite Hs. now split.
Qed.

End Flush.

(** *** The drain before the remote queue call *)

Lemma emits_quiet_counts c c' :
  emits quiet_effect c c' ->
  count is_queue_call (trace c') = count is_queue_call (trace c)
  /\ count is_queueBuild_entry (trace c') = count is_queueBuild_entry (trace c).
Proof.
  intros (d & -> & Hd). rewrite !count_app.
  assert (count is_queue_call d = 0 /\ count is_queueBuild_entry d = 0) as [-> ->];
    [|lia].
  induction d as [|e d IH]; [now split|].
  cbn in Hd. apply andb_prop in Hd as [He Hd]. destruct (IH Hd) as [I1 I2].
  unfold quiet_effect in He. apply negb_true_iff, orb_false_elim in He as [E1 E2].
  change (e :: d) with ([e] ++ d). rewrite !count_app, !count_one, E1, E2, I1, I2.
  now split.
Qed.

Lemma ends_queueing_after c c1 c2 :
  quiet c c1 -> ends_queueing c1 c2 -> ends_queueing c c2.
Proof.
  intros Q [c' H | c' H | c' key H I].
  - apply eq_quiet. eapply quiet_trans; eassumption.
  - apply eq_entry. eapply quiet_trans; eassumption.
  - apply eq_wake; [eapply quiet_trans; eassumption | exact I].
Qed.

Section Drain.

Context {ext : Externals}.

Lemma continue_shape ret c : ends_queueing c (continue ret c).
Proof.
  destruct ret; cbn [continue].
  - apply eq_quiet, quiet_start_watching.
  - pose proof (quiet_flushStandbyChanges F_keypress_flushed c) as H.
    destruct (flushStandbyChanges F_keypress_flushed c) as [c1 []];
      cbn [fst] in H; [now apply eq_entry | now apply eq_quiet].
  - apply eq_entry, quiet_refl.
  - apply eq_quiet, quiet_queueBuild_finish.
  - apply eq_quiet, quiet_handleWatchEvent_flushed.
  - apply eq_quiet, quiet_refl.
Qed.

Lemma resume_shape k r c :
  (forall key, k = K_onIdle key -> is_idle (uploadQueue c) = true) ->
  ends_queueing c (resume k r c).
Proof.
  intros Hidle. destruct k; cbn [resume].
  - apply eq_quiet, quiet_start_served.
  - unfold createNewStagingBuild_settled. destruct r as [[| |b]|e].
    + apply eq_quiet, quiet_createNewStagingBuild_catch.
    + eapply ends_queueing_after; [|apply continue_shape].
      apply quiet_set_currentStagedBuildId.
    + eapply ends_queueing_after; [|apply continue_shape].
      apply quiet_set_currentStagedBuildId.
    + apply eq_quiet, quiet_createNewStagingBuild_catch.
  - apply eq_quiet, quiet_createNewStagingBuild_cancelled.
  - apply eq_quiet, quiet_handleWatchEvent_notified.
  - apply eq_quiet, quiet_executeServers_settled.
  - eapply ends_queueing_after; [|apply continue_shape].
    apply quiet_flushStandbyChanges_settled.
  - apply eq_quiet. eapply quiet_trans; [|apply quiet_queue_next].
    unfold sendChanges_settled. quiet_chain.
  - apply eq_wake; [apply quiet_refl | now apply (Hidle spinniesKey)].
  - apply eq_quiet, quiet_queueBuild_queued.
  - apply eq_quiet, quiet_queueBuild_polled.
  - apply eq_quiet, quiet_stop_closed.
  - apply eq_quiet, quiet_stop_cleaned.
  - apply eq_quiet, quiet_stop_cancelled.
Qed.

(** Every turn of the event loop other than the clock and the timer. *)
Lemma step_shape c i :
  match i with InAdvance _ | InTimer _ => False | _ => True end ->
  ends_queueing c (step c i).
Proof.
  intros Hi. unfold step. destruct (exited c); [apply eq_quiet, quiet_refl|].
  destruct i as [ev path|key|m|dt|id|n r|n]; try contradiction.
  - destruct (watching c && negb (shouldIgnoreFile path false));
      apply eq_quiet; [apply quiet_handleWatchEvent | apply quiet_refl].
  - destruct (listening c); apply eq_quiet;
      [apply quiet_onKeypress | apply quiet_refl].
  - apply eq_quiet, quiet_handleServerLog.
  - destruct (nth_error (pool c) n) as [k|]; [|apply eq_quiet, quiet_refl].
    destruct (awaits_queue k) eqn:A; [apply eq_quiet, quiet_refl|].
    eapply ends_queueing_after; [apply quiet_set_pool|].
    apply resume_shape. intros key ->. discriminate.
  - destruct (nth_error (pool c) n) as [k|]; [|apply eq_quiet, quiet_refl].
    destruct (ready k c) eqn:R; [|apply eq_quiet, quiet_refl].
    eapply ends_queueing_after; [apply quiet_set_pool|].
    apply resume_shape. intros key ->. exact R.
Qed.

Lemma queueBuild_effects c :
  let c' := queueBuild c in
  let entry := E_spin (sp_add (Generated (spinCount c))
                         (i18n "content.uploadingChanges" []) spinning) in
  trace c' =
    trace c ++ [entry; E_queue q_pause]
    ++ (if is_idle (uploadQueue c)
        then [E_queue q_onIdle;
              E_call (api_queueBuild (targetAccountId c) (name (projectCfg c)))]
        else [])
  /\ pool c' =
       pool c ++ [if is_idle (uploadQueue c)
                  then K_queueBuild (Generated (spinCount c))
                  else K_onIdle (Generated (spinCount c))]
  /\ uploadQueue c' = set_isPaused true (uploadQueue c)
  /\ timers c' = timers c
  /\ debouncedBuild c' = debouncedBuild c
  /\ now c' = now c
  /\ exited c' = exited c.
Proof.
  unfold queueBuild, pauseUploadQueue, spinnies_add_null. cbv zeta.
  match goal with
  | |- context [is_idle (uploadQueue ?x)] =>
      change (is_idle (uploadQueue x)) with (is_idle (uploadQueue c))
  end.
  destruct (is_idle (uploadQueue c)); cbn; rewrite <- ?app_assoc;
    repeat split; reflexivity.
Qed.

End Drain.

Section DrainTheorem.

Context {ext : Externals}.

Lemma is_idle_paused q : is_idle (set_isPaused true q) = is_idle q.
Proof. reflexivity. Qed.

(** C1. [queueBuild] and the upload queue.
    - Whenever the method runs, its first effects are its spinner line and
      [uploadQueue.pause()]; the remote [queueBuild] call follows in the
      same turn only when the queue is idle (nothing running, nothing
      waiting), and otherwise the method is suspended on [onIdle()] without
      having issued the call.
    - The event loop resumes the suspended method only in a state where the
      queue is idle, and the resumed method then issues the call.
    - Hence, in every turn of the event loop that issues the remote call,
      the upload queue has no job in flight. *)
Theorem queueBuild_waits_for_the_drain :
  (forall c : config,
     let c' := queueBuild c in
     let entry := E_spin (sp_add (Generated (spinCount c))
                            (i18n "content.uploadingChanges" []) spinning) in
     let call := E_call (api_queueBuild (targetAccountId c)
                           (name (projectCfg c))) in
     isPaused (uploadQueue c') = true
     /\ (is_idle (uploadQueue c) = true ->
           trace c' = trace c ++ [entry; E_queue q_pause; E_queue q_onIdle; call])
     /\ (is_idle (uploadQueue c) = false ->
           trace c' = trace c ++ [entry; E_queue q_pause]
           /\ pool c' = pool c ++ [K_onIdle (Generated (spinCount c))]))
  /\ (forall (c : config) (n : nat) (key : spin_key),
        exited c = None ->
        nth_error (pool c) n = Some (K_onIdle key) ->
        (is_idle (uploadQueue c) = false ->
           step c (InWake n) = c /\ forall r, step c (InSettle n r) = c)
        /\ (is_idle (uploadQueue c) = true ->
              trace (step c (InWake n))
              = trace c ++ [E_queue q_onIdle;
                            E_call (api_queueBuild (targetAccountId c)
                                      (name (projectCfg c)))]
              /\ uploadQueue (step c (InWake n)) = uploadQueue c))
  /\ (forall (c : config) (i : input),
        count is_queue_call (trace (step c i))
        <> count is_queue_call (trace c) ->
        pending (uploadQueue (step c i)) = []
        /\ waiting (uploadQueue (step c i)) = []).
Proof.
  split; [|split].
  - intros c c' entry call.
    destruct (queueBuild_effects c) as (T & P & Q & _).
    fold c' in T, P, Q. split; [now rewrite Q|]. split; intros I; rewrite I in *.
    + exact T.
    + split; [now rewrite T | exact P].
  - intros c n key He Hn. split; intros I.
    + unfold step. rewrite He, Hn. cbn. rewrite I. now split.
    + unfold step. rewrite He, Hn. cbn. rewrite I. cbn.
      rewrite <- app_assoc. now split.
  - intros c i Hc.
    assert (Hidle : is_idle (uploadQueue (step c i)) = true).
    { destruct i as [ev path|key|m|dt|id|n r|n].
      4:{ exfalso. apply Hc. unfold step. destruct (exited c); [reflexivity|].
          now destruct (0 <=? dt)%Z. }
      4:{ unfold step in *. destruct (exited c); [congruence|].
          destruct (timer_deadline id c); [|congruence].
          destruct (_ <=? _)%Z; [|congruence]. unfold fire_timer in *.
          match goal with
          | |- context [queueBuild ?x] =>
              set (c1 := x) in *;
              destruct (queueBuild_effects c1) as (T & _ & Q & _)
          end.
          rewrite Q, is_idle_paused.
          destruct (is_idle (uploadQueue c1)) eqn:I1; [reflexivity|].
          exfalso. apply Hc. rewrite T, app_nil_r. subst c1. cbn.
          count_effects. lia. }
      all: match goal with
           | |- context [step ?c0 ?i] =>
               destruct (step_shape c0 i I) as [c' H | c1 H | c1 key' H I']
           end.
      all: try (exfalso; apply Hc; now apply emits_quiet_counts, H).
      all: try (destruct (queueBuild_effects c1) as (T & _ & Q & _);
                rewrite Q, is_idle_paused;
                destruct (is_idle (uploadQueue c1)) eqn:I1; [reflexivity|];
                exfalso; apply Hc; rewrite T, app_nil_r;
                destruct (emits_quiet_counts _ _ (proj1 H)) as [<- _];
                count_effects; lia).
      all: assumption. }
    unfold is_idle in Hidle.
    destruct (pending (uploadQueue (step c i)));
      destruct (waiting (uploadQueue (step c i))); try discriminate.
    now split.
Qed.

End DrainTheorem.

(** *** The debounce timer *)

Section Debounce.

Context {ext : Externals}.

Lemma queue_add_keeps t c :
  let c' := fst (queue_add t c) in
  exited c' = exited c /\ watching c' = watching c
  /\ uploadPermission c' = uploadPermission c
  /\ standbyChanges c' = standbyChanges c
  /\ isPaused (uploadQueue c') = isPaused (uploadQueue c).
Proof.
  unfold queue_add. cbv zeta. cbn [fst snd].
  match goal with
  | |- context [tryToStartAnother ?x] =>
      destruct (keeps_tryToStartAnother x) as (K1 & K2 & K3 & K4 & K5 & _)
  end.
  rewrite K1, K2, K3, K4, K5. repeat split.
Qed.

Lemma armed_after_quiet c c' : armed c -> quiet c c' -> armed c'.
Proof.
  intros [S D] (_ & N & T). destruct (T S) as [S' D']. split; [exact S'|].
  rewrite N. destruct D' as [-> | ->]; [exact D | reflexivity].
Qed.

Lemma armed_timers c :
  armed c -> exists id, timers c = [(id, (now c + BUILD_DEBOUNCE_TIME)%Z)].
Proof.
  intros [[T|(id & d & T & _)] D]; unfold deadlines in D; rewrite T in D.
  - discriminate.
  - cbn in D. injection D as ->. now exists id.
Qed.

(** What runs for one upload-required change while the session uploads:
    the notification, then the timer is armed and the upload is queued. *)
Lemma change_unfolds ev path c :
  uploading c -> visible path ->
  let ci := {| event := ev; filePath := path;
               remotePath := path_relative (projectSourceDir c) path;
               supported := None |} in
  upload_required_change ev path c =
  fst (queue_add (send_task ci)
         (debounceQueueBuild
            (set_pool (pool c)
               (await_call (DevServerManager_notify ci) (K_notify ci) c)))).
Proof.
  intros (He & Hw & Hp & Hq & Hs) [Hi Hd] ci. unfold upload_required_change.
  unfold step at 1. rewrite He, Hw, Hi. cbn [andb negb].
  unfold handleWatchEvent. cbn [filePath]. rewrite Hd. unfold notifyServers.
  fold ci.
  rewrite (settle_last_resumes _ (K_notify ci) (pool c))
    by (try reflexivity; exact He).
  cbn [resume]. unfold handleWatchEvent_notified. cbn [notifyServers_settled].
  unfold handleWatchEvent_upload.
  set (c1 := set_pool (pool c)
               (await_call (DevServerManager_notify ci) (K_notify ci) c)).
  change (uploadPermission c1) with (uploadPermission c).
  change (uploadQueue c1) with (uploadQueue c).
  rewrite Hp, Hq. cbn [is_always negb].
  unfold flushStandbyChanges. change (standbyChanges c1) with (standbyChanges c).
  rewrite Hs. unfold handleWatchEvent_flushed.
  change (uploadQueue c1) with (uploadQueue c). rewrite Hq. reflexivity.
Qed.

(** One upload-required change arms the timer and runs no [queueBuild]. *)
Lemma change_arms ev path c :
  uploading c -> slot_ok c -> visible path ->
  let c' := upload_required_change ev path c in
  uploading c' /\ armed c' /\ now c' = now c
  /\ count is_queueBuild_entry (trace c') = count is_queueBuild_entry (trace c).
Proof.
  intros U Hslot V. rewrite (change_unfolds ev path c U V). cbv zeta.
  destruct U as (He & Hw & Hp & Hq & Hs).
  set (ci := {| event := ev; filePath := path;
                remotePath := path_relative (projectSourceDir c) path;
                supported := None |}).
  set (c1 := set_pool (pool c)
               (await_call (DevServerManager_notify ci) (K_notify ci) c)).
  assert (Q1 : quiet c c1) by (subst c1; quiet_chain).
  assert (S1 : slot_ok c1) by exact Hslot.
  destruct (debounceQueueBuild_arms c1 S1) as [T2 D2].
  pose proof (quiet_debounceQueueBuild c1) as Q2.
  destruct (keeps_debounceQueueBuild c1) as (K1 & K2 & K3 & K4 & K5 & _).
  set (c2 := debounceQueueBuild c1) in *.
  assert (A2 : armed c2).
  { split; [right; eauto|]. unfold deadlines. rewrite T2.
    destruct Q2 as (_ & N2 & _). cbn [map snd]. now rewrite N2. }
  pose proof (quiet_queue_add (send_task ci) c2) as Q3.
  destruct (queue_add_keeps (send_task ci) c2) as (L1 & L2 & L3 & L4 & L5).
  cbv zeta in *. set (c3 := fst (queue_add (send_task ci) c2)) in *.
  split; [|split; [|split]].
  - unfold uploading. rewrite L1, L2, L3, L4, L5, K1, K2, K3, K4, K5.
    split; [exact He|]. split; [exact Hw|]. split; [exact Hp|].
    split; [exact Hq | exact Hs].
  - exact (armed_after_quiet c2 c3 A2 Q3).
  - destruct Q3 as (_ & N3 & _). destruct Q2 as (_ & N2 & _).
    exact (eq_trans N3 N2).
  - assert (Q : quiet c c3)
      by exact (quiet_trans c c2 c3 (quiet_trans c c1 c2 Q1 Q2) Q3).
    exact (proj2 (emits_quiet_counts c c3 (proj1 Q))).
Qed.

Lemma step_advance dt c :
  exited c = None -> (0 <= dt)%Z ->
  step c (InAdvance dt) = set_now (now c + dt)%Z c.
Proof.
  intros He G. unfold step. rewrite He.
  now replace (0 <=? dt)%Z with true by (symmetry; apply Z.leb_le; lia).
Qed.

Lemma step_timer id d c :
  exited c = None -> timers c = [(id, d)] ->
  step c (InTimer id) = if (d <=? now c)%Z then fire_timer id c else c.
Proof.
  intros He T. unfold step, timer_deadline. rewrite He, T. cbn [find fst].
  rewrite Nat.eqb_refl. reflexivity.
Qed.

(** While the timer is not due, letting time pass only moves the clock. *)
Lemma elapse_before_deadline gap c :
  exited c = None -> armed c -> (0 <= gap < BUILD_DEBOUNCE_TIME)%Z ->
  elapse gap c = set_now (now c + gap)%Z c.
Proof.
  intros He A G. destruct (armed_timers c A) as [id T].
  unfold elapse. rewrite (step_advance gap c He) by lia. cbv zeta.
  change (timers (set_now (now c + gap)%Z c)) with (timers c).
  rewrite T. cbn [fold_left fst].
  rewrite (step_timer id (now c + BUILD_DEBOUNCE_TIME)%Z) by assumption.
  change (now (set_now (now c + gap)%Z c)) with (now c + gap)%Z.
  now replace (now c + BUILD_DEBOUNCE_TIME <=? now c + gap)%Z with false
    by (symmetry; apply Z.leb_gt; lia).
Qed.

(** Once the deadline has passed, the event loop fires the timer. *)
Lemma elapse_past_deadline dt c :
  exited c = None -> armed c -> (BUILD_DEBOUNCE_TIME <= dt)%Z ->
  exists id, timers c = [(id, (now c + BUILD_DEBOUNCE_TIME)%Z)]
             /\ elapse dt c = fire_timer id (set_now (now c + dt)%Z c).
Proof.
  intros He A G. destruct (armed_timers c A) as [id T]. exists id.
  split; [exact T|].
  unfold elapse. rewrite (step_advance dt c He)
    by (unfold BUILD_DEBOUNCE_TIME in G; lia).
  cbv zeta. change (timers (set_now (now c + dt)%Z c)) with (timers c).
  rewrite T. cbn [fold_left fst].
  rewrite (step_timer id (now c + BUILD_DEBOUNCE_TIME)%Z) by assumption.
  change (now (set_now (now c + dt)%Z c)) with (now c + dt)%Z.
  now replace (now c + BUILD_DEBOUNCE_TIME <=? now c + dt)%Z with true
    by (symmetry; apply Z.leb_le; lia).
Qed.

(** The timer slot is an invariant of the event loop. *)
Lemma step_keeps_slot c i : slot_ok c -> slot_ok (step c i).
Proof.
  intros S.
  assert (Hq : forall c1, slot_ok c1 -> slot_ok (queueBuild c1)).
  { intros c1 S1. destruct (queueBuild_effects c1) as (_ & _ & _ & T & D & _).
    unfold slot_ok in *. now rewrite T, D. }
  destruct i as [ev path|key|m|dt|id|n r|n].
  4:{ unfold step. destruct (exited c); [exact S|].
      destruct (0 <=? dt)%Z; exact S. }
  4:{ unfold step. destruct (exited c); [exact S|].
      destruct (timer_deadline id c); [|exact S].
      destruct (_ <=? _)%Z; [|exact S]. unfold fire_timer. apply Hq.
      destruct S as [T|(id' & d & T & D)]; unfold slot_ok; cbn; rewrite T; cbn.
      - now left.
      - destruct (id' =? id); cbn; [now left | right; eauto]. }
  all: match goal with
       | |- context [step ?c0 ?i] =>
           destruct (step_shape c0 i I) as [c' H | c1 H | c1 key' H I']
       end.
  all: destruct H as (_ & _ & T); destruct (T S) as [S' _].
  - exact S'.
  - now apply Hq.
  - exact S'.
  - exact S'.
  - now apply Hq.
  - exact S'.
  - exact S'.
  - now apply Hq.
  - exact S'.
  - exact S'.
  - now apply Hq.
  - exact S'.
  - exact S'.
  - now apply Hq.
  - exact S'.
Qed.

Lemma burst_keeps_armed rest :
  forall c,
    uploading c -> armed c ->
    Forall (fun change => visible (snd (snd change))) rest ->
    Forall within_quiet_period rest ->
    let c1 := burst rest c in
    uploading c1 /\ armed c1
    /\ count is_queueBuild_entry (trace c1) = count is_queueBuild_entry (trace c).
Proof.
  induction rest as [|[gap [ev path]] rest IH]; intros c U A V G.
  - cbn [burst]. cbv zeta. split; [exact U|]. split; [exact A|reflexivity].
  - inversion V as [|? ? V1 V2]; inversion G as [|? ? G1 G2]; subst.
    cbn [burst]. cbn [snd fst] in V1. unfold within_quiet_period in G1.
    cbn [fst] in G1.
    rewrite (elapse_before_deadline gap c (proj1 U) A G1).
    set (c' := set_now (now c + gap)%Z c).
    assert (U' : uploading c') by exact U.
    assert (S' : slot_ok c') by exact (proj1 A).
    destruct (change_arms ev path c' U' S' V1) as (U2 & A2 & _ & E2).
    destruct (IH _ U2 A2 V2 G2) as (U3 & A3 & E3).
    cbv zeta. split; [exact U3|]. split; [exact A3|].
    rewrite E3. exact E2.
Qed.

(** C2. The debounced build trigger is a single slot.
    - Arming it ([debounceQueueBuild]) cancels the pending timer, if any, and
      leaves exactly one timer, due [BUILD_DEBOUNCE_TIME] = 3500 ms from now.
    - At most one timer is pending at any time: the slot is an invariant of
      every turn of the event loop.
    - While the session uploads, a burst of upload-required changes, each
      arriving less than 3500 ms after the one before it, runs no
      [queueBuild]; it leaves one pending timer, and once 3500 ms or more
      have passed the event loop has run [queueBuild] exactly once and no
      timer is left to run it again. *)
Theorem debounce_coalesces_a_burst :
  (forall c : config,
     slot_ok c ->
     timers (debounceQueueBuild c)
     = [(timerCount c, (now c + BUILD_DEBOUNCE_TIME)%Z)]
     /\ debouncedBuild (debounceQueueBuild c) = Some (timerCount c)
     /\ BUILD_DEBOUNCE_TIME = 3500%Z)
  /\ (forall (c : config) (i : input), slot_ok c -> slot_ok (step c i))
  /\ (forall (c : config) (ev : watch_event) (path : string)
             (rest : list (Z * (watch_event * string))),
        uploading c -> slot_ok c -> visible path ->
        Forall (fun change => visible (snd (snd change))) rest ->
        Forall within_quiet_period rest ->
        let c1 := burst rest (upload_required_change ev path c) in
        count is_queueBuild_entry (trace c1)
        = count is_queueBuild_entry (trace c)
        /\ (exists id, timers c1 = [(id, (now c1 + BUILD_DEBOUNCE_TIME)%Z)])
        /\ forall dt : Z,
             (BUILD_DEBOUNCE_TIME <= dt)%Z ->
             count is_queueBuild_entry (trace (elapse dt c1))
             = S (count is_queueBuild_entry (trace c))
             /\ timers (elapse dt c1) = []).
Proof.
  split; [|split].
  - intros c S. destruct (debounceQueueBuild_arms c S) as [T D].
    now repeat split.
  - intros c i. apply step_keeps_slot.
  - intros c ev path rest U S V Vs Gs.
    destruct (change_arms ev path c U S V) as (U1 & A1 & _ & E1).
    destruct (burst_keeps_armed rest _ U1 A1 Vs Gs) as (U2 & A2 & E2).
    cbv zeta in *.
    set (c1 := burst rest (upload_required_change ev path c)) in *.
    split; [now rewrite E2|]. split; [apply armed_timers, A2|].
    intros dt G.
    destruct (elapse_past_deadline dt c1 (proj1 U2) A2 G) as (id & T & ->).
    unfold fire_timer.
    match goal with
    | |- context [queueBuild ?x] =>
        destruct (queueBuild_effects x) as (Tr & _ & _ & Ti & _)
    end.
    cbv zeta in Tr. rewrite Tr, Ti. cbn [timers set_timers emit set_trace set_now trace].
    rewrite T. cbn [filter fst]. rewrite Nat.eqb_refl. cbn [negb].
    split; [|reflexivity].
    rewrite !count_app, E2, E1.
    match goal with
    | |- context [if ?b then _ else _] => destruct b
    end; count_effects; lia.
Qed.

End Debounce.

(** *** Upload permission [never] *)

Lemma calm_refl c : calm c c.
Proof.
  repeat split. exists []. now rewrite app_nil_r.
Qed.

Lemma calm_trans c1 c2 c3 : calm c1 c2 -> calm c2 c3 -> calm c1 c3.
Proof.
  intros (A1 & A2 & (k1 & A3 & A4) & A5) (B1 & B2 & (k2 & B3 & B4) & B5).
  split; [congruence|]. split; [congruence|]. split; [|congruence].
  exists (k1 ++ k2). rewrite B3, A3, app_assoc, forallb_app, A4, B4. now split.
Qed.

Lemma calm_same c c' :
  uploadPermission c' = uploadPermission c -> timers c' = timers c ->
  pool c' = pool c -> trace c' = trace c -> calm c c'.
Proof.
  intros H1 H2 H3 H4. repeat split; try assumption; [|now rewrite H4].
  exists []. now rewrite app_nil_r.
Qed.

Lemma calm_emit e c : is_upload_call e = false -> calm c (emit e c).
Proof.
  intros H. repeat split; [exists []; now rewrite app_nil_r|].
  cbn. rewrite count_app, count_one, H. lia.
Qed.

Lemma calm_spinnies op c : calm c (spinnies op c).
Proof. now apply calm_emit. Qed.

Lemma calm_logger op c : calm c (logger op c).
Proof. now apply calm_emit. Qed.

Lemma calm_process_exit code c : calm c (process_exit code c).
Proof.
  repeat split; [exists []; now rewrite app_nil_r|].
  cbn. rewrite count_app, count_one. cbn. lia.
Qed.

Lemma calm_await_call call k c :
  is_upload_call (E_call call) = false -> never_kont k = true ->
  calm c (await_call call k c).
Proof.
  intros H K. repeat split.
  - exists [k]. cbn. now rewrite K.
  - cbn. rewrite count_app, count_one, H. lia.
Qed.

Lemma calm_set_standbyChanges v c : calm c (set_standbyChanges v c).
Proof. now apply calm_same. Qed.
Lemma calm_set_devModeStatus v c : calm c (set_devModeStatus v c).
Proof. now apply calm_same. Qed.
Lemma calm_set_spinCount v c : calm c (set_spinCount v c).
Proof. now apply calm_same. Qed.
Lemma calm_set_watching v c : calm c (set_watching v c).
Proof. now apply calm_same. Qed.
Lemma calm_set_listening v c : calm c (set_listening v c).
Proof. now apply calm_same. Qed.
Lemma calm_set_exited v c : calm c (set_exited v c).
Proof. now apply calm_same. Qed.
Lemma calm_set_now v c : calm c (set_now v c).
Proof. now apply calm_same. Qed.

Create HintDb calm.
#[local] Hint Resolve calm_refl calm_emit calm_spinnies calm_logger
  calm_process_exit calm_await_call calm_set_standbyChanges
  calm_set_devModeStatus calm_set_spinCount calm_set_watching
  calm_set_listening calm_set_exited calm_set_now : calm.
#[local] Hint Extern 1 (is_upload_call _ = false) => reflexivity : calm.
#[local] Hint Extern 1 (never_kont _ = true) => reflexivity : calm.

Ltac calm_chain := rel_chain calm_refl calm_trans ltac:(auto with calm).

Lemma calm_updateDevModeStatus s c : calm c (updateDevModeStatus s c).
Proof. unfold updateDevModeStatus. calm_chain. Qed.
#[local] Hint Resolve calm_updateDevModeStatus : calm.

Section Never.

Context {ext : Externals}.

Lemma calm_addChangeToStandbyQueue ci c : calm c (addChangeToStandbyQueue ci c).
Proof. unfold addChangeToStandbyQueue. calm_chain. Qed.
#[local] Hint Resolve calm_addChangeToStandbyQueue : calm.

Lemma calm_handlePreventedUpload ci c : calm c (handlePreventedUpload ci c).
Proof. unfold handlePreventedUpload. calm_chain. Qed.

Lemma calm_stop c : calm c (stop c).
Proof. unfold stop, clearConsoleContent. calm_chain. Qed.

Lemma calm_stop_closed r c : calm c (stop_closed r c).
Proof. unfold stop_closed. calm_chain. Qed.

Lemma calm_stop_exit code c : calm c (stop_exit code c).
Proof. unfold stop_exit. destruct code; calm_chain. Qed.
#[local] Hint Resolve calm_stop_exit : calm.

Lemma calm_stop_cleaned r c : calm c (stop_cleaned r c).
Proof. unfold stop_cleaned. calm_chain. Qed.

Lemma calm_stop_cancelled r c : calm c (stop_cancelled r c).
Proof. unfold stop_cancelled. calm_chain. Qed.

Lemma calm_handleWatchEvent path ev c : calm c (handleWatchEvent path ev c).
Proof. unfold handleWatchEvent, notifyServers. calm_chain. Qed.

Lemma calm_handleWatchEvent_notified ci r c :
  uploadPermission c = UP_never -> calm c (handleWatchEvent_notified ci r c).
Proof.
  intros N. unfold handleWatchEvent_notified, notifyServers_settled.
  assert (U : forall c1, calm c c1 -> calm c (handleWatchEvent_upload ci c1)).
  { intros c1 H. unfold handleWatchEvent_upload.
    replace (uploadPermission c1) with UP_never
      by (destruct H as (-> & _); now rewrite N).
    cbn [is_always negb]. eapply calm_trans; [exact H|].
    apply calm_handlePreventedUpload. }
  assert (S : forall v c1, calm c c1 -> calm c (handleWatchEvent_supported ci v c1)).
  { intros v c1 H. eapply calm_trans; [exact H|].
    unfold handleWatchEvent_supported. calm_chain. }
  destruct r as [[|[]|b]|e]; cbv zeta; cbn [fst snd].
  - calm_chain.
  - apply U, calm_refl.
  - apply S, calm_refl.
  - apply S, calm_refl.
  - apply U. calm_chain.
Qed.

Lemma calm_executeServers_settled r c : calm c (executeServers_settled r c).
Proof. unfold executeServers_settled. calm_chain. Qed.

Lemma calm_updateConsoleHeader c : calm c (updateConsoleHeader c).
Proof. unfold updateConsoleHeader. cbn [fold_left]. calm_chain. Qed.
#[local] Hint Resolve calm_updateConsoleHeader : calm.

Lemma calm_start_served r c :
  uploadPermission c = UP_never -> calm c (start_served r c).
Proof.
  intros N. unfold start_served.
  match goal with
  | |- context [is_always (uploadPermission ?x)] =>
      replace (uploadPermission x) with UP_never
        by (destruct r; [|destruct (debug c)]; now rewrite <- N)
  end.
  cbn [is_always]. unfold start_watching. calm_chain.
Qed.

Lemma calm_onKeypress key c :
  uploadPermission c = UP_never -> calm c (onKeypress key c).
Proof.
  intros N. unfold onKeypress. rewrite N. cbn [is_manual andb].
  rewrite andb_false_r. cbn [andb].
  destruct (_ || _); [apply calm_stop | apply calm_refl].
Qed.

Lemma calm_handleServerLog m c : calm c (handleServerLog m c).
Proof. unfold handleServerLog, spinnies_add_null. calm_chain. Qed.

Lemma never_uploads_after c c' :
  never_uploads c -> calm c c' -> never_uploads c'.
Proof.
  intros (N & T & P) (A1 & A2 & (ks & A3 & A4) & _).
  split; [congruence|]. split; [congruence|].
  now rewrite A3, forallb_app, P, A4.
Qed.

Lemma forallb_remove_nth {A : Type} (p : A -> bool) n (l : list A) :
  forallb p l = true -> forallb p (remove_nth n l) = true.
Proof.
  revert n. induction l as [|a l IH]; intros n H; [now destruct n|].
  cbn in H. apply andb_prop in H as [Ha Hl].
  destruct n; cbn; [exact Hl | now rewrite Ha, IH].
Qed.

Lemma forallb_nth_error {A : Type} (p : A -> bool) n (l : list A) x :
  forallb p l = true -> nth_error l n = Some x -> p x = true.
Proof.
  intros H E. apply nth_error_In in E.
  rewrite forallb_forall in H. now apply H.
Qed.

(** A turn of the event loop in [never] mode issues no upload and stays in
    [never] mode. *)
Lemma step_never c i :
  never_uploads c ->
  never_uploads (step c i)
  /\ count is_upload_call (trace (step c i)) = count is_upload_call (trace c).
Proof.
  intros NU.
  assert (H : forall c1, never_uploads c1 ->
              count is_upload_call (trace c1) = count is_upload_call (trace c) ->
              forall c2, calm c1 c2 ->
              never_uploads c2
              /\ count is_upload_call (trace c2) = count is_upload_call (trace c)).
  { intros c1 N1 E1 c2 C. split; [eapply never_uploads_after; eassumption|].
    destruct C as (_ & _ & _ & ->). exact E1. }
  pose proof NU as (N & T & P).
  unfold step. destruct (exited c); [now split|].
  destruct i as [ev path|key|m|dt|id|n r|n].
  - destruct (_ && _); [|now split].
    apply (H c NU eq_refl), calm_handleWatchEvent.
  - destruct (listening c); [|now split].
    apply (H c NU eq_refl), calm_onKeypress, N.
  - apply (H c NU eq_refl), calm_handleServerLog.
  - destruct (0 <=? dt)%Z; [|now split].
    apply (H c NU eq_refl), calm_set_now.
  - unfold timer_deadline. rewrite T. cbn. now split.
  - destruct (nth_error (pool c) n) as [k|] eqn:E; [|now split].
    destruct (awaits_queue k); [now split|].
    pose proof (forallb_nth_error never_kont n (pool c) k P E) as K.
    assert (N1 : never_uploads (set_pool (remove_nth n (pool c)) c)).
    { split; [exact N|]. split; [exact T|]. cbn. now apply forallb_remove_nth. }
    apply (H _ N1 eq_refl).
    destruct k; try discriminate; cbn [resume].
    + apply calm_start_served, N.
    + apply calm_handleWatchEvent_notified, N.
    + apply calm_executeServers_settled.
    + apply calm_stop_closed.
    + apply calm_stop_cleaned.
    + apply calm_stop_cancelled.
  - destruct (nth_error (pool c) n) as [k|] eqn:E; [|now split].
    pose proof (forallb_nth_error never_kont n (pool c) k P E) as K.
    destruct k; try discriminate; cbn [ready]; now split.
Qed.

Lemma run_never inputs :
  forall c,
    never_uploads c ->
    never_uploads (run c inputs)
    /\ count is_upload_call (trace (run c inputs))
       = count is_upload_call (trace c).
Proof.
  induction inputs as [|i inputs IH]; intros c NU; [now split|].
  cbn [run fold_left]. destruct (step_never c i NU) as [N1 E1].
  destruct (IH _ N1) as [N2 E2]. split; [exact N2|].
  unfold run in E2. now rewrite E2.
Qed.

End Never.

Section NeverTheorem.

Context {ext : Externals}.

(** C5. Upload permission [never].
    - When a change requires an upload (the dev servers said so, or their
      notification failed), [handleWatchEvent] sets the status line to
      [noUploadsAllowed] and shows the ['noUploadsAllowed'] notice; it
      issues no upload or delete call and leaves the upload queue, the
      standby list and the timers as they were.
    - No run of the event loop in [never] mode ever issues
      [uploadFileToBuild] or [deleteFileFromBuild]; in particular none
      does from [start()] of a manager constructed with that permission. *)
Theorem never_mode_never_uploads :
  (forall (c : config) (ci : changeInfo) (r : response),
     uploadPermission c = UP_never ->
     snd (notifyServers_settled r c) = VNotify true ->
     let c' := handleWatchEvent_notified ci r c in
     devModeStatus c' = Some noUploadsAllowed
     /\ count is_upload_call (trace c') = count is_upload_call (trace c)
     /\ uploadQueue c' = uploadQueue c
     /\ standbyChanges c' = standbyChanges c
     /\ timers c' = timers c
     /\ exists before,
          trace c' =
            before
            ++ [E_spin (sp_update (Key "devModeStatus")
                          (i18n "header.status.noUploadsAllowed" [])
                          non_spinnable);
                E_spin (sp_add (Key "noUploadsAllowed")
                          (i18n "content.noUploadsAllowed" [remotePath ci])
                          st_fail)])
  /\ (forall (c : config) (inputs : list input),
        never_uploads c ->
        count is_upload_call (trace (run c inputs))
        = count is_upload_call (trace c))
  /\ (forall (o : options) (c : config) (inputs : list input),
        constructor o = Manager c ->
        o_uploadPermission o = Some UP_never ->
        count is_upload_call (trace (run (start c) inputs)) = 0).
Proof.
  split; [|split].
  - intros c ci r N U c'. subst c'. unfold handleWatchEvent_notified.
    destruct (notifyServers_settled r c) as [c1 v] eqn:E. cbn [snd] in U.
    subst v.
    assert (P : uploadPermission c1 = UP_never /\ uploadQueue c1 = uploadQueue c
                /\ standbyChanges c1 = standbyChanges c /\ timers c1 = timers c
                /\ count is_upload_call (trace c1)
                   = count is_upload_call (trace c)).
    { unfold notifyServers_settled in E. destruct r as [v|e].
      - injection E as <- _. repeat split. exact N.
      - injection E as <-. destruct (debug c); cbn; count_effects;
          repeat split; (exact N || lia). }
    destruct P as (P1 & P2 & P3 & P4 & P5).
    unfold handleWatchEvent_upload, handlePreventedUpload. rewrite P1.
    cbn. rewrite <- P2, <- P3, <- P4, <- P5. count_effects.
    repeat split; try lia. eexists. rewrite <- app_assoc. reflexivity.
  - intros c inputs NU. now apply run_never.
  - intros o c inputs C N.
    assert (NU : never_uploads (start c)
                 /\ count is_upload_call (trace (start c)) = 0).
    { unfold constructor in C. destruct (o_projectConfig o); [|discriminate].
      destruct (o_projectDir o); [|discriminate].
      destruct (srcDir p); [|discriminate].
      destruct (_ || _); [discriminate|]. injection C as <-. rewrite N.
      split; [|reflexivity]. repeat split. }
    destruct NU as [NU Z]. rewrite <- Z. now apply run_never.
Qed.

End NeverTheorem.

(** *** The books of the upload queue and of the standby list *)

Lemma steady_refl c : steady c c.
Proof. intros H; exact H. Qed.

Lemma steady_trans c1 c2 c3 : steady c1 c2 -> steady c2 c3 -> steady c1 c3.
Proof. intros H1 H2 H; exact (H2 (H1 H)). Qed.

(** A change that touches neither the queue's jobs, nor the suspended
    uploads, nor the standby list. *)
Lemma steady_same c c' :
  in_flight c' = in_flight c ->
  pending (uploadQueue c') = pending (uploadQueue c) ->
  waiting (uploadQueue c') = waiting (uploadQueue c) ->
  nextTask (uploadQueue c') = nextTask (uploadQueue c) ->
  standbyChanges c' = standbyChanges c ->
  steady c c'.
Proof.
  intros H1 H2 H3 H4 H5 [(Q1 & Q2 & Q3 & Q4) S]. split.
  - unfold queue_ok, job_ids. rewrite H1, H2, H3, H4. now repeat split.
  - unfold standby_distinct, unsupported_paths. now rewrite H5.
Qed.

Lemma steady_emit e c : steady c (emit e c).
Proof. now apply steady_same. Qed.

Lemma steady_spinnies op c : steady c (spinnies op c).
Proof. apply steady_emit. Qed.

Lemma steady_logger op c : steady c (logger op c).
Proof. apply steady_emit. Qed.

Lemma steady_process_exit code c : steady c (process_exit code c).
Proof. now apply steady_same. Qed.

Lemma steady_await_call call k c :
  task_id k = [] -> steady c (await_call call k c).
Proof.
  intros K. apply steady_same; try reflexivity.
  unfold in_flight. change (pool (await_call call k c)) with (pool c ++ [k]).
  rewrite flat_map_app. cbn [flat_map]. rewrite K. now rewrite !app_nil_r.
Qed.

Lemma steady_await_queue k c : task_id k = [] -> steady c (await_queue k c).
Proof.
  intros K. apply steady_same; try reflexivity.
  unfold in_flight. change (pool (await_queue k c)) with (pool c ++ [k]).
  rewrite flat_map_app. cbn [flat_map]. rewrite K. now rewrite !app_nil_r.
Qed.

Lemma steady_set_debouncedBuild v c : steady c (set_debouncedBuild v c).
Proof. now apply steady_same. Qed.
Lemma steady_set_currentStagedBuildId v c :
  steady c (set_currentStagedBuildId v c).
Proof. now apply steady_same. Qed.
Lemma steady_set_devModeStatus v c : steady c (set_devModeStatus v c).
Proof. now apply steady_same. Qed.
Lemma steady_set_spinCount v c : steady c (set_spinCount v c).
Proof. now apply steady_same. Qed.
Lemma steady_set_watching v c : steady c (set_watching v c).
Proof. now apply steady_same. Qed.
Lemma steady_set_listening v c : steady c (set_listening v c).
Proof. now apply steady_same. Qed.
Lemma steady_set_now v c : steady c (set_now v c).
Proof. now apply steady_same. Qed.
Lemma steady_set_timers v c : steady c (set_timers v c).
Proof. now apply steady_same. Qed.
Lemma steady_set_timerCount v c : steady c (set_timerCount v c).
Proof. now apply steady_same. Qed.
Lemma steady_set_exited v c : steady c (set_exited v c).
Proof. now apply steady_same. Qed.

Lemma steady_set_isPaused b c :
  steady c (set_uploadQueue (set_isPaused b (uploadQueue c)) c).
Proof. now apply steady_same. Qed.

(** Emptying the standby list. *)
Lemma steady_clear_standby c : steady c (set_standbyChanges [] c).
Proof.
  intros [Q _]. split; [exact Q|]. unfold standby_distinct, unsupported_paths.
  cbn. constructor.
Qed.

Create HintDb steady.
#[local] Hint Resolve steady_refl steady_emit steady_spinnies steady_logger
  steady_process_exit steady_await_call steady_await_queue
  steady_set_debouncedBuild steady_set_currentStagedBuildId
  steady_set_devModeStatus steady_set_spinCount steady_set_watching
  steady_set_listening steady_set_now steady_set_timers steady_set_timerCount
  steady_set_exited steady_set_isPaused steady_clear_standby : steady.
#[local] Hint Extern 1 (task_id _ = []) => reflexivity : steady.

Ltac steady_chain := rel_chain steady_refl steady_trans ltac:(auto with steady).

Lemma steady_updateDevModeStatus s c : steady c (updateDevModeStatus s c).
Proof. unfold updateDevModeStatus. steady_chain. Qed.
#[local] Hint Resolve steady_updateDevModeStatus : steady.

Lemma steady_debounceQueueBuild c : steady c (debounceQueueBuild c).
Proof. unfold debounceQueueBuild, set_timer, clear_timer. steady_chain. Qed.
#[local] Hint Resolve steady_debounceQueueBuild : steady.

(** **** Lists *)

Lemma remove_nth_split {A : Type} (l : list A) (n : nat) (x : A) :
  nth_error l n = Some x ->
  exists a b, l = a ++ x :: b /\ remove_nth n l = a ++ b.
Proof.
  revert n. induction l as [|y l IH]; intros [|n] H; try discriminate.
  - injection H as ->. now exists [], l.
  - destruct (IH n H) as (a & b & -> & E). exists (y :: a), b.
    cbn. now rewrite E.
Qed.

Lemma perm_filter {A : Type} (f : A -> bool) (l l' : list A) :
  Permutation l l' -> Permutation (filter f l) (filter f l').
Proof.
  induction 1 as [|x l l' _ IH|x y l|l l' l'' _ IH1 _ IH2]; cbn.
  - constructor.
  - destruct (f x); [now constructor | exact IH].
  - destruct (f x), (f y); try apply Permutation_refl. constructor.
  - eapply Permutation_trans; eassumption.
Qed.

Lemma filter_absent (id : nat) (l : list nat) :
  ~ In id l -> filter (fun j => negb (j =? id)) l = l.
Proof.
  induction l as [|x l IH]; intros H; [reflexivity|]. cbn.
  destruct (x =? id) eqn:E.
  - apply Nat.eqb_eq in E. subst x. exfalso. apply H. now left.
  - cbn. rewrite IH; [reflexivity|]. intros I. apply H. now right.
Qed.

Lemma filter_one_out (id : nat) (a b : list nat) :
  NoDup (a ++ id :: b) ->
  filter (fun j => negb (j =? id)) (a ++ id :: b) = a ++ b.
Proof.
  intros N. apply NoDup_remove_2 in N. rewrite filter_app. cbn.
  rewrite Nat.eqb_refl. cbn. rewrite <- filter_app. now apply filter_absent.
Qed.

Lemma NoDup_filter_app_l {A : Type} (f : A -> bool) (l m : list A) :
  NoDup (l ++ m) -> NoDup (filter f l ++ m).
Proof.
  induction l as [|x l IH]; intros N; [exact N|]. cbn in N.
  inversion N as [|? ? Hx Hl]; subst. cbn. destruct (f x); [|now apply IH].
  cbn. constructor; [|now apply IH]. intros I. apply Hx.
  apply in_app_or in I as [I|I]; apply in_or_app; [left | now right].
  now apply filter_In in I.
Qed.

(** **** The methods *)

Lemma debounceQueueBuild_frame c :
  pool (debounceQueueBuild c) = pool c
  /\ uploadQueue (debounceQueueBuild c) = uploadQueue c
  /\ standbyChanges (debounceQueueBuild c) = standbyChanges c.
Proof.
  unfold debounceQueueBuild, set_timer, clear_timer.
  destruct (is_always (uploadPermission c)); cbn;
    destruct (debouncedBuild c); now repeat split.
Qed.

Section Steady.

Context {ext : Externals}.

Lemma steady_addChangeToStandbyQueue_supported ci c :
  steady c (addChangeToStandbyQueue (with_supported ci true) c).
Proof.
  unfold addChangeToStandbyQueue.
  destruct (_ && _); [auto with steady|].
  destruct (shouldIgnoreFile _ _); [auto with steady|].
  intros [Q S]. split; [exact Q|].
  unfold standby_distinct, unsupported_paths in *. cbn [standbyChanges set_standbyChanges].
  rewrite filter_app. cbn. now rewrite app_nil_r.
Qed.

(** A change that requires an upload enters the standby list only when no
    entry of the list has its path. *)
Lemma steady_addChangeToStandbyQueue_unsupported ci c :
  standby_has_path (filePath ci) c = false ->
  steady c (addChangeToStandbyQueue (with_supported ci false) c).
Proof.
  intros H. unfold addChangeToStandbyQueue.
  destruct (_ && _); [auto with steady|].
  destruct (shouldIgnoreFile _ _); [auto with steady|].
  intros [Q S]. split; [exact Q|].
  unfold standby_distinct, unsupported_paths in *.
  cbn [standbyChanges set_standbyChanges].
  rewrite filter_app, map_app. cbn.
  apply NoDup_app; [exact S | repeat constructor; intros [] |].
  intros p I [<-|[]]. apply in_map_iff in I as (x & E & I).
  apply filter_In in I as [I _]. unfold standby_has_path in H.
  assert (T : existsb (fun ci0 => (filePath ci0 =? filePath ci)%string)
                (standbyChanges c) = true).
  { apply existsb_exists. exists x. split; [exact I|]. now apply String.eqb_eq. }
  congruence.
Qed.

Lemma steady_handlePreventedUpload ci c : steady c (handlePreventedUpload ci c).
Proof.
  unfold handlePreventedUpload.
  destruct (is_never (uploadPermission c)); [steady_chain|].
  repeat (eapply steady_trans; [|apply steady_spinnies]).
  destruct (negb (standby_has_path (filePath ci) (updateDevModeStatus
                                                     manualUploadRequired c)))
    eqn:E; [|auto with steady].
  eapply steady_trans; [apply steady_updateDevModeStatus|].
  apply steady_addChangeToStandbyQueue_unsupported.
  now apply negb_true_iff in E.
Qed.

Lemma sendChanges_frame id ci c :
  exists key,
    pool (sendChanges id ci c) = pool c ++ [K_task id ci key]
    /\ uploadQueue (sendChanges id ci c) = uploadQueue c
    /\ standbyChanges (sendChanges id ci c) = standbyChanges c.
Proof.
  unfold sendChanges, spinnies_add_null. exists (Generated (spinCount c)).
  destruct (event ci); now repeat split.
Qed.

Lemma run_task_frame id t c :
  exists ci key,
    pool (run_task id t c) = pool c ++ [K_task id ci key]
    /\ uploadQueue (run_task id t c) = uploadQueue c
    /\ standbyChanges (run_task id t c) = standbyChanges c.
Proof.
  unfold run_task. destruct t as [ci|ci]; exists ci.
  - destruct (_ && _).
    + destruct (sendChanges_frame id ci (debounceQueueBuild c))
        as (key & P & Q & S).
      destruct (debounceQueueBuild_frame c) as (P' & Q' & S').
      exists key. rewrite P, Q, S, P', Q', S'. now repeat split.
    + apply sendChanges_frame.
  - apply sendChanges_frame.
Qed.

Lemma steady_tryToStartAnother c : steady c (snd (tryToStartAnother c)).
Proof.
  unfold tryToStartAnother.
  destruct (waiting (uploadQueue c)) as [|[id t] rest] eqn:W; [apply steady_refl|].
  destruct (negb (isPaused (uploadQueue c))) eqn:Pa; [|apply steady_refl].
  destruct (List.length (pending (uploadQueue c)) <? CONCURRENCY) eqn:L;
    [|apply steady_refl].
  cbn [andb snd]. intros [(Q1 & Q2 & Q3 & Q4) S].
  match goal with
  | |- session_ok (run_task id t ?x) =>
      destruct (run_task_frame id t x) as (ci & key & P & Q & Sb)
  end.
  apply Nat.ltb_lt in L. unfold job_ids in *. rewrite W in *. cbn [map fst] in *.
  split.
  - unfold queue_ok, job_ids, in_flight. rewrite P, Q. cbn.
    rewrite flat_map_app. cbn. split; [|split; [|split]].
    + now apply Permutation_app_tail.
    + now rewrite <- app_assoc.
    + now rewrite <- app_assoc.
    + rewrite length_app. cbn. lia.
  - unfold standby_distinct, unsupported_paths. rewrite Sb. exact S.
Qed.
#[local] Hint Resolve steady_tryToStartAnother : steady.

Lemma steady_processQueue_loop n c : steady c (processQueue_loop n c).
Proof.
  revert c. induction n as [|n IH]; intros c; cbn [processQueue_loop];
    [apply steady_refl|].
  pose proof (steady_tryToStartAnother c) as H.
  destruct (tryToStartAnother c) as [[] c']; cbn [snd] in H; [|exact H].
  eapply steady_trans; [exact H | apply IH].
Qed.

Lemma steady_processQueue c : steady c (processQueue c).
Proof. apply steady_processQueue_loop. Qed.
#[local] Hint Resolve steady_processQueue : steady.

Lemma steady_queue_add t c : steady c (fst (queue_add t c)).
Proof.
  unfold queue_add. cbn [fst]. eapply steady_trans; [|apply steady_tryToStartAnother].
  intros [(Q1 & Q2 & Q3 & Q4) S]. split; [|exact S].
  unfold queue_ok, job_ids in *. cbn. rewrite map_app, app_assoc. cbn.
  split; [exact Q1|]. split; [|split; [|exact Q4]].
  - apply NoDup_app; [exact Q2 | repeat constructor; intros [] |].
    intros x I [<-|[]]. rewrite Forall_forall in Q3. specialize (Q3 _ I). lia.
  - apply Forall_app. split.
    + eapply Forall_impl; [|exact Q3]. cbn. intros; lia.
    + repeat constructor.
Qed.
#[local] Hint Resolve steady_queue_add : steady.

Lemma steady_queue_addAll ts c : steady c (fst (queue_addAll ts c)).
Proof.
  revert c. induction ts as [|t ts IH]; intros c; [apply steady_refl|].
  rewrite queue_addAll_cons; cbn [fst].
  eapply steady_trans; [apply steady_queue_add | apply IH].
Qed.
#[local] Hint Resolve steady_queue_addAll : steady.

Lemma steady_queue_pause c : steady c (queue_pause c).
Proof. unfold queue_pause. steady_chain. Qed.

Lemma steady_queue_start c : steady c (queue_start c).
Proof.
  unfold queue_start. cbv zeta. destruct (isPaused _); [|auto with steady].
  eapply steady_trans; [|apply steady_processQueue].
  eapply steady_trans; [apply steady_emit|]. apply steady_set_isPaused.
Qed.
#[local] Hint Resolve steady_queue_pause steady_queue_start : steady.

Lemma steady_flushStandbyChanges ret c :
  steady c (fst (flushStandbyChanges ret c)).
Proof.
  destruct (standbyChanges c) as [|ci l] eqn:E.
  - unfold flushStandbyChanges. rewrite E. apply steady_refl.
  - rewrite (flushStandbyChanges_cons ret ci l c E); cbn [fst].
    eapply steady_trans; [apply steady_queue_addAll | auto with steady].
Qed.
#[local] Hint Resolve steady_flushStandbyChanges : steady.

Lemma steady_stop c : steady c (stop c).
Proof. unfold stop, clearConsoleContent. steady_chain. Qed.
#[local] Hint Resolve steady_stop : steady.

Lemma steady_queueBuild_finish c : steady c (queueBuild_finish c).
Proof. unfold queueBuild_finish. steady_chain. Qed.
#[local] Hint Resolve steady_queueBuild_finish : steady.

Lemma steady_createNewStagingBuild ret c :
  steady c (createNewStagingBuild ret c).
Proof. unfold createNewStagingBuild. steady_chain. Qed.
#[local] Hint Resolve steady_createNewStagingBuild : steady.

Lemma steady_createNewStagingBuild_catch err c :
  steady c (createNewStagingBuild_catch err c).
Proof. unfold createNewStagingBuild_catch. steady_chain. Qed.
#[local] Hint Resolve steady_createNewStagingBuild_catch : steady.

Lemma steady_createNewStagingBuild_cancelled r c :
  steady c (createNewStagingBuild_cancelled r c).
Proof. unfold createNewStagingBuild_cancelled. steady_chain. Qed.

Lemma steady_stop_closed r c : steady c (stop_closed r c).
Proof. unfold stop_closed. steady_chain. Qed.

Lemma steady_stop_exit code c : steady c (stop_exit code c).
Proof. unfold stop_exit. destruct code; steady_chain. Qed.
#[local] Hint Resolve steady_stop_exit : steady.

Lemma steady_stop_cleaned r c : steady c (stop_cleaned r c).
Proof. unfold stop_cleaned. steady_chain. Qed.

Lemma steady_stop_cancelled r c : steady c (stop_cancelled r c).
Proof. unfold stop_cancelled. steady_chain. Qed.

Lemma steady_queueBuild c : steady c (queueBuild c).
Proof.
  unfold queueBuild, pauseUploadQueue, queueBuild_drained, spinnies_add_null.
  cbv zeta. destruct (is_idle _); steady_chain.
Qed.
#[local] Hint Resolve steady_queueBuild : steady.

Lemma steady_queueBuild_queued key r c : steady c (queueBuild_queued key r c).
Proof. unfold queueBuild_queued. steady_chain. Qed.

Lemma steady_queueBuild_polled key r c : steady c (queueBuild_polled key r c).
Proof. unfold queueBuild_polled. steady_chain. Qed.

Lemma steady_handleWatchEvent path ev c : steady c (handleWatchEvent path ev c).
Proof. unfold handleWatchEvent, notifyServers. steady_chain. Qed.

Lemma steady_handleWatchEvent_flushed ci c :
  steady c (handleWatchEvent_flushed ci c).
Proof. unfold handleWatchEvent_flushed. steady_chain. Qed.
#[local] Hint Resolve steady_handleWatchEvent_flushed : steady.

Lemma steady_handleWatchEvent_upload ci c :
  steady c (handleWatchEvent_upload ci c).
Proof.
  unfold handleWatchEvent_upload.
  destruct (negb (is_always (uploadPermission c)));
    [apply steady_handlePreventedUpload|].
  destruct (isPaused (uploadQueue c)).
  - destruct (negb (standby_has_path (filePath ci) c)) eqn:E;
      [|apply steady_refl].
    apply steady_addChangeToStandbyQueue_unsupported.
    now apply negb_true_iff in E.
  - pose proof (steady_flushStandbyChanges (F_handleWatchEvent ci) c) as H.
    destruct (flushStandbyChanges (F_handleWatchEvent ci) c) as [c1 []];
      cbn [fst] in H; [|exact H].
    eapply steady_trans; [exact H | auto with steady].
Qed.

Lemma steady_handleWatchEvent_supported ci v c :
  steady c (handleWatchEvent_supported ci v c).
Proof.
  unfold handleWatchEvent_supported. cbv zeta.
  eapply steady_trans; [|apply steady_await_call; reflexivity].
  eapply steady_trans; [apply steady_updateDevModeStatus|].
  apply steady_addChangeToStandbyQueue_supported.
Qed.

Lemma steady_handleWatchEvent_notified ci r c :
  steady c (handleWatchEvent_notified ci r c).
Proof.
  unfold handleWatchEvent_notified.
  assert (H : steady c (fst (notifyServers_settled r c)))
    by (unfold notifyServers_settled; destruct r; steady_chain).
  destruct (notifyServers_settled r c) as [c1 v]; cbn [fst] in H.
  eapply steady_trans; [exact H|].
  destruct v as [|[]|];
    auto using steady_handleWatchEvent_upload, steady_handleWatchEvent_supported
      with steady.
Qed.

Lemma steady_executeServers_settled r c : steady c (executeServers_settled r c).
Proof. unfold executeServers_settled. steady_chain. Qed.

Lemma steady_onKeypress key c : steady c (onKeypress key c).
Proof. unfold onKeypress, spinnies_add_null. steady_chain. Qed.

Lemma steady_updateConsoleHeader c : steady c (updateConsoleHeader c).
Proof. unfold updateConsoleHeader. cbn [fold_left]. steady_chain. Qed.
#[local] Hint Resolve steady_updateConsoleHeader : steady.

Lemma steady_start_watching c : steady c (start_watching c).
Proof. unfold start_watching. steady_chain. Qed.
#[local] Hint Resolve steady_start_watching : steady.

Lemma steady_start_served r c : steady c (start_served r c).
Proof. unfold start_served. steady_chain. Qed.

Lemma steady_start c : steady c (start c).
Proof. unfold start. steady_chain. Qed.

Lemma steady_handleServerLog m c : steady c (handleServerLog m c).
Proof. unfold handleServerLog, spinnies_add_null. steady_chain. Qed.

Lemma steady_continue ret c : steady c (continue ret c).
Proof.
  destruct ret; cbn [continue]; auto with steady.
  pose proof (steady_flushStandbyChanges F_keypress_flushed c) as H.
  destruct (flushStandbyChanges F_keypress_flushed c) as [c1 []];
    cbn [fst] in H; [|exact H].
  eapply steady_trans; [exact H | auto with steady].
Qed.

(** Resuming anything but an upload. *)
Lemma steady_resume k r c : task_id k = [] -> steady c (resume k r c).
Proof.
  intros K. destruct k; try discriminate; cbn [resume].
  - apply steady_start_served.
  - unfold createNewStagingBuild_settled. destruct r as [[| |b]|e];
      try apply steady_createNewStagingBuild_catch;
      (eapply steady_trans; [apply steady_set_currentStagedBuildId
                            | apply steady_continue]).
  - apply steady_createNewStagingBuild_cancelled.
  - apply steady_handleWatchEvent_notified.
  - apply steady_executeServers_settled.
  - eapply steady_trans; [apply steady_clear_standby | apply steady_continue].
  - unfold queueBuild_drained. steady_chain.
  - apply steady_queueBuild_queued.
  - apply steady_queueBuild_polled.
  - apply steady_stop_closed.
  - apply steady_stop_cleaned.
  - apply steady_stop_cancelled.
Qed.

(** An upload settles: its job leaves the started jobs. *)
Lemma settled_upload_ok c n id ci key r :
  session_ok c ->
  nth_error (pool c) n = Some (K_task id ci key) ->
  session_ok (resume (K_task id ci key) r (set_pool (remove_nth n (pool c)) c)).
Proof.
  intros [(Q1 & Q2 & Q3 & Q4) S] Hn. cbn [resume]. unfold queue_next.
  apply steady_tryToStartAnother.
  destruct (remove_nth_split (pool c) n _ Hn) as (a & b & Ea & Eb).
  assert (F : in_flight c = flat_map task_id a ++ id :: flat_map task_id b).
  { unfold in_flight. rewrite Ea, flat_map_app. reflexivity. }
  assert (N : NoDup (in_flight c)).
  { apply (Permutation_NoDup (Permutation_sym Q1)).
    unfold job_ids in Q2. now apply NoDup_app_remove_r in Q2. }
  split.
  - unfold queue_ok, job_ids, in_flight in *.
    unfold sendChanges_settled. destruct r as [v|e]; cbn.
    all: rewrite Eb, flat_map_app.
    all: split; [|split; [|split]].
    all: try (rewrite <- (filter_one_out id _ _ (eq_ind _ _ N _ F)), <- F;
              now apply perm_filter).
    all: try now apply NoDup_filter_app_l.
    all: try (apply Forall_app in Q3 as [Q3 Q3']; apply Forall_app; split;
              [|exact Q3']; rewrite Forall_forall in *; intros x I;
              apply filter_In in I as [I _]; now apply Q3).
    all: etransitivity; [apply filter_length_le | exact Q4].
  - unfold standby_distinct, unsupported_paths in *.
    unfold sendChanges_settled. destruct r; exact S.
Qed.

(** The books stay in order through every turn of the event loop. *)
Lemma step_keeps_session c i : session_ok c -> session_ok (step c i).
Proof.
  intros H. unfold step. destruct (exited c); [exact H|].
  destruct i as [ev path|key|m|dt|id|n r|n].
  - destruct (_ && _); [|exact H]. now apply steady_handleWatchEvent.
  - destruct (listening c); [|exact H]. now apply steady_onKeypress.
  - now apply steady_handleServerLog.
  - destruct (0 <=? dt)%Z; [|exact H]. now apply steady_set_now.
  - destruct (timer_deadline id c); [|exact H].
    destruct (_ <=? _)%Z; [|exact H]. unfold fire_timer.
    apply steady_queueBuild. now apply steady_emit, steady_set_timers.
  - destruct (nth_error (pool c) n) as [k|] eqn:E; [|exact H].
    destruct (awaits_queue k) eqn:A; [exact H|].
    destruct (task_id k) as [|j l] eqn:T.
    + apply steady_resume; [exact T|].
      revert H. apply steady_same; try reflexivity.
      destruct (remove_nth_split (pool c) n _ E) as (a & b & Ea & Eb).
      unfold in_flight. cbn [pool set_pool]. rewrite Eb, Ea, !flat_map_app.
      cbn [flat_map]. now rewrite T.
    + destruct k; try discriminate. now apply settled_upload_ok.
  - destruct (nth_error (pool c) n) as [k|] eqn:E; [|exact H].
    destruct (ready k c) eqn:R; [|exact H].
    assert (T : task_id k = []) by (destruct k; try discriminate; reflexivity).
    apply steady_resume; [exact T|].
    revert H. apply steady_same; try reflexivity.
    destruct (remove_nth_split (pool c) n _ E) as (a & b & Ea & Eb).
    unfold in_flight. cbn [pool set_pool]. rewrite Eb, Ea, !flat_map_app.
    cbn [flat_map]. now rewrite T.
Qed.

Lemma run_keeps_session inputs :
  forall c, session_ok c -> session_ok (run c inputs).
Proof.
  induction inputs as [|i inputs IH]; intros c H; [exact H|].
  cbn [run fold_left]. apply IH, step_keeps_session, H.
Qed.

(** A manager is in order when constructed. *)
Lemma constructed_session_ok o c : constructor o = Manager c -> session_ok c.
Proof.
  unfold constructor. destruct (o_projectConfig o); [|discriminate].
  destruct (o_projectDir o); [|discriminate].
  destruct (srcDir p); [|discriminate].
  destruct (_ || _); [discriminate|]. intros [= <-].
  split; [|constructor]. unfold queue_ok, job_ids, in_flight; cbn.
  repeat split; try constructor. unfold CONCURRENCY. lia.
Qed.

End Steady.

Section Books.

Context {ext : Externals}.

(** X1. The upload queue is created with [concurrency: 10]: in every state a
    session reaches from [start()], whatever the watcher, the keyboard,
    the clock and the remote calls do, at most ten upload or delete calls
    are awaited at once. They are exactly the jobs the queue counts as
    started, each of them once. *)
Theorem at_most_ten_uploads_in_flight :
  forall (o : options) (c : config) (inputs : list input),
    constructor o = Manager c ->
    let c' := run (start c) inputs in
    List.length (in_flight c') <= 10
    /\ Permutation (in_flight c') (pending (uploadQueue c'))
    /\ NoDup (in_flight c').
Proof.
  intros o c inputs C c'.
  assert (H : session_ok c').
  { apply run_keeps_session, steady_start. exact (constructed_session_ok o c C). }
  destruct H as [(Q1 & Q2 & _ & Q4) _]. split; [|split].
  - rewrite (Permutation_length Q1). exact Q4.
  - exact Q1.
  - apply (Permutation_NoDup (Permutation_sym Q1)).
    unfold job_ids in Q2. now apply NoDup_app_remove_r in Q2.
Qed.

(** X2. A path is buffered as requiring an upload at most once: in every
    state a session reaches from [start()], the entries of the standby list
    that are not marked [supported] have pairwise distinct paths. *)
Theorem standby_buffers_a_path_once :
  forall (o : options) (c : config) (inputs : list input),
    constructor o = Manager c ->
    NoDup (unsupported_paths (run (start c) inputs)).
Proof.
  intros o c inputs C.
  assert (H : session_ok (run (start c) inputs)).
  { apply run_keeps_session, steady_start. exact (constructed_session_ok o c C). }
  exact (proj2 H).
Qed.

End Books.

(** *** Sessions that may not upload *)

Lemma offline_refl c : offline c c.
Proof.
  repeat split; [exists []; now rewrite app_nil_r | apply emits_refl].
Qed.

Lemma offline_trans c1 c2 c3 : offline c1 c2 -> offline c2 c3 -> offline c1 c3.
Proof.
  intros (A1 & A2 & A3 & (k1 & A4 & A5) & A6)
    (B1 & B2 & B3 & (k2 & B4 & B5) & B6).
  split; [congruence|]. split; [congruence|]. split; [congruence|].
  split; [|eapply emits_trans; eassumption].
  exists (k1 ++ k2). rewrite B4, A4, app_assoc, forallb_app, A5, B5. now split.
Qed.

Lemma offline_same c c' :
  uploadPermission c' = uploadPermission c -> timers c' = timers c ->
  currentStagedBuildId c' = currentStagedBuildId c ->
  pool c' = pool c -> trace c' = trace c -> offline c c'.
Proof.
  intros H1 H2 H3 H4 H5. repeat split; try assumption.
  - exists []. now rewrite app_nil_r.
  - exists []. now rewrite app_nil_r.
Qed.

Lemma offline_emit e c : is_build_api_call e = false -> offline c (emit e c).
Proof.
  intros H. repeat split; [exists []; now rewrite app_nil_r|].
  exists [e]. split; [reflexivity|]. cbn [forallb]. now rewrite H.
Qed.

Lemma offline_spinnies op c : offline c (spinnies op c).
Proof. now apply offline_emit. Qed.

Lemma offline_logger op c : offline c (logger op c).
Proof. now apply offline_emit. Qed.

Lemma offline_process_exit code c : offline c (process_exit code c).
Proof.
  repeat split; [exists []; now rewrite app_nil_r|].
  now exists [E_exit code].
Qed.

Lemma offline_await_call call k c :
  is_build_api_call (E_call call) = false -> offline_kont k = true ->
  offline c (await_call call k c).
Proof.
  intros H K. repeat split.
  - exists [k]. cbn. now rewrite K.
  - exists [E_call call]. split; [reflexivity|]. cbn [forallb]. now rewrite H.
Qed.

Lemma offline_set_standbyChanges v c : offline c (set_standbyChanges v c).
Proof. now apply offline_same. Qed.
Lemma offline_set_devModeStatus v c : offline c (set_devModeStatus v c).
Proof. now apply offline_same. Qed.
Lemma offline_set_spinCount v c : offline c (set_spinCount v c).
Proof. now apply offline_same. Qed.
Lemma offline_set_watching v c : offline c (set_watching v c).
Proof. now apply offline_same. Qed.
Lemma offline_set_listening v c : offline c (set_listening v c).
Proof. now apply offline_same. Qed.
Lemma offline_set_exited v c : offline c (set_exited v c).
Proof. now apply offline_same. Qed.
Lemma offline_set_now v c : offline c (set_now v c).
Proof. now apply offline_same. Qed.

Create HintDb offline.
#[local] Hint Resolve offline_refl offline_emit offline_spinnies offline_logger
  offline_process_exit offline_await_call offline_set_standbyChanges
  offline_set_devModeStatus offline_set_spinCount offline_set_watching
  offline_set_listening offline_set_exited offline_set_now : offline.
#[local] Hint Extern 1 (is_build_api_call _ = false) => reflexivity : offline.
#[local] Hint Extern 1 (offline_kont _ = true) => reflexivity : offline.

Ltac offline_chain :=
  rel_chain offline_refl offline_trans ltac:(auto with offline).

Lemma offline_updateDevModeStatus s c : offline c (updateDevModeStatus s c).
Proof. unfold updateDevModeStatus. offline_chain. Qed.
#[local] Hint Resolve offline_updateDevModeStatus : offline.

Lemma offline_counts c c' :
  offline c c' ->
  count is_build_api_call (trace c') = count is_build_api_call (trace c).
Proof.
  intros (_ & _ & _ & _ & d & -> & Hd). rewrite count_app.
  assert (count is_build_api_call d = 0) as ->; [|lia].
  induction d as [|e d IH]; [reflexivity|].
  cbn in Hd. apply andb_prop in Hd as [He Hd]. apply negb_true_iff in He.
  rewrite count_cons, He, (IH Hd). reflexivity.
Qed.

Lemma gated_after c c' : gated c -> offline c c' -> gated c'.
Proof.
  intros (N & T & B & P) (A1 & A2 & A3 & (ks & A4 & A5) & _).
  split; [now rewrite A1|]. split; [congruence|]. split; [congruence|].
  now rewrite A4, forallb_app, P, A5.
Qed.

Section Gated.

Context {ext : Externals}.

Lemma offline_addChangeToStandbyQueue ci c :
  offline c (addChangeToStandbyQueue ci c).
Proof. unfold addChangeToStandbyQueue. offline_chain. Qed.
#[local] Hint Resolve offline_addChangeToStandbyQueue : offline.

Lemma offline_handlePreventedUpload ci c :
  offline c (handlePreventedUpload ci c).
Proof. unfold handlePreventedUpload. offline_chain. Qed.

Lemma offline_stop c : offline c (stop c).
Proof. unfold stop, clearConsoleContent. offline_chain. Qed.

Lemma offline_stop_closed r c : offline c (stop_closed r c).
Proof. unfold stop_closed. offline_chain. Qed.

Lemma offline_stop_exit code c : offline c (stop_exit code c).
Proof. unfold stop_exit. destruct code; offline_chain. Qed.
#[local] Hint Resolve offline_stop_exit : offline.

(** With no staged build, [stop()] cancels nothing. *)
Lemma offline_stop_cleaned r c :
  currentStagedBuildId c = None -> offline c (stop_cleaned r c).
Proof.
  intros B. unfold stop_cleaned.
  match goal with
  | |- context [truthy_build (currentStagedBuildId ?x)] =>
      replace (currentStagedBuildId x) with (currentStagedBuildId c)
        by (destruct r; [|destruct (debug c)]; reflexivity)
  end.
  rewrite B. cbn [truthy_build]. offline_chain.
Qed.

Lemma offline_handleWatchEvent path ev c :
  offline c (handleWatchEvent path ev c).
Proof. unfold handleWatchEvent, notifyServers. offline_chain. Qed.

Lemma offline_handleWatchEvent_notified ci r c :
  is_always (uploadPermission c) = false ->
  offline c (handleWatchEvent_notified ci r c).
Proof.
  intros N. unfold handleWatchEvent_notified, notifyServers_settled.
  assert (U : forall c1, offline c c1 -> offline c (handleWatchEvent_upload ci c1)).
  { intros c1 H. unfold handleWatchEvent_upload.
    replace (uploadPermission c1) with (uploadPermission c)
      by (now destruct H as (-> & _)).
    rewrite N. cbn [negb]. eapply offline_trans; [exact H|].
    apply offline_handlePreventedUpload. }
  assert (S : forall v c1, offline c c1 ->
                           offline c (handleWatchEvent_supported ci v c1)).
  { intros v c1 H. eapply offline_trans; [exact H|].
    unfold handleWatchEvent_supported. offline_chain. }
  destruct r as [[|[]|b]|e]; cbv zeta; cbn [fst snd].
  - offline_chain.
  - apply U, offline_refl.
  - apply S, offline_refl.
  - apply S, offline_refl.
  - apply U. offline_chain.
Qed.

Lemma offline_executeServers_settled r c :
  offline c (executeServers_settled r c).
Proof. unfold executeServers_settled. offline_chain. Qed.

Lemma offline_updateConsoleHeader c : offline c (updateConsoleHeader c).
Proof. unfold updateConsoleHeader. cbn [fold_left]. offline_chain. Qed.
#[local] Hint Resolve offline_updateConsoleHeader : offline.

Lemma offline_start_served r c :
  is_always (uploadPermission c) = false -> offline c (start_served r c).
Proof.
  intros N. unfold start_served.
  match goal with
  | |- context [is_always (uploadPermission ?x)] =>
      replace (uploadPermission x) with (uploadPermission c)
        by (destruct r; [|destruct (debug c)]; reflexivity)
  end.
  rewrite N. unfold start_watching. offline_chain.
Qed.

(** A key press other than the approval of an upload; under [never] any
    key press. *)
Lemma offline_onKeypress key c :
  String.eqb (key_name key) "y" = false \/ uploadPermission c = UP_never ->
  offline c (onKeypress key c).
Proof.
  intros Y. unfold onKeypress, spinnies_add_null.
  destruct (_ || _); [apply offline_stop|].
  destruct Y as [Y|Y]; rewrite Y.
  - destruct (_ && _); [offline_chain | apply offline_refl].
  - cbn [is_manual]. rewrite andb_false_r. apply offline_refl.
Qed.

Lemma offline_handleServerLog m c : offline c (handleServerLog m c).
Proof. unfold handleServerLog, spinnies_add_null. offline_chain. Qed.

(** A turn of the event loop of a gated session, other than the approval
    of an upload. *)
Lemma step_gated c i :
  gated c -> is_approval i = false \/ uploadPermission c = UP_never ->
  gated (step c i)
  /\ count is_build_api_call (trace (step c i))
     = count is_build_api_call (trace c).
Proof.
  intros G Y.
  assert (H : forall c1, gated c1 ->
              count is_build_api_call (trace c1)
              = count is_build_api_call (trace c) ->
              forall c2, offline c1 c2 ->
              gated c2
              /\ count is_build_api_call (trace c2)
                 = count is_build_api_call (trace c)).
  { intros c1 N1 E1 c2 C. split; [eapply gated_after; eassumption|].
    now rewrite (offline_counts _ _ C). }
  pose proof G as (N & T & B & P).
  unfold step. destruct (exited c); [now split|].
  destruct i as [ev path|key|m|dt|id|n r|n].
  - destruct (_ && _); [|now split].
    apply (H c G eq_refl), offline_handleWatchEvent.
  - destruct (listening c); [|now split].
    apply (H c G eq_refl), offline_onKeypress, Y.
  - apply (H c G eq_refl), offline_handleServerLog.
  - destruct (0 <=? dt)%Z; [|now split].
    apply (H c G eq_refl), offline_set_now.
  - unfold timer_deadline. rewrite T. cbn. now split.
  - destruct (nth_error (pool c) n) as [k|] eqn:E; [|now split].
    destruct (awaits_queue k); [now split|].
    pose proof (forallb_nth_error offline_kont n (pool c) k P E) as K.
    assert (N1 : gated (set_pool (remove_nth n (pool c)) c)).
    { split; [exact N|]. split; [exact T|]. split; [exact B|].
      cbn. now apply forallb_remove_nth. }
    apply (H _ N1 eq_refl).
    destruct k; try discriminate; cbn [resume].
    + apply offline_start_served, N.
    + apply offline_handleWatchEvent_notified, N.
    + apply offline_executeServers_settled.
    + apply offline_stop_closed.
    + apply offline_stop_cleaned, B.
  - destruct (nth_error (pool c) n) as [k|] eqn:E; [|now split].
    pose proof (forallb_nth_error offline_kont n (pool c) k P E) as K.
    destruct k; try discriminate; cbn [ready]; now split.
Qed.

Lemma run_gated inputs :
  forall c,
    gated c ->
    forallb (fun i => negb (is_approval i)) inputs = true
    \/ uploadPermission c = UP_never ->
    gated (run c inputs)
    /\ count is_build_api_call (trace (run c inputs))
       = count is_build_api_call (trace c).
Proof.
  induction inputs as [|i inputs IH]; intros c G A; [now split|].
  cbn [run fold_left].
  assert (A1 : is_approval i = false \/ uploadPermission c = UP_never).
  { destruct A as [A|A]; [left | now right].
    cbn in A. apply andb_prop in A as [A _]. now apply negb_true_iff in A. }
  destruct (step_gated c i G A1) as [N1 E1].
  assert (A2 : forallb (fun i => negb (is_approval i)) inputs = true
               \/ uploadPermission (step c i) = UP_never).
  { destruct A as [A|A].
    - left. cbn in A. now apply andb_prop in A as [_ A].
    - right. unfold step. destruct (exited c); [exact A|].
      assert (O : forall c', offline c c' -> uploadPermission c' = UP_never)
        by (intros c' (-> & _); exact A).
      destruct G as (N & T & B & P).
      destruct i as [ev path|key|m|dt|id|n r|n].
      + destruct (_ && _); [|exact A]. apply O, offline_handleWatchEvent.
      + destruct (listening c); [|exact A].
        apply O, offline_onKeypress. now right.
      + apply O, offline_handleServerLog.
      + destruct (0 <=? dt)%Z; exact A.
      + unfold timer_deadline. rewrite T. exact A.
      + destruct (nth_error (pool c) n) as [k|] eqn:E; [|exact A].
        destruct (awaits_queue k); [exact A|].
        pose proof (forallb_nth_error offline_kont n (pool c) k P E) as K.
        assert (O' : forall c', offline (set_pool (remove_nth n (pool c)) c) c' ->
                                uploadPermission c' = UP_never)
          by (intros c' (-> & _); exact A).
        destruct k; try discriminate; cbn [resume]; apply O'.
        * apply offline_start_served. cbn. now rewrite A.
        * apply offline_handleWatchEvent_notified. cbn. now rewrite A.
        * apply offline_executeServers_settled.
        * apply offline_stop_closed.
        * apply offline_stop_cleaned, B.
      + destruct (nth_error (pool c) n) as [k|] eqn:E; [|exact A].
        pose proof (forallb_nth_error offline_kont n (pool c) k P E) as K.
        destruct k; try discriminate; cbn [ready]; exact A. }
  destruct (IH _ N1 A2) as [N2 E2]. split; [exact N2|].
  unfold run in E2. now rewrite E2.
Qed.

(** X3. A session that may not upload leaves the remote build alone. With
    permission [never], and with permission [manual] as long as the user
    has not pressed [y], no run of the event loop from [start()] calls
    [provisionBuild], [uploadFileToBuild], [deleteFileFromBuild],
    [queueBuild], [pollProjectBuildAndDeploy] or [cancelStagedBuild],
    whatever changes the watcher reports, whatever the dev servers answer
    and even when the session is stopped. *)
Theorem no_remote_build_call_without_permission :
  forall (o : options) (c : config) (inputs : list input),
    constructor o = Manager c ->
    o_uploadPermission o = Some UP_never
    \/ (o_uploadPermission o = Some UP_manual
        /\ forallb (fun i => negb (is_approval i)) inputs = true) ->
    count is_build_api_call (trace (run (start c) inputs)) = 0.
Proof.
  intros o c inputs C M.
  assert (G : gated (start c)
              /\ count is_build_api_call (trace (start c)) = 0
              /\ uploadPermission (start c)
                 = match o_uploadPermission o with
                   | Some p => p
                   | None => UP_always
                   end).
  { unfold constructor in C. destruct (o_projectConfig o); [|discriminate].
    destruct (o_projectDir o); [|discriminate].
    destruct (srcDir p); [|discriminate].
    destruct (_ || _); [discriminate|]. injection C as <-.
    destruct M as [M|[M _]]; rewrite M; now repeat split. }
  destruct G as (G & Z & U). rewrite <- Z. apply run_gated; [exact G|].
  destruct M as [M|[M A]]; [right; now rewrite U, M | now left].
Qed.

End Gated.

(** *** From a watch event to the remote call *)

Lemma debounceQueueBuild_identity c :
  targetAccountId (debounceQueueBuild c) = targetAccountId c
  /\ projectCfg (debounceQueueBuild c) = projectCfg c
  /\ count is_upload_call (trace (debounceQueueBuild c))
     = count is_upload_call (trace c)
  /\ exists d, trace (debounceQueueBuild c) = trace c ++ d.
Proof.
  unfold debounceQueueBuild, set_timer, clear_timer.
  destruct (is_always (uploadPermission c)); cbn;
    destruct (debouncedBuild c); cbn; count_effects;
    repeat split; try lia; rewrite <- ?app_assoc; eexists;
    try reflexivity; now rewrite app_nil_r.
Qed.

Section Upload.

Context {ext : Externals}.

(** X4. While the session uploads (permission [always], queue running,
    nothing buffered), a change the dev servers cannot handle reaches the
    remote build at once when fewer than ten uploads are in flight: the job
    is added, started, and [sendChanges] calls [uploadFileToBuild] with the
    file and its path relative to the source directory for [add] and
    [change], and [deleteFileFromBuild] with the relative path for [unlink]
    and [unlinkDir]. With ten uploads in flight the job waits in the queue
    and no call is made. *)
Theorem change_is_uploaded_at_once :
  forall (c : config) (ev : watch_event) (path : string),
    uploading c -> visible path ->
    let ci := {| event := ev; filePath := path;
                 remotePath := path_relative (projectSourceDir c) path;
                 supported := None |} in
    let id := nextTask (uploadQueue c) in
    let c' := upload_required_change ev path c in
    (waiting (uploadQueue c) = [] ->
     List.length (pending (uploadQueue c)) < CONCURRENCY ->
     exists before key,
       trace c' =
         before
         ++ [E_queue (q_add id (send_task ci)); E_queue (q_run id);
             E_spin (sp_add key (i18n "content.uploadingChange" [remotePath ci])
                       non_spinnable);
             E_call (api_call_of c ci)]
       /\ pool c' = pool c ++ [K_task id ci key]
       /\ pending (uploadQueue c') = pending (uploadQueue c) ++ [id]
       /\ waiting (uploadQueue c') = [])
    /\ (CONCURRENCY <= List.length (pending (uploadQueue c)) ->
        count is_upload_call (trace c') = count is_upload_call (trace c)
        /\ waiting (uploadQueue c')
           = waiting (uploadQueue c) ++ [(id, send_task ci)]
        /\ pending (uploadQueue c') = pending (uploadQueue c)
        /\ pool c' = pool c).
Proof.
  intros c ev path U V ci id c'. subst c'.
  rewrite (change_unfolds ev path c U V). cbv zeta. fold ci.
  destruct U as (He & Hw & Hp & Hq & Hs).
  set (c1 := set_pool (pool c)
               (await_call (DevServerManager_notify ci) (K_notify ci) c)).
  destruct (debounceQueueBuild_frame c1) as (P2 & Q2 & _).
  destruct (debounceQueueBuild_identity c1) as (A2 & N2 & C2 & (d & T2)).
  set (c2 := debounceQueueBuild c1) in *.
  change (pool c1) with (pool c) in P2.
  change (uploadQueue c1) with (uploadQueue c) in Q2.
  change (targetAccountId c1) with (targetAccountId c) in A2.
  change (projectCfg c1) with (projectCfg c) in N2.
  clearbody c2.
  unfold queue_add, tryToStartAnother. cbv zeta.
  cbn [fst snd uploadQueue set_uploadQueue emit set_trace waiting pending
       isPaused nextTask].
  rewrite Q2. fold id. split.
  - intros W L. rewrite W, Hq. cbn [app negb andb].
    apply Nat.ltb_lt in L. rewrite L.
    cbn [snd run_task]. unfold sendChanges, spinnies_add_null. cbv zeta.
    exists (trace c2), (Generated (spinCount c2)).
    unfold api_call_of. cbn [event filePath remotePath ci].
    destruct ev; cbn; rewrite P2, A2, N2, <- !app_assoc; now repeat split.
  - intros L.
    assert (F : (List.length (pending (uploadQueue c)) <? CONCURRENCY) = false)
      by (apply Nat.ltb_ge; exact L).
    rewrite F, andb_false_r.
    destruct (waiting (uploadQueue c) ++ [(id, send_task ci)]) as [|[j t] l] eqn:E;
      [now destruct (waiting (uploadQueue c))|].
    cbn. rewrite P2. count_effects. rewrite C2.
    subst c1. cbn. count_effects. repeat split; lia.
Qed.

End Upload.

(** *** Uploads that fail *)

Section UploadFailure.

Context {ext : Externals}.

(** X5. [sendChanges] swallows the failure of an upload: when the awaited
    [uploadFileToBuild] or [deleteFileFromBuild] call settles, rejected or
    not, the change is reported with the line [upload.uploadedChange], the
    job settles in the queue and the next waiting job may start. A
    rejection only adds a debug log line: the process does not exit, the
    change is not queued again and the standby list is left as it is. *)
Theorem failed_upload_is_reported_as_uploaded :
  forall (c : config) (n id : nat) (ci : changeInfo) (key : spin_key)
         (r : response),
    exited c = None ->
    nth_error (pool c) n = Some (K_task id ci key) ->
    let c' := step c (InSettle n r) in
    (exists started,
       trace c' =
         trace c ++ upload_outcome_log r
         ++ [E_spin (sp_update key (i18n "upload.uploadedChange" [remotePath ci])
                       non_spinnable);
             E_queue (q_settled id)]
         ++ started)
    /\ exited c' = None
    /\ added_tasks (trace c') = added_tasks (trace c)
    /\ standbyChanges c' = standbyChanges c
    /\ isPaused (uploadQueue c') = isPaused (uploadQueue c).
Proof.
  intros c n id ci key r He Hn c'. subst c'. unfold step. rewrite He, Hn.
  cbn [awaits_queue resume]. unfold queue_next. cbv zeta.
  match goal with
  | |- context [tryToStartAnother ?x] =>
      destruct (keeps_tryToStartAnother x) as (K1 & _ & _ & K4 & K5 & _ & K7);
      destruct (quiet_tryToStartAnother x) as ((d & T & _) & _);
      set (c1 := x) in *
  end.
  rewrite K7, T, K1, K4, K5. subst c1. unfold sendChanges_settled.
  destruct r as [v|err]; cbn; rewrite ?added_tasks_app; cbn;
    rewrite ?app_nil_r, <- ?app_assoc; cbn.
  all: split; [exists d; reflexivity|]. all: now repeat split.
Qed.

End UploadFailure.

(** *** Start-up *)

Section StartUp.

Context {ext : Externals}.

(** A freshly constructed manager. *)
Lemma constructed_fresh o c :
  constructor o = Manager c ->
  pool c = [] /\ exited c = None /\ trace c = []
  /\ uploadQueue c = new_PQueue /\ currentStagedBuildId c = None
  /\ watching c = false /\ listening c = false.
Proof.
  unfold constructor. destruct (o_projectConfig o); [|discriminate].
  destruct (o_projectDir o); [|discriminate].
  destruct (srcDir p); [|discriminate].
  destruct (_ || _); [discriminate|]. intros [= <-]. now repeat split.
Qed.

(** X6. The order of [start()]. Once the dev servers have started, or
    failed to (which is not fatal), a session with permission [always]
    first provisions a staging build: until that call resolves the watcher
    has no handler, so watch events are dropped, and no key is listened to.
    When it resolves with build [b] the session watches and listens with
    [currentStagedBuildId = b]. With permission [manual] or [never] the
    session watches at once and provisions nothing. *)
Theorem start_provisions_before_watching :
  forall (o : options) (c : config) (r : response),
    constructor o = Manager c ->
    let c1 := settle_last r (start c) in
    exited c1 = None
    /\ isPaused (uploadQueue c1) = false
    /\ (uploadPermission c = UP_always ->
          watching c1 = false /\ listening c1 = false
          /\ pool c1 = [K_provisionBuild F_startWatching]
          /\ count is_provision_call (trace c1) = 1
          /\ (forall ev path, step c1 (InWatch ev path) = c1)
          /\ (forall key, step c1 (InKey key) = c1)
          /\ forall b : N,
               let c2 := settle_last (Resolved (VBuild b)) c1 in
               watching c2 = true /\ listening c2 = true
               /\ currentStagedBuildId c2 = Some b /\ pool c2 = []
               /\ devModeStatus c2 = Some clean /\ exited c2 = None)
    /\ (uploadPermission c <> UP_always ->
          watching c1 = true /\ listening c1 = true /\ pool c1 = []
          /\ count is_provision_call (trace c1) = 0
          /\ currentStagedBuildId c1 = None
          /\ devModeStatus c1 = Some clean).
Proof.
  intros o c r C c1. subst c1.
  destruct (constructed_fresh o c C) as (P & E & T & Q & B & W & L).
  assert (S : settle_last r (start c) = start_served r (set_pool [] (start c))).
  { apply (settle_last_resumes (start c) K_startServers []);
      [| |reflexivity]; unfold start, queue_start; cbn; rewrite Q; cbn;
      [now rewrite P | exact E]. }
  rewrite S. unfold start_served.
  set (c0 := match r with
             | Resolved _ => set_pool [] (start c)
             | Rejected e =>
                 spinnies (sp_add (Key "devServerStartError")
                             (i18n "content.devServerStartError" [])
                             non_spinnable)
                   (if debug (set_pool [] (start c))
                    then logger (logger_error e) (set_pool [] (start c))
                    else set_pool [] (start c))
             end).
  assert (F : exited c0 = None /\ isPaused (uploadQueue c0) = false
              /\ pool c0 = [] /\ watching c0 = false /\ listening c0 = false
              /\ uploadPermission c0 = uploadPermission c
              /\ currentStagedBuildId c0 = None
              /\ count is_provision_call (trace c0) = 0).
  { subst c0. unfold start, queue_start. cbn. rewrite Q. cbn.
    destruct r as [v|e]; [|destruct (debug c)]; cbn;
      rewrite T, E, W, L, B, ?Q; now repeat split. }
  clearbody c0. destruct F as (F1 & F2 & F3 & F4 & F5 & F6 & F7 & F8).
  rewrite F6. destruct (uploadPermission c) eqn:U; cbn [is_always].
  - split; [exact F1|]. split; [exact F2|]. split; [|intros X; congruence].
    intros _. unfold createNewStagingBuild. cbn. rewrite F3, F4, F5.
    count_effects. rewrite F8.
    split; [reflexivity|]. split; [reflexivity|]. split; [reflexivity|].
    split; [reflexivity|]. split; [|split].
    + intros ev path. unfold step. cbn. rewrite F1, F4. reflexivity.
    + intros key. unfold step. cbn. rewrite F1, F5. reflexivity.
    + intros b.
      match goal with
      | |- context [settle_last _ ?x] =>
          rewrite (settle_last_resumes x (K_provisionBuild F_startWatching) [])
            by (cbn; now rewrite ?F3, ?F1)
      end.
      cbn. now rewrite F1.
  - split; [exact F1|]. split; [exact F2|]. split; [intros X; discriminate|].
    intros _. cbn. count_effects. rewrite F3, F7, F8. now repeat split.
  - split; [exact F1|]. split; [exact F2|]. split; [intros X; discriminate|].
    intros _. cbn. count_effects. rewrite F3, F7, F8. now repeat split.
Qed.

End StartUp.

(** *** The end of a build cycle *)

Lemma unstaged_refl c : unstaged c c.
Proof. split; [reflexivity | apply emits_refl]. Qed.

Lemma unstaged_trans c1 c2 c3 : unstaged c1 c2 -> unstaged c2 c3 -> unstaged c1 c3.
Proof.
  intros [A1 A2] [B1 B2]. split; [congruence | eapply emits_trans; eassumption].
Qed.

Lemma unstaged_same c c' :
  currentStagedBuildId c' = currentStagedBuildId c -> trace c' = trace c ->
  unstaged c c'.
Proof. intros H T. split; [exact H|]. exists []. now rewrite app_nil_r. Qed.

Lemma unstaged_emit e c : is_provision_call e = false -> unstaged c (emit e c).
Proof.
  intros H. split; [reflexivity|]. exists [e].
  split; [reflexivity|]. cbn [forallb]. now rewrite H.
Qed.

Lemma unstaged_spinnies op c : unstaged c (spinnies op c).
Proof. now apply unstaged_emit. Qed.

Lemma unstaged_logger op c : unstaged c (logger op c).
Proof. now apply unstaged_emit. Qed.

Lemma unstaged_await_call call k c :
  is_provision_call (E_call call) = false -> unstaged c (await_call call k c).
Proof.
  intros H. split; [reflexivity|]. exists [E_call call].
  split; [reflexivity|]. cbn [forallb]. now rewrite H.
Qed.

Lemma unstaged_await_queue k c : unstaged c (await_queue k c).
Proof. now apply unstaged_same. Qed.

Lemma unstaged_set_standbyChanges v c : unstaged c (set_standbyChanges v c).
Proof. now apply unstaged_same. Qed.
Lemma unstaged_set_debouncedBuild v c : unstaged c (set_debouncedBuild v c).
Proof. now apply unstaged_same. Qed.
Lemma unstaged_set_uploadQueue v c : unstaged c (set_uploadQueue v c).
Proof. now apply unstaged_same. Qed.
Lemma unstaged_set_devModeStatus v c : unstaged c (set_devModeStatus v c).
Proof. now apply unstaged_same. Qed.
Lemma unstaged_set_spinCount v c : unstaged c (set_spinCount v c).
Proof. now apply unstaged_same. Qed.
Lemma unstaged_set_timers v c : unstaged c (set_timers v c).
Proof. now apply unstaged_same. Qed.
Lemma unstaged_set_timerCount v c : unstaged c (set_timerCount v c).
Proof. now apply unstaged_same. Qed.
Lemma unstaged_set_pool v c : unstaged c (set_pool v c).
Proof. now apply unstaged_same. Qed.

Create HintDb unstaged.
#[local] Hint Resolve unstaged_refl unstaged_emit unstaged_spinnies
  unstaged_logger unstaged_await_call unstaged_await_queue
  unstaged_set_standbyChanges unstaged_set_debouncedBuild
  unstaged_set_uploadQueue unstaged_set_devModeStatus unstaged_set_spinCount
  unstaged_set_timers unstaged_set_timerCount unstaged_set_pool : unstaged.
#[local] Hint Extern 1 (is_provision_call _ = false) => reflexivity : unstaged.

Ltac unstaged_chain :=
  rel_chain unstaged_refl unstaged_trans ltac:(auto with unstaged).

Lemma unstaged_updateDevModeStatus s c : unstaged c (updateDevModeStatus s c).
Proof. unfold updateDevModeStatus. unstaged_chain. Qed.
#[local] Hint Resolve unstaged_updateDevModeStatus : unstaged.

Lemma unstaged_debounceQueueBuild c : unstaged c (debounceQueueBuild c).
Proof. unfold debounceQueueBuild, set_timer, clear_timer. unstaged_chain. Qed.
#[local] Hint Resolve unstaged_debounceQueueBuild : unstaged.

Lemma unstaged_counts c c' :
  unstaged c c' ->
  count is_provision_call (trace c') = count is_provision_call (trace c).
Proof.
  intros (_ & d & -> & Hd). rewrite count_app.
  assert (count is_provision_call d = 0) as ->; [|lia].
  induction d as [|e d IH]; [reflexivity|].
  cbn in Hd. apply andb_prop in Hd as [He Hd]. apply negb_true_iff in He.
  rewrite count_cons, He, (IH Hd). reflexivity.
Qed.

Section BuildCycle.

Context {ext : Externals}.

Lemma unstaged_sendChanges id ci c : unstaged c (sendChanges id ci c).
Proof. unfold sendChanges, spinnies_add_null. unstaged_chain. Qed.
#[local] Hint Resolve unstaged_sendChanges : unstaged.

Lemma unstaged_run_task id t c : unstaged c (run_task id t c).
Proof. unfold run_task. unstaged_chain. Qed.
#[local] Hint Resolve unstaged_run_task : unstaged.

Lemma unstaged_tryToStartAnother c : unstaged c (snd (tryToStartAnother c)).
Proof. unfold tryToStartAnother. unstaged_chain. Qed.
#[local] Hint Resolve unstaged_tryToStartAnother : unstaged.

Lemma unstaged_processQueue_loop n c : unstaged c (processQueue_loop n c).
Proof.
  revert c. induction n as [|n IH]; intros c; cbn [processQueue_loop];
    [apply unstaged_refl|].
  pose proof (unstaged_tryToStartAnother c) as H.
  destruct (tryToStartAnother c) as [[] c']; cbn [snd] in H; [|exact H].
  eapply unstaged_trans; [exact H | apply IH].
Qed.

Lemma unstaged_processQueue c : unstaged c (processQueue c).
Proof. apply unstaged_processQueue_loop. Qed.
#[local] Hint Resolve unstaged_processQueue : unstaged.

Lemma unstaged_queue_add t c : unstaged c (fst (queue_add t c)).
Proof. unfold queue_add. unstaged_chain. Qed.

Lemma unstaged_queue_addAll ts c : unstaged c (fst (queue_addAll ts c)).
Proof.
  revert c. induction ts as [|t ts IH]; intros c; [apply unstaged_refl|].
  rewrite queue_addAll_cons; cbn [fst].
  eapply unstaged_trans; [apply unstaged_queue_add | apply IH].
Qed.

Lemma unstaged_queue_start c : unstaged c (queue_start c).
Proof. unfold queue_start. unstaged_chain. Qed.
#[local] Hint Resolve unstaged_queue_start : unstaged.

Lemma unstaged_flushStandbyChanges ret c :
  unstaged c (fst (flushStandbyChanges ret c)).
Proof.
  destruct (standbyChanges c) as [|ci l] eqn:E.
  - unfold flushStandbyChanges. rewrite E. apply unstaged_refl.
  - rewrite (flushStandbyChanges_cons ret ci l c E); cbn [fst].
    eapply unstaged_trans; [apply unstaged_queue_addAll | auto with unstaged].
Qed.
#[local] Hint Resolve unstaged_flushStandbyChanges : unstaged.

Lemma unstaged_queueBuild_finish c : unstaged c (queueBuild_finish c).
Proof. unfold queueBuild_finish. unstaged_chain. Qed.

Lemma keeps_processQueue_loop n c : keeps c (processQueue_loop n c).
Proof.
  revert c. induction n as [|n IH]; intros c; cbn [processQueue_loop];
    [apply keeps_refl|].
  pose proof (keeps_tryToStartAnother c) as H.
  destruct (tryToStartAnother c) as [[] c']; cbn [snd] in H; [|exact H].
  eapply keeps_trans; [exact H | apply IH].
Qed.

(** [uploadQueue.start()] leaves the queue running and the standby list
    and the tasks handed to the queue as they were. *)
Lemma queue_start_facts c :
  isPaused (uploadQueue (queue_start c)) = false
  /\ standbyChanges (queue_start c) = standbyChanges c
  /\ added_tasks (trace (queue_start c)) = added_tasks (trace c)
  /\ exited (queue_start c) = exited c.
Proof.
  unfold queue_start. cbv zeta.
  change (isPaused (uploadQueue (emit (E_queue q_start) c)))
    with (isPaused (uploadQueue c)).
  destruct (isPaused (uploadQueue c)) eqn:P.
  - unfold processQueue.
    match goal with
    | |- context [processQueue_loop ?n ?x] =>
        destruct (keeps_processQueue_loop n x) as (K1 & _ & _ & K4 & K5 & _ & K7)
    end.
    rewrite K1, K4, K5, K7. cbn. rewrite added_tasks_app. cbn.
    now rewrite app_nil_r.
  - cbn. rewrite added_tasks_app. cbn. now rewrite app_nil_r, P.
Qed.

Lemma queue_addAll_running ts c :
  isPaused (uploadQueue (fst (queue_addAll ts c))) = isPaused (uploadQueue c).
Proof.
  revert c. induction ts as [|t ts IH]; intros c; [reflexivity|].
  rewrite queue_addAll_cons; cbn [fst]. rewrite IH.
  exact (proj2 (proj2 (proj2 (proj2 (queue_add_keeps t c))))).
Qed.

Lemma queueBuild_finish_facts c :
  let c' := queueBuild_finish c in
  isPaused (uploadQueue c') = false
  /\ currentStagedBuildId c' = currentStagedBuildId c
  /\ standbyChanges c' = standbyChanges c
  /\ added_tasks (trace c')
     = added_tasks (trace c)
       ++ (if hasAnyUnsupportedStandbyChanges c
           then map flush_task (standbyChanges c) else [])
  /\ (hasAnyUnsupportedStandbyChanges c = false -> devModeStatus c' = Some clean)
  /\ count is_provision_call (trace c') = count is_provision_call (trace c).
Proof.
  cbv zeta.
  pose proof (unstaged_queueBuild_finish c) as U.
  destruct (queue_start_facts c) as (Q1 & Q2 & Q3 & Q4).
  assert (H' : hasAnyUnsupportedStandbyChanges (queue_start c)
               = hasAnyUnsupportedStandbyChanges c)
    by (unfold hasAnyUnsupportedStandbyChanges; now rewrite Q2).
  assert (G : isPaused (uploadQueue (queueBuild_finish c)) = false
              /\ standbyChanges (queueBuild_finish c) = standbyChanges c
              /\ added_tasks (trace (queueBuild_finish c))
                 = added_tasks (trace c)
                   ++ (if hasAnyUnsupportedStandbyChanges c
                       then map flush_task (standbyChanges c) else [])
              /\ (hasAnyUnsupportedStandbyChanges c = false ->
                    devModeStatus (queueBuild_finish c) = Some clean)).
  { unfold queueBuild_finish. cbv zeta. rewrite H'.
    destruct (hasAnyUnsupportedStandbyChanges c) eqn:H.
    - destruct (standbyChanges c) as [|ci l] eqn:E;
        [unfold hasAnyUnsupportedStandbyChanges in H; rewrite E in H;
         discriminate|].
      rewrite (flushStandbyChanges_cons F_detached ci l (queue_start c))
        by (now rewrite Q2).
      cbn [fst].
      destruct (queue_addAll_spec (map flush_task (ci :: l)) (queue_start c))
        as (_ & _ & A3 & A4 & _). cbv zeta in A3, A4.
      pose proof (queue_addAll_running (map flush_task (ci :: l))
                    (queue_start c)) as A5.
      unfold await_queue.
      change (uploadQueue (set_pool ?p ?x)) with (uploadQueue x).
      change (standbyChanges (set_pool ?p ?x)) with (standbyChanges x).
      change (trace (set_pool ?p ?x)) with (trace x).
      rewrite A3, A4, A5, Q1, Q2, Q3. repeat split. discriminate.
    - cbn. rewrite added_tasks_app. cbn. rewrite !app_nil_r.
      now repeat split. }
  destruct G as (G1 & G2 & G3 & G4).
  split; [exact G1|]. split; [exact (proj1 U)|]. split; [exact G2|].
  split; [exact G3|]. split; [exact G4|]. exact (unstaged_counts _ _ U).
Qed.

(** X7. The end of a build cycle. When the poll of the queued build
    resolves, a session with permission [always] provisions the next
    staging build and does not touch the upload queue until that call
    resolves: the queue is restarted only then, with the new build as
    [currentStagedBuildId]. With any other permission the queue is
    restarted at once, nothing is provisioned and [currentStagedBuildId]
    stays as it was. At the restart, if the standby list holds a change
    that requires an upload, every entry of the list is handed to the queue
    in order; otherwise nothing is handed over, the list is kept as it is
    and the status line is set to [clean]. *)
Theorem build_cycle_restarts_the_queue :
  (forall c : config,
     let c' := queueBuild_finish c in
     isPaused (uploadQueue c') = false
     /\ currentStagedBuildId c' = currentStagedBuildId c
     /\ standbyChanges c' = standbyChanges c
     /\ added_tasks (trace c')
        = added_tasks (trace c)
          ++ (if hasAnyUnsupportedStandbyChanges c
              then map flush_task (standbyChanges c) else [])
     /\ (hasAnyUnsupportedStandbyChanges c = false ->
           devModeStatus c' = Some clean))
  /\ (forall (c : config) (n : nat) (key : spin_key) (v : value),
        exited c = None ->
        nth_error (pool c) n = Some (K_poll key) ->
        let c' := step c (InSettle n (Resolved v)) in
        (uploadPermission c = UP_always ->
           uploadQueue c' = uploadQueue c
           /\ pool c' = remove_nth n (pool c)
                        ++ [K_provisionBuild F_queueBuild_created]
           /\ count is_provision_call (trace c')
              = S (count is_provision_call (trace c)))
        /\ (uploadPermission c <> UP_always ->
              isPaused (uploadQueue c') = false
              /\ currentStagedBuildId c' = currentStagedBuildId c
              /\ count is_provision_call (trace c')
                 = count is_provision_call (trace c)))
  /\ (forall (c : config) (n : nat) (b : N),
        exited c = None ->
        nth_error (pool c) n = Some (K_provisionBuild F_queueBuild_created) ->
        let c' := step c (InSettle n (Resolved (VBuild b))) in
        isPaused (uploadQueue c') = false
        /\ currentStagedBuildId c' = Some b
        /\ standbyChanges c' = standbyChanges c).
Proof.
  split; [|split].
  - intros c. destruct (queueBuild_finish_facts c) as (A & B & C & D & E & _).
    cbv zeta. now repeat split.
  - intros c n key v He Hn c'. subst c'. unfold step. rewrite He, Hn.
    cbn [awaits_queue resume queueBuild_polled]. cbv zeta.
    change (uploadPermission (spinnies _ (spinnies _ (set_pool _ c))))
      with (uploadPermission c).
    split; intros U.
    + rewrite U. cbn. count_effects. repeat split. lia.
    + destruct (uploadPermission c) eqn:P; [congruence| |]; cbn [is_always].
      all: match goal with
           | |- context [queueBuild_finish ?x] =>
               destruct (queueBuild_finish_facts x) as (A & B & _ & _ & _ & F)
           end.
      all: cbv zeta in *; rewrite A, B, F; cbn; count_effects;
        repeat split; lia.
  - intros c n b He Hn c'. subst c'. unfold step. rewrite He, Hn.
    cbn [awaits_queue resume createNewStagingBuild_settled continue].
    match goal with
    | |- context [queueBuild_finish ?x] =>
        destruct (queueBuild_finish_facts x) as (A & B & C & _)
    end.
    cbv zeta in *. rewrite A, B, C. now repeat split.
Qed.

End BuildCycle.

(** *** The manual upload prompt *)

Section Prompt.

Context {ext : Externals}.

(** X8. Permission [manual], with a change that requires an upload in the
    standby list. Pressing [n] removes the prompt and shows that the upload
    was skipped: nothing is provisioned or queued and the list keeps its
    entries. Pressing [y] provisions a staging build; when that call
    resolves with build [b], every entry of the standby list is handed to
    the upload queue in order and the handler waits for them: [queueBuild]
    is entered when that flush resumes, not before. *)
Theorem manual_upload_prompt :
  forall (c : config) (key : keypress),
    exited c = None ->
    uploadPermission c = UP_manual ->
    hasAnyUnsupportedStandbyChanges c = true ->
    (key_name key = "n" ->
       let c' := onKeypress key c in
       standbyChanges c' = standbyChanges c
       /\ pool c' = pool c
       /\ uploadQueue c' = uploadQueue c
       /\ trace c' =
            trace c
            ++ [E_spin (sp_remove (Key "manualUploadRequired"));
                E_spin (sp_remove (Key "manualUploadExplanation1"));
                E_spin (sp_remove (Key "manualUploadExplanation2"));
                E_spin (sp_remove (Key "manualUploadPrompt"));
                E_spin (sp_add (Generated (spinCount c))
                          (i18n "content.manualUploadSkipped" []) st_fail)])
    /\ (key_name key = "y" ->
          let c1 := onKeypress key c in
          devModeStatus c1 = Some manualUpload
          /\ pool c1 = pool c ++ [K_provisionBuild F_keypress_created]
          /\ count is_provision_call (trace c1)
             = S (count is_provision_call (trace c))
          /\ added_tasks (trace c1) = added_tasks (trace c)
          /\ forall b : N,
               let c2 := settle_last (Resolved (VBuild b)) c1 in
               currentStagedBuildId c2 = Some b
               /\ added_tasks (trace c2)
                  = added_tasks (trace c) ++ map flush_task (standbyChanges c)
               /\ count is_queueBuild_entry (trace c2)
                  = count is_queueBuild_entry (trace c)
               /\ exists p,
                    pool c2
                    = p ++ [K_addAll (seq (nextTask (uploadQueue c))
                                        (List.length (standbyChanges c)))
                              F_keypress_flushed])
    /\ (forall ids r c3,
          resume (K_addAll ids F_keypress_flushed) r c3
          = queueBuild (set_standbyChanges [] c3)).
Proof.
  intros c key He M H. split; [|split; [|reflexivity]].
  - intros K. cbv zeta. unfold onKeypress, spinnies_add_null.
    rewrite K, M, H. cbn. rewrite andb_false_r. cbn.
    rewrite <- ?app_assoc. now repeat split.
  - intros K. cbv zeta.
    assert (E1 : onKeypress key c
                 = createNewStagingBuild F_keypress_created
                     (updateDevModeStatus manualUpload
                        (fst (spinnies_add_null
                                (i18n "content.manualUploadConfirmed" [])
                                st_succeed
                                (spinnies (sp_remove (Key "manualUploadPrompt"))
                                   (spinnies (sp_remove (Key "manualUploadExplanation2"))
                                      (spinnies (sp_remove (Key "manualUploadExplanation1"))
                                         (spinnies (sp_remove (Key "manualUploadRequired"))
                                            c)))))))).
    { unfold onKeypress. rewrite K, M, H.
      change (String.eqb "y" "c") with false. rewrite andb_false_r.
      reflexivity. }
    rewrite E1. clear E1.
    set (c0 := updateDevModeStatus manualUpload _).
    assert (F : pool c0 = pool c /\ exited c0 = None
                /\ standbyChanges c0 = standbyChanges c
                /\ uploadQueue c0 = uploadQueue c
                /\ added_tasks (trace c0) = added_tasks (trace c)
                /\ count is_provision_call (trace c0)
                   = count is_provision_call (trace c)
                /\ count is_queueBuild_entry (trace c0)
                   = count is_queueBuild_entry (trace c)
                /\ devModeStatus c0 = Some manualUpload).
    { subst c0. unfold spinnies_add_null. cbn. rewrite !added_tasks_app. cbn.
      count_effects. rewrite !app_nil_r. repeat split; (exact He || lia). }
    clearbody c0. destruct F as (F1 & F2 & F3 & F4 & F5 & F6 & F7 & F8).
    unfold createNewStagingBuild. cbn [devModeStatus pool await_call set_pool emit
      set_trace trace].
    rewrite added_tasks_app, count_app, F1, F5, F6, F8. cbn [added_tasks flat_map].
    count_effects. rewrite app_nil_r.
    split; [reflexivity|]. split; [reflexivity|]. split; [lia|].
    split; [reflexivity|]. intros b.
    match goal with
    | |- context [settle_last _ ?x] =>
        rewrite (settle_last_resumes x (K_provisionBuild F_keypress_created)
                   (pool c))
          by (cbn; now rewrite ?F1, ?F2)
    end.
    cbn [resume createNewStagingBuild_settled continue].
    match goal with
    | |- context [flushStandbyChanges F_keypress_flushed ?x] => set (c1 := x)
    end.
    assert (G : standbyChanges c1 = standbyChanges c /\ pool c1 = pool c
                /\ nextTask (uploadQueue c1) = nextTask (uploadQueue c)
                /\ added_tasks (trace c1) = added_tasks (trace c)
                /\ count is_queueBuild_entry (trace c1)
                   = count is_queueBuild_entry (trace c)
                /\ currentStagedBuildId c1 = Some b).
    { subst c1. cbn. rewrite added_tasks_app, F3, F4, F5. count_effects.
      rewrite F7, app_nil_r. repeat split; lia. }
    clearbody c1. destruct G as (G1 & G2 & G3 & G4 & G5 & G6).
    destruct (standbyChanges c) as [|ci l] eqn:E;
      [unfold hasAnyUnsupportedStandbyChanges in H; rewrite E in H;
       discriminate|].
    rewrite (flushStandbyChanges_cons F_keypress_flushed ci l c1 G1).
    destruct (queue_addAll_spec (map flush_task (ci :: l)) c1)
      as (A1 & _ & A3 & _). cbv zeta in A1, A3.
    pose proof (unstaged_queue_addAll (map flush_task (ci :: l)) c1) as [U _].
    destruct (quiet_queue_addAll (map flush_task (ci :: l)) c1) as (Qe & _).
    destruct (emits_quiet_counts _ _ Qe) as [_ Qc].
    unfold await_queue. cbn [fst].
    change (currentStagedBuildId (set_pool ?p ?x)) with (currentStagedBuildId x).
    change (trace (set_pool ?p ?x)) with (trace x).
    cbn [pool set_pool].
    rewrite U, A3, Qc, A1, G3, G4, G5, G6, length_map.
    split; [reflexivity|]. split; [reflexivity|]. split; [reflexivity|].
    eexists. reflexivity.
Qed.

End Prompt.

(** *** Staging builds that cannot be provisioned *)

Section Staging.

Context {ext : Externals}.

(** X9. A failure of [provisionBuild] ends the session. The caller of
    [createNewStagingBuild] is never resumed: the staged build, the watcher,
    the key listener and the upload queue are left as they were. When the
    error is [PROJECT_LOCKED] the method first cancels the staged build of
    the project, and logs that it did once that call resolves; in either
    case the process exits with [ERROR]. *)
Theorem staging_build_failure_is_fatal :
  forall (c : config) (n : nat) (ret : frame) (err : js_error),
    exited c = None ->
    nth_error (pool c) n = Some (K_provisionBuild ret) ->
    let c' := step c (InSettle n (Rejected err)) in
    currentStagedBuildId c' = currentStagedBuildId c
    /\ watching c' = watching c
    /\ listening c' = listening c
    /\ uploadQueue c' = uploadQueue c
    /\ (isSpecifiedError err PROJECT_LOCKED = false ->
          trace c' = trace c ++ [E_log (logger_debug_error err); E_exit ERROR]
          /\ exited c' = Some ERROR)
    /\ (isSpecifiedError err PROJECT_LOCKED = true ->
          trace c' =
            trace c
            ++ [E_log (logger_debug_error err);
                E_call (cancelStagedBuild (targetAccountId c)
                          (name (projectCfg c)))]
          /\ exited c' = None
          /\ pool c' = remove_nth n (pool c) ++ [K_cancelLocked]
          /\ forall v : value,
               let c'' := settle_last (Resolved v) c' in
               trace c'' =
                 trace c'
                 ++ [E_log (logger_log (i18n "previousStagingBuildCancelled" []));
                     E_exit ERROR]
               /\ exited c'' = Some ERROR).
Proof.
  intros c n ret err He Hn c'. subst c'. unfold step. rewrite He, Hn.
  cbn [awaits_queue resume createNewStagingBuild_settled].
  unfold createNewStagingBuild_catch. cbv zeta.
  destruct (isSpecifiedError err PROJECT_LOCKED) eqn:L.
  - cbn. rewrite <- ?app_assoc. cbn.
    split; [reflexivity|]. split; [reflexivity|]. split; [reflexivity|].
    split; [reflexivity|]. split; [discriminate|]. intros _.
    split; [reflexivity|]. split; [exact He|]. split; [reflexivity|].
    intros v.
    match goal with
    | |- context [settle_last _ ?x] =>
        rewrite (settle_last_resumes x K_cancelLocked (remove_nth n (pool c)))
          by (try reflexivity; exact He)
    end.
    cbn. rewrite <- ?app_assoc. now split.
  - cbn. rewrite <- ?app_assoc. cbn. repeat split; discriminate.
Qed.

End Staging.

(** *** Changes that arrive while a build is queued *)

Section Paused.

Context {ext : Externals}.

(** X10. Permission [always], with the upload queue paused because a build
    is being queued or deployed. A change the dev servers cannot handle is
    not uploaded: no job is added, no timer is armed. It is appended to the
    standby list, marked as not supported, unless the list already has an
    entry for its path, whatever the kind of that entry's event, or the
    standby filter drops it (extension of an added or changed file not
    allowed, or path ignored). *)
Theorem changes_during_a_build_are_buffered :
  forall (c : config) (n : nat) (ci : changeInfo),
    exited c = None ->
    nth_error (pool c) n = Some (K_notify ci) ->
    uploadPermission c = UP_always ->
    isPaused (uploadQueue c) = true ->
    let c' := step c (InSettle n (Resolved (VNotify true))) in
    uploadQueue c' = uploadQueue c
    /\ timers c' = timers c
    /\ pool c' = remove_nth n (pool c)
    /\ count is_upload_call (trace c') = count is_upload_call (trace c)
    /\ added_tasks (trace c') = added_tasks (trace c)
    /\ standbyChanges c' =
         if standby_has_path (filePath ci) c then standbyChanges c
         else if enters_standby ci
              then standbyChanges c ++ [with_supported ci false]
              else standbyChanges c.
Proof.
  intros c n ci He Hn U P c'. subst c'. unfold step. rewrite He, Hn.
  cbn [awaits_queue resume handleWatchEvent_notified notifyServers_settled].
  unfold handleWatchEvent_upload.
  change (uploadPermission (set_pool ?p c)) with (uploadPermission c).
  change (uploadQueue (set_pool ?p c)) with (uploadQueue c).
  rewrite U, P. cbn [is_always negb].
  change (standby_has_path (filePath ci) (set_pool ?p c))
    with (standby_has_path (filePath ci) c).
  destruct (standby_has_path (filePath ci) c); cbn [negb].
  - now repeat split.
  - unfold addChangeToStandbyQueue, enters_standby, exempt_from_extension_check.
    cbn [event filePath with_supported].
    destruct (event ci); cbn [orb andb negb];
      destruct (isAllowedExtension (filePath ci));
      destruct (shouldIgnoreFile (filePath ci) true); cbn;
      rewrite ?added_tasks_app; count_effects; rewrite ?app_nil_r;
      repeat split; lia.
Qed.

End Paused.

(** *** [hs sandbox sync] *)

Lemma find_parent_snoc (ps : list SandboxSync.portal) (p : SandboxSync.portal)
  (account : Z) :
  SandboxSync.find_parent (ps ++ [p]) account =
  if Z.eqb (SandboxSync.portalId p) account
     && truthy_num (SandboxSync.parentAccountId p)
  then SandboxSync.parentAccountId p
  else SandboxSync.find_parent ps account.
Proof.
  unfold SandboxSync.find_parent. rewrite fold_left_app. cbn.
  destruct (Z.eqb _ _); [|reflexivity].
  now destruct (truthy_num _).
Qed.

(** X11. The parent account the sync command works with is read from the
    last entry of [config.portals] that belongs to the sandbox account and
    has a usable [parentAccountId]; entries of the account without one are
    passed over, and when no entry has one the parent is [undefined]. *)
Theorem find_parent_takes_the_last_entry :
  forall (ps : list SandboxSync.portal) (account : Z),
    match SandboxSync.find_parent ps account with
    | Some parent =>
        parent <> 0%Z
        /\ exists before after,
             ps = before
                  ++ {| SandboxSync.portalId := account;
                        SandboxSync.parentAccountId := Some parent |} :: after
             /\ forall q, In q after ->
                  SandboxSync.portalId q = account ->
                  truthy_num (SandboxSync.parentAccountId q) = false
    | None =>
        forall q, In q ps ->
          SandboxSync.portalId q = account ->
          truthy_num (SandboxSync.parentAccountId q) = false
    end.
Proof.
  intros ps account. induction ps as [|p ps IH] using rev_ind.
  - cbn. intros q [].
  - rewrite find_parent_snoc.
    destruct (Z.eqb (SandboxSync.portalId p) account) eqn:E; cbn [andb].
    + apply Z.eqb_eq in E.
      destruct (truthy_num (SandboxSync.parentAccountId p)) eqn:T.
      * destruct p as [pid [parent|]]; cbn in *; [|discriminate].
        subst pid. split.
        -- intros ->. discriminate.
        -- exists ps, []. split; [reflexivity|]. intros q [].
      * destruct (SandboxSync.find_parent ps account) as [parent|].
        -- destruct IH as (NZ & before & after & -> & Hq). split; [exact NZ|].
           exists before, (after ++ [p]). split; [now rewrite <- app_assoc|].
           intros q I Eq. apply in_app_or in I as [I|[<-|[]]]; [now apply Hq|].
           exact T.
        -- intros q I Eq. apply in_app_or in I as [I|[<-|[]]]; [now apply IH|].
           exact T.
    + apply Z.eqb_neq in E.
      destruct (SandboxSync.find_parent ps account) as [parent|].
      * destruct IH as (NZ & before & after & -> & Hq). split; [exact NZ|].
        exists before, (after ++ [p]). split; [now rewrite <- app_assoc|].
        intros q I Eq. apply in_app_or in I as [I|[<-|[]]]; [now apply Hq|].
        congruence.
      * intros q I Eq. apply in_app_or in I as [I|[<-|[]]]; [now apply IH|].
        congruence.
Qed.

(** X12. [hs sandbox sync] starts a sync only for a development sandbox
    whose parent account is in the config, after the user has confirmed the
    prompt and the sync tasks have been fetched; the call is then made with
    the parent found in the config and, twice, the sandbox account. In every
    other case the handler ends without calling [initiateSync]. *)
Theorem sync_is_initiated_only_when_confirmed :
  forall (w : SandboxSync.world) (parent : option Z) (account sandbox : Z)
         (tasks : list string),
    In (SandboxSync.initiateSync parent account tasks sandbox)
       (fst (SandboxSync.handler w))
    <-> SandboxSync.sandboxAccountType w = SandboxSync.Str "DEVELOPER"
        /\ parent = SandboxSync.find_parent (SandboxSync.portals w)
                      (SandboxSync.accountId w)
        /\ SandboxSync.known_account w parent = true
        /\ SandboxSync.confirmSandboxSyncPrompt w = true
        /\ SandboxSync.syncTasks w = SandboxSync.resolved tasks
        /\ account = SandboxSync.accountId w
        /\ sandbox = SandboxSync.accountId w.
Proof.
  intros w parent account sandbox tasks.
  unfold SandboxSync.handler, SandboxSync.sync, SandboxSync.sync_failed.
  cbv zeta.
  destruct (SandboxSync.sandboxAccountType w) as [| |type] eqn:Ty.
  1,2: split; [cbn; intuition discriminate | intros (H & _); discriminate].
  destruct (String.eqb type "DEVELOPER") eqn:D; cbn [negb].
  2:{ split; [cbn; intuition discriminate|]. intros ([= ->] & _).
      discriminate. }
  apply String.eqb_eq in D. subst type.
  set (p := SandboxSync.find_parent _ _).
  destruct (SandboxSync.known_account w p) eqn:K; cbn [negb].
  2:{ split; [cbn; intuition discriminate|].
      intros (_ & -> & K' & _). congruence. }
  destruct (SandboxSync.confirmSandboxSyncPrompt w) eqn:C; cbn [negb].
  2:{ split; [cbn; intuition discriminate|].
      intros (_ & _ & _ & C' & _). discriminate. }
  destruct (SandboxSync.syncTasks w) as [ts|e] eqn:Ts.
  2:{ split; [cbn; intuition discriminate|].
      intros (_ & _ & _ & _ & T' & _). discriminate. }
  assert (G : In (SandboxSync.initiateSync parent account tasks sandbox)
                [SandboxSync.initiateSync p (SandboxSync.accountId w) ts
                   (SandboxSync.accountId w)]
              <-> parent = p /\ tasks = ts
                  /\ account = SandboxSync.accountId w
                  /\ sandbox = SandboxSync.accountId w).
  { cbn. split; [intros [[= -> -> -> ->]|[]]; now repeat split|].
    intros (-> & -> & -> & ->). now left. }
  destruct (SandboxSync.syncOutcome w p (SandboxSync.accountId w) ts)
    as [[| |status]|e]; cbn [fst].
  all: rewrite <- !app_assoc; cbn [app].
  all: split;
    [ intros I;
      repeat (destruct I as [I|I]; [try discriminate|]); try contradiction;
      injection I as <- <- <- <-; now repeat split
    | intros (_ & -> & _ & _ & [= ->] & -> & ->); cbn; intuition ].
Qed.

(** X13. How [hs sandbox sync] ends. The process exits with [SUCCESS]
    exactly when the user declines the prompt. The handler returns
    normally exactly when the sync was initiated and resolved with a result
    that has [links]; it then made exactly one [initiateSync] call. Every
    other run exits with [ERROR]: an account that is no sandbox, a sandbox
    of another type than [DEVELOPER], a parent account missing from the
    config, a failure to fetch the tasks or to start the sync. Whenever the
    process exits, [process.exit] is the last thing the handler does. *)
Theorem sync_handler_outcome :
  forall w : SandboxSync.world,
    let parent := SandboxSync.find_parent (SandboxSync.portals w)
                    (SandboxSync.accountId w) in
    let ready := SandboxSync.sandboxAccountType w = SandboxSync.Str "DEVELOPER"
                 /\ SandboxSync.known_account w parent = true in
    (snd (SandboxSync.handler w) = SandboxSync.Exited SUCCESS
     <-> ready /\ SandboxSync.confirmSandboxSyncPrompt w = false)
    /\ (snd (SandboxSync.handler w) = SandboxSync.Returned
        <-> ready /\ SandboxSync.confirmSandboxSyncPrompt w = true
            /\ exists tasks status,
                 SandboxSync.syncTasks w = SandboxSync.resolved tasks
                 /\ SandboxSync.syncOutcome w parent (SandboxSync.accountId w)
                      tasks
                    = SandboxSync.resolved (SandboxSync.links status))
    /\ (snd (SandboxSync.handler w) = SandboxSync.Returned ->
        List.length (filter SandboxSync.is_sync_call
                       (fst (SandboxSync.handler w))) = 1)
    /\ (forall code,
          snd (SandboxSync.handler w) = SandboxSync.Exited code ->
          exists before,
            fst (SandboxSync.handler w)
            = before ++ [SandboxSync.process_exit code]
            /\ forall code', ~ In (SandboxSync.process_exit code') before).
Proof.
  intros w parent ready. subst ready.
  unfold SandboxSync.handler, SandboxSync.sync, SandboxSync.sync_failed.
  cbv zeta. fold parent.
  destruct (SandboxSync.sandboxAccountType w) as [| |type] eqn:Ty.
  1,2: cbn; split; [|split; [|split]];
    try (split; [discriminate | intros [[H _] _]; discriminate]);
    try discriminate;
    intros code [= <-]; eexists [_; _]; split; [reflexivity|];
    intros code' [I|[I|[]]]; discriminate.
  destruct (String.eqb type "DEVELOPER") eqn:D; cbn [negb].
  2:{ cbn; split; [|split; [|split]];
        try (split; [discriminate | intros [[[= ->] _] _]; discriminate]);
        try discriminate.
      intros code [= <-]. eexists [_]. split; [reflexivity|].
      intros code' [I|[]]. discriminate. }
  apply String.eqb_eq in D. subst type.
  destruct (SandboxSync.known_account w parent) eqn:K; cbn [negb].
  2:{ cbn; split; [|split; [|split]];
        try (split; [discriminate | intros [[_ ?] _]; discriminate]);
        try discriminate.
      intros code [= <-]. eexists [_; _; _; _; _]. split; [reflexivity|].
      intros code' I. repeat (destruct I as [I|I]; [discriminate|]).
      contradiction. }
  destruct (SandboxSync.confirmSandboxSyncPrompt w) eqn:C; cbn [negb].
  2:{ cbn; split; [|split; [|split]].
      - split; [now repeat split | reflexivity].
      - split; [discriminate | intros (_ & ? & _); discriminate].
      - discriminate.
      - intros code [= <-]. eexists [_; _; _; _; _; _; _]. split; [reflexivity|].
        intros code' I. repeat (destruct I as [I|I]; [discriminate|]).
        contradiction. }
  destruct (SandboxSync.syncTasks w) as [ts|e] eqn:Ts.
  2:{ cbn; split; [|split; [|split]].
      - split; [discriminate | intros (_ & ?); discriminate].
      - split; [discriminate | intros (_ & _ & ? & ? & ? & _); discriminate].
      - discriminate.
      - intros code [= <-]. eexists (_ :: _ :: _ :: _ :: _ :: _ :: _ :: _ ::
                                       _ :: _ :: _ :: [_]).
        split; [reflexivity|].
        intros code' I. repeat (destruct I as [I|I]; [discriminate|]).
        contradiction. }
  destruct (SandboxSync.syncOutcome w parent (SandboxSync.accountId w) ts)
    as [[| |status]|e] eqn:So; cbn.
  all: split; [|split; [|split]].
  all: try (split; [discriminate | intros (_ & ?); discriminate]).
  all: try discriminate.
  all: try (split; [discriminate
                   | intros (_ & _ & ? & ? & [= <-] & H); rewrite So in H;
                     discriminate]).
  all: try (intros code [= <-];
            eexists (_ :: _ :: _ :: _ :: _ :: _ :: _ :: _ :: _ :: _ :: _ :: _
                       :: [_]);
            split; [reflexivity|];
            intros code' I; repeat (destruct I as [I|I]; [discriminate|]);
            contradiction).
  - split; [intros _; repeat split; eauto | reflexivity].
  - reflexivity.
Qed.

(** *** The template validator *)

(** An entry of the table that forbids a type asks for nothing else, and so
    does an inherited property. *)
Lemma lookup_shape (type : string) (v : TemplateValidator.validations) :
  TemplateValidator.lookup type = Some v ->
  TemplateValidator.truthy (TemplateValidator.allowed v) = true
  \/ (TemplateValidator.truthy (TemplateValidator.label v) = false
      /\ TemplateValidator.truthy (TemplateValidator.screenshot v) = false).
Proof.
  unfold TemplateValidator.lookup, TemplateValidator.VALIDATIONS_BY_TYPE.
  cbn [find fst snd].
  repeat match goal with
         | |- context [String.eqb ?k type] =>
             destruct (String.eqb k type);
             [intros [= <-]; cbn; auto|]
         end.
  destruct (existsb _ _); [intros [= <-]; cbn; auto | discriminate].
Qed.

Section TemplateValidation.

Context {lib : TemplateValidator.Library}.

Lemma visit_accumulates theme errors n file :
  TemplateValidator.visit theme (errors, n) file
  = (errors ++ TemplateValidator.file_errors theme file,
     n + if TemplateValidator.counts file then 1 else 0).
Proof.
  unfold TemplateValidator.file_errors, TemplateValidator.counts,
    TemplateValidator.visit.
  destruct (TemplateValidator.isCodedFile file); cbn [andb fst];
    [|now rewrite app_nil_r, Nat.add_0_r].
  destruct (TemplateValidator.is_false_literal _); cbn [negb andb fst];
    [now rewrite app_nil_r, Nat.add_0_r|].
  cbv zeta.
  destruct (TemplateValidator.getAnnotationValue _ TemplateValidator.templateType)
    as [type|]; [|cbn [fst]; now rewrite Nat.add_0_r].
  destruct (String.eqb type EmptyString) eqn:E; cbn [negb andb fst];
    [now rewrite Nat.add_0_r|].
  unfold TemplateValidator.TEMPLATE_COUNT_IGNORE_LIST.
  cbn [existsb]. rewrite orb_false_r.
  rewrite (String.eqb_sym type "global_partial"), (String.eqb_sym type "none").
  rewrite negb_orb.
  destruct (TemplateValidator.lookup type); cbn [fst];
    (destruct (negb _ && negb _); f_equal; lia).
Qed.

Lemma fold_visit theme files :
  forall errors n,
    fold_left (TemplateValidator.visit theme) files (errors, n)
    = (errors ++ flat_map (TemplateValidator.file_errors theme) files,
       n + List.length (filter TemplateValidator.counts files)).
Proof.
  induction files as [|file files IH]; intros errors n; cbn [fold_left].
  - cbn. now rewrite app_nil_r, Nat.add_0_r.
  - rewrite visit_accumulates, IH. cbn [flat_map filter].
    rewrite <- app_assoc. f_equal.
    destruct (TemplateValidator.counts file); cbn [List.length]; lia.
Qed.

Lemma validate_decomposed theme files :
  TemplateValidator.validate theme files
  = flat_map (TemplateValidator.file_errors theme) files
    ++ (if 50 <? List.length (filter TemplateValidator.counts files)
        then [TemplateValidator.limitExceeded 50
                (List.length (filter TemplateValidator.counts files))]
        else []).
Proof.
  unfold TemplateValidator.validate. rewrite fold_visit. cbn [app Nat.add].
  unfold TemplateValidator.TEMPLATE_LIMIT.
  destruct (50 <? _); [reflexivity | now rewrite app_nil_r].
Qed.

(** X14. The validator's loop over the files of a theme, with its two
    accumulators, reports file by file: the result is the errors of each
    file, in the order of the files, followed by one [limitExceeded] entry
    exactly when more than 50 templates count. A template counts when its
    file is coded, is not marked [isAvailableForNewContent: false] and has
    a template type other than [global_partial] and [none]. A file that
    is not coded or is marked unavailable yields no error and does not
    count. *)
Theorem validate_reports_file_by_file :
  forall (theme : string) (files : list string),
    let counted := List.length (filter TemplateValidator.counts files) in
    TemplateValidator.validate theme files
    = flat_map (TemplateValidator.file_errors theme) files
      ++ (if 50 <? counted
          then [TemplateValidator.limitExceeded 50 counted] else [])
    /\ (forall file,
          TemplateValidator.skipped file = true ->
          TemplateValidator.file_errors theme file = []
          /\ TemplateValidator.counts file = false).
Proof.
  intros theme files counted. split.
  - apply validate_decomposed.
  - intros file. unfold TemplateValidator.skipped, TemplateValidator.file_errors,
      TemplateValidator.counts, TemplateValidator.visit.
    destruct (TemplateValidator.isCodedFile file); cbn [negb orb andb];
      [|now split].
    intros ->. now split.
Qed.

(** X15. No file of a theme yields more than two errors: a type the table
    forbids, or a name every object inherits (such as [constructor]), is
    reported as restricted and nothing else is asked of it; a type the
    table allows can miss its label and its screenshot; a type the table
    does not have is reported as unknown. So a theme gets at most two
    errors for each file the validator looks into, and one more for the
    limit. *)
Theorem validate_reports_at_most_two_errors_a_file :
  forall (theme : string) (files : list string),
    (forall file,
       List.length (TemplateValidator.file_errors theme file) <= 2)
    /\ List.length (TemplateValidator.validate theme files)
       <= 2 * List.length
                (filter (fun file => negb (TemplateValidator.skipped file)) files)
          + 1.
Proof.
  intros theme files.
  assert (B : forall file,
            List.length (TemplateValidator.file_errors theme file)
            <= if TemplateValidator.skipped file then 0 else 2).
  { intros file. unfold TemplateValidator.file_errors, TemplateValidator.skipped,
      TemplateValidator.visit.
    destruct (TemplateValidator.isCodedFile file); cbn [negb orb fst];
      [|cbn; lia].
    destruct (TemplateValidator.is_false_literal _); cbn [negb fst]; [cbn; lia|].
    cbv zeta.
    destruct (TemplateValidator.getAnnotationValue _
                TemplateValidator.templateType) as [type|]; [|cbn; lia].
    destruct (String.eqb type EmptyString); [cbn; lia|].
    destruct (TemplateValidator.lookup _) as [v|] eqn:L; [|cbn; lia].
    cbn [fst app].
    destruct (lookup_shape _ _ L) as [A|[A1 A2]].
    - rewrite A. cbn [negb app].
      destruct (_ && _); destruct (_ && _); cbn; lia.
    - rewrite A1, A2. cbn [andb app]. destruct (negb _); cbn; lia. }
  split.
  - intros file. specialize (B file).
    destruct (TemplateValidator.skipped file); lia.
  - rewrite validate_decomposed, length_app.
    assert (L : List.length
                  (if 50 <? List.length (filter TemplateValidator.counts files)
                   then [TemplateValidator.limitExceeded 50
                           (List.length (filter TemplateValidator.counts files))]
                   else []) <= 1)
      by (destruct (50 <? _); cbn; lia).
    assert (F : List.length (flat_map (TemplateValidator.file_errors theme) files)
                <= 2 * List.length
                         (filter (fun file => negb (TemplateValidator.skipped file))
                            files)).
    { clear L. induction files as [|file files IH]; [cbn; lia|].
      cbn [flat_map filter]. rewrite length_app. specialize (B file).
      destruct (TemplateValidator.skipped file); cbn [negb List.length]; lia. }
    lia.
Qed.

End TemplateValidation.

(** *** [hs mv] *)

Lemma split_nonempty (s : string) : Mv.split s <> [].
Proof.
  destruct s as [|c s]; cbn; [discriminate|].
  destruct (Ascii.eqb c "/"); [discriminate|].
  destruct (Mv.split s); discriminate.
Qed.

(** Splitting at the slashes and joining with slashes gives the path back. *)
Lemma join_split (s : string) : Mv.join (Mv.split s) = s.
Proof.
  induction s as [|c s IH]; [reflexivity|]. cbn [Mv.split].
  destruct (Ascii.eqb c "/") eqn:E.
  - apply Ascii.eqb_eq in E. subst c.
    pose proof (split_nonempty s) as N.
    destruct (Mv.split s) as [|x l]; [contradiction|].
    change (Mv.join (EmptyString :: x :: l))
      with (EmptyString ++ "/" ++ Mv.join (x :: l))%string.
    now rewrite IH.
  - destruct (Mv.split s) as [|x l] eqn:S; [now destruct (split_nonempty s)|].
    destruct l as [|z l].
    + cbn in *. now rewrite IH.
    + change (Mv.join (String c x :: z :: l))
        with (String c (x ++ "/" ++ Mv.join (z :: l)))%string.
      change (Mv.join (x :: z :: l))
        with (x ++ "/" ++ Mv.join (z :: l))%string in IH.
      now rewrite IH.
Qed.

(** No segment of a path contains a slash. *)
Lemma split_segments (s : string) :
  Forall (fun segment => includes segment "/" = false) (Mv.split s).
Proof.
  induction s as [|c s IH]; [repeat constructor|]. cbn [Mv.split].
  destruct (Ascii.eqb c "/") eqn:E; [constructor; [reflexivity | exact IH]|].
  assert (P : forall x, includes x "/" = false ->
                        includes (String c x) "/" = false).
  { intros x Hx. rewrite includes_unfold. cbn [String.prefix]. rewrite Hx.
    destruct (ascii_dec "/" c) as [<-|_]; [discriminate E | reflexivity]. }
  destruct (Mv.split s) as [|x l].
  - constructor; [now apply P | constructor].
  - inversion IH as [|? ? Hx Hl]; subst. constructor; [now apply P | exact Hl].
Qed.

Lemma string_app_assoc (a b c : string) :
  ((a ++ b) ++ c)%string = (a ++ b ++ c)%string.
Proof. induction a as [|x a IH]; cbn; [reflexivity | now rewrite IH]. Qed.

Lemma join_snoc (l : list string) (x : string) :
  Mv.join (l ++ [x])
  = ((match l with [] => EmptyString | _ => Mv.join l ++ "/" end) ++ x)%string.
Proof.
  induction l as [|y l IH]; [reflexivity|].
  destruct l as [|z l].
  - cbn. now rewrite string_app_assoc.
  - change (Mv.join ((y :: z :: l) ++ [x]))
      with (y ++ "/" ++ Mv.join ((z :: l) ++ [x]))%string.
    rewrite IH.
    change (Mv.join (y :: z :: l)) with (y ++ "/" ++ Mv.join (z :: l))%string.
    now rewrite !string_app_assoc.
Qed.

(** X16. The destination [hs mv] sends to the API. For a source that is
    not a folder it is the destination given. For a folder it is the
    destination, a slash, and the last segment of the source path: the part
    after its last slash, or the whole path when it has none, which is
    empty when the source ends with a slash. *)
Theorem getCorrectedDestPath_appends_the_last_segment :
  forall (isPathFolder : string -> bool) (srcPath destPath : string),
    (isPathFolder srcPath = false ->
       Mv.getCorrectedDestPath isPathFolder srcPath destPath = destPath)
    /\ (isPathFolder srcPath = true ->
          exists dir segment,
            srcPath = (dir ++ segment)%string
            /\ (dir = EmptyString \/ exists d, dir = (d ++ "/")%string)
            /\ includes segment "/" = false
            /\ Mv.getCorrectedDestPath isPathFolder srcPath destPath
               = (destPath ++ "/" ++ segment)%string).
Proof.
  intros isPathFolder srcPath destPath. unfold Mv.getCorrectedDestPath.
  split; intros ->; cbn [negb]; [reflexivity|].
  pose proof (join_split srcPath) as J.
  pose proof (split_segments srcPath) as F.
  pose proof (split_nonempty srcPath) as N.
  destruct (exists_last N) as (l & x & E). rewrite E in *.
  exists (match l with [] => EmptyString | _ => Mv.join l ++ "/" end)%string, x.
  split; [now rewrite <- join_snoc|]. split; [|split].
  - destruct l; [now left | right; eauto].
  - rewrite Forall_forall in F. apply F, in_or_app. right. now left.
  - unfold Mv.pop. rewrite rev_app_distr. reflexivity.
Qed.

(** *** The components of a project *)

Section Components.

Context {fs : ProjectStructure.FileSystem}.

(** The flag of the loop of [getIsLegacyApp] is the disjunction. *)
Lemma react_flag (cardConfigs : list ProjectStructure.json) (flag : bool) :
  fold_left
    (fun hasAnyReactExtensions cardConfig =>
       if negb hasAnyReactExtensions
       then ProjectStructure.isReactExtension cardConfig
       else hasAnyReactExtensions)
    cardConfigs flag
  = flag || existsb ProjectStructure.isReactExtension cardConfigs.
Proof.
  revert flag. induction cardConfigs as [|c l IH]; intros flag; cbn.
  - now rewrite orb_false_r.
  - rewrite IH. destruct flag; cbn; [reflexivity|].
    now destruct (ProjectStructure.isReactExtension c).
Qed.

Lemma visit_card_throws appPath cards e :
  fold_left (ProjectStructure.visit_card appPath) cards (ProjectStructure.Throw e)
  = ProjectStructure.Throw e.
Proof. induction cards as [|c l IH]; [reflexivity | exact IH]. Qed.

Lemma visit_card_collects appPath cards :
  forall acc cardConfigs,
    fold_left (ProjectStructure.visit_card appPath) cards (ProjectStructure.Ok acc)
    = ProjectStructure.Ok cardConfigs ->
    exists loaded,
      cardConfigs = acc ++ loaded
      /\ List.length loaded <= List.length cards
      /\ Forall (fun c => ProjectStructure.truthy (Some c) = true) loaded.
Proof.
  induction cards as [|card cards IH]; intros acc cardConfigs H.
  - cbn in H. injection H as <-. exists []. rewrite app_nil_r.
    repeat split; [cbn; lia | constructor].
  - cbn [fold_left] in H.
    destruct (ProjectStructure.visit_card appPath (ProjectStructure.Ok acc) card)
      as [acc'|e] eqn:V; [|rewrite visit_card_throws in H; discriminate].
    destruct (IH _ _ H) as (loaded & -> & L & F).
    unfold ProjectStructure.visit_card in V.
    assert (S : acc' = acc
                \/ exists c, acc' = acc ++ [c]
                             /\ ProjectStructure.truthy (Some c) = true).
    { destruct card; try discriminate;
        destruct (ProjectStructure.get _ "file") as [[]|]; try discriminate;
        cbv zeta in V;
        destruct (ProjectStructure.truthy
                    (Some (ProjectStructure.safeLoadConfigFile _))) eqn:T;
        injection V as <-; [right; eauto | now left]. }
    destruct S as [->|(c & -> & T)].
    + exists loaded. repeat split; [cbn; lia | exact F].
    + exists (c :: loaded). rewrite <- app_assoc. repeat split;
        [cbn; lia | now constructor].
Qed.

(** X17. An app is legacy exactly when at least one of its card configs
    could be loaded and none of the loaded ones is a React extension (has a
    truthy [data.module.file]). In particular an app without cards, or
    whose card files cannot be read or parsed, is not legacy. The card
    configs are those that could be loaded, at most one for each card of
    [extensions.crm.cards], and [null] or another falsy value is never
    among them. *)
Theorem legacy_apps_have_cards_and_no_react_extension :
  forall (appConfig : ProjectStructure.value) (appPath : string)
         (cardConfigs : list ProjectStructure.json),
    ProjectStructure.getAppCardConfigs appConfig appPath
    = ProjectStructure.Ok cardConfigs ->
    ProjectStructure.getIsLegacyApp appConfig appPath
    = ProjectStructure.Ok
        (negb (Nat.eqb (List.length cardConfigs) 0)
         && negb (existsb ProjectStructure.isReactExtension cardConfigs))
    /\ Forall (fun c => ProjectStructure.truthy (Some c) = true) cardConfigs
    /\ match ProjectStructure.get
               (ProjectStructure.get
                  (ProjectStructure.get appConfig "extensions") "crm")
               "cards" with
       | Some (ProjectStructure.JArray cards) =>
           List.length cardConfigs <= List.length cards
       | _ => cardConfigs = []
       end.
Proof.
  intros appConfig appPath cardConfigs H.
  split; [|split].
  - unfold ProjectStructure.getIsLegacyApp. rewrite H.
    destruct (Nat.eqb _ 0); [reflexivity|]. now rewrite react_flag.
  - unfold ProjectStructure.getAppCardConfigs in H.
    destruct (ProjectStructure.truthy _ && _ && _);
      [|cbn in H; now injection H as <-].
    destruct (ProjectStructure.truthy _); [|now injection H as <-].
    destruct (ProjectStructure.get _ "cards") as [[]|]; try discriminate.
    destruct (visit_card_collects _ _ _ _ H) as (loaded & -> & _ & F).
    exact F.
  - unfold ProjectStructure.getAppCardConfigs in H.
    destruct (ProjectStructure.truthy _ && _ && _) eqn:G.
    + destruct (ProjectStructure.get _ "cards") as [[]|] eqn:C;
        cbn in H; try discriminate; try now injection H as <-.
      * destruct b; [discriminate | now injection H as <-].
      * destruct (negb _); [discriminate | now injection H as <-].
      * destruct (negb _); [discriminate | now injection H as <-].
      * destruct (visit_card_collects _ _ _ _ H) as (loaded & -> & L & _).
        exact L.
    + cbn in H. injection H as <-.
      destruct (ProjectStructure.get _ "cards") as [[]|]; try reflexivity.
      cbn. lia.
Qed.

Lemma visit_file_throws files e :
  fold_left ProjectStructure.visit_file files (ProjectStructure.Throw e)
  = ProjectStructure.Throw e.
Proof. induction files as [|f l IH]; [reflexivity | exact IH]. Qed.

(** A path that ends with a string contains it. *)
Lemma endsWith_indexOf (s suffix : string) :
  ProjectStructure.endsWith s suffix = true ->
  suffix <> EmptyString ->
  exists at_, String.index 0 suffix s = Some at_.
Proof.
  intros E N. destruct (String.index 0 suffix s) as [n|] eqn:I; [eauto|].
  exfalso. unfold ProjectStructure.endsWith in E.
  apply andb_prop in E as [E _]. apply String.eqb_eq in E.
  exact (index_correct3 0 _ suffix s I N (Nat.le_0_l _) E).
Qed.

Lemma visit_file_adds acc projectFile apps :
  ProjectStructure.visit_file (ProjectStructure.Ok acc) projectFile
  = ProjectStructure.Ok apps ->
  apps = acc
  \/ exists key comp,
       apps = (key, comp) :: acc /\ from_app_config projectFile key comp.
Proof.
  unfold ProjectStructure.visit_file.
  destruct (ProjectStructure.endsWith projectFile _) eqn:E;
    [|intros [= <-]; now left].
  destruct (ProjectStructure.truthy _ && ProjectStructure.truthy _) eqn:T;
    [|intros [= <-]; now left].
  apply andb_prop in T as [T1 T2]. cbv zeta.
  destruct (ProjectStructure.getIsLegacyApp _ _) as [isLegacy|e] eqn:L;
    [|discriminate].
  intros [= <-]. right. eexists _, _. split; [reflexivity|].
  destruct (endsWith_indexOf _ _ E) as [at_ I]; [discriminate|].
  exists at_. cbn [ProjectStructure.config ProjectStructure.path
                   ProjectStructure.runnable].
  rewrite negb_involutive.
  unfold ProjectStructure.indexOf, ProjectStructure.substring_to,
    ProjectStructure.APP_COMPONENT_CONFIG in *.
  rewrite I in *. rewrite Nat2Z.id in *.
  split; [exact E|]. split.
  { unfold ProjectStructure.safeLoadConfigFile in *.
    destruct (negb (projectFile =? EmptyString)%string); [|discriminate].
    destruct (ProjectStructure.parse_file projectFile); [reflexivity|].
    discriminate. }
  split; [exact T2|]. split; [reflexivity|]. split; [reflexivity|].
  split; [reflexivity|]. split.
  { exact (index_correct1 0 at_ "app.json" projectFile I). }
  split; [|exact L].
  intros p Hp. apply (index_correct2 0 at_ "app.json" projectFile I); lia.
Qed.

Lemma visit_file_collects files :
  forall acc apps,
    fold_left ProjectStructure.visit_file files (ProjectStructure.Ok acc)
    = ProjectStructure.Ok apps ->
    exists found,
      apps = found ++ acc
      /\ List.length found <= List.length files
      /\ forall key comp, In (key, comp) found ->
           exists projectFile,
             In projectFile files /\ from_app_config projectFile key comp.
Proof.
  induction files as [|f files IH]; intros acc apps H.
  - cbn in H. injection H as <-. exists []. repeat split; [cbn; lia|].
    intros key comp [].
  - cbn [fold_left] in H.
    destruct (ProjectStructure.visit_file (ProjectStructure.Ok acc) f)
      as [acc'|e] eqn:V; [|rewrite visit_file_throws in H; discriminate].
    destruct (IH _ _ H) as (found & -> & L & F).
    destruct (visit_file_adds _ _ _ V) as [->|(key & comp & -> & C)].
    + exists found. repeat split; [cbn; lia|].
      intros k c I. destruct (F k c I) as (pf & I' & C').
      exists pf. split; [now right | exact C'].
    + exists (found ++ [(key, comp)]). rewrite <- app_assoc.
      repeat split; [rewrite length_app; cbn; lia|].
      intros k c I. apply in_app_or in I as [I|[[= <- <-]|[]]].
      * destruct (F k c I) as (pf & I' & C'). exists pf.
        split; [now right | exact C'].
      * exists f. split; [now left | exact C].
Qed.

(** X18. Every component [findProjectComponents] returns comes from a
    project file whose path ends with [app.json] and parses to a config
    with a truthy [name], under which it is registered. Its [config] is
    that parsed file, it is [runnable] exactly when the app is not legacy,
    and its [path] is the path of the file up to the first occurrence of
    [app.json] in it, which need not be the one the path ends with. There
    are no more components than files. *)
Theorem components_come_from_app_configs :
  forall (projectFiles : list string)
         (apps : ProjectStructure.object ProjectStructure.component),
    ProjectStructure.findProjectComponents projectFiles
    = ProjectStructure.Ok apps ->
    List.length apps <= List.length projectFiles
    /\ forall key comp,
         In (key, comp) apps ->
         exists projectFile,
           In projectFile projectFiles
           /\ from_app_config projectFile key comp.
Proof.
  intros projectFiles apps H.
  destruct (visit_file_collects _ _ _ H) as (found & -> & L & F).
  rewrite app_nil_r. split; [exact L | exact F].
Qed.

End Components.

(** ** Concrete runs *)

#[local] Existing Instance sample_externals.

(** The sample options build the sample manager. *)
Lemma sample_manager_constructed (permission : upload_permission) :
  constructor (sample_options permission) = Manager (sample_manager permission).
Proof. reflexivity. Qed.

(** C3, as stated, fails: the list is not cleared when the tasks are
    scheduled. With ['/p/src/a.jsx'] in the standby list, the list still
    holds it after [flushStandbyChanges] has submitted its task; and when
    two upload-required changes arrive before that upload settles, each
    flushes the list, so the file is uploaded twice. *)
Lemma flushStandbyChanges_leaves_the_list :
  standbyChanges (fst (flushStandbyChanges F_detached sample_buffered)) <> []
  /\ added_tasks (trace (fst (flushStandbyChanges F_detached sample_buffered)))
     = [flush_task (sample_change "/p/src/a.jsx")]
  /\ count (is_upload_of "/p/src/a.jsx")
       (trace (run sample_buffered
                 [InWatch WE_change "/p/src/b.css";
                  InSettle 0 (Resolved (VNotify true));
                  InWatch WE_change "/p/src/c.css";
                  InSettle 2 (Resolved (VNotify true))]))
     = 2.
Proof.
  split; [|split].
  - vm_compute. discriminate.
  - vm_compute. reflexivity.
  - vm_compute. reflexivity.
Qed.

(** Witness of C10: a change under ['/p/src/dist/'] in the running sample. *)
Lemma handleWatchEvent_dist_witness :
  handleWatchEvent "/p/src/dist/app.js" WE_change (sample_running UP_always)
  = sample_running UP_always
  /\ step (sample_running UP_always) (InWatch WE_change "/p/src/dist/app.js")
     = sample_running UP_always.
Proof.
  exact (handleWatchEvent_dist_is_noop (sample_running UP_always) WE_change
           "/p/src/dist/app.js" "/p/src/" "/app.js" eq_refl).
Defined.

(** Witness of C7: the running sample has build 7 staged; its cancellation
    fails with [BUILD_NOT_IN_PROGRESS]. *)
Lemma stop_witness :
  exited (sample_running UP_always) = None
  /\ truthy_build (currentStagedBuildId (sample_running UP_always)) = true
  /\ count is_cancel_call
       (trace (stop_to_exit (Resolved VUndefined)
                 (Rejected (ApiError BUILD_NOT_IN_PROGRESS))
                 (sample_running UP_always))) = 1
  /\ exited (stop_to_exit (Resolved VUndefined)
               (Rejected (ApiError BUILD_NOT_IN_PROGRESS))
               (sample_running UP_always)) = Some SUCCESS.
Proof.
  split; [reflexivity|]. split; [reflexivity|].
  exact (proj2 (stop_cancels_the_staged_build_once (sample_running UP_always)
                  (Resolved VUndefined)
                  (Rejected (ApiError BUILD_NOT_IN_PROGRESS)) eq_refl)
           eq_refl).
Defined.

(** Witness of C6: the remote call of the running sample fails with an
    error other than [MISSING_PROJECT_PROVISION]. *)
Lemma queueBuild_failure_witness :
  exited (sample_running UP_always) = None
  /\ is_idle (uploadQueue (sample_running UP_always)) = true
  /\ isPaused
       (uploadQueue
          (settle_last (Rejected (ApiError (OTHER_SUBCATEGORY "BUILD_FAILED")))
             (queueBuild (sample_running UP_always)))) = true
  /\ currentStagedBuildId
       (settle_last (Rejected (ApiError (OTHER_SUBCATEGORY "BUILD_FAILED")))
          (queueBuild (sample_running UP_always))) = Some 7%N.
Proof.
  split; [reflexivity|]. split; [reflexivity|].
  destruct (queueBuild_failure_handling (Generated 0)
              (ApiError (OTHER_SUBCATEGORY "BUILD_FAILED"))
              (sample_running UP_always) eq_refl) as (_ & _ & H).
  destruct (H eq_refl eq_refl) as (H1 & H2 & _).
  split; [exact H1 | exact H2].
Defined.

(** Witness of C3: flushing the standby list of [sample_buffered]. *)
Lemma flushStandbyChanges_witness :
  standbyChanges sample_buffered <> []
  /\ added_tasks (trace (fst (flushStandbyChanges F_detached sample_buffered)))
     = added_tasks (trace sample_buffered)
       ++ [flush_task (sample_change "/p/src/a.jsx")]
  /\ standbyChanges (fst (flushStandbyChanges F_detached sample_buffered))
     = standbyChanges sample_buffered.
Proof.
  assert (NE : standbyChanges sample_buffered <> [])
    by (intro E; vm_compute in E; discriminate E).
  split; [exact NE|].
  destruct (flushStandbyChanges_schedules_in_order F_detached sample_buffered)
    as (_ & H & _).
  destruct (H NE) as (_ & A & B & _). split; [exact A | exact B].
Defined.

(** Witness of C1: in [sample_due] the timer fires; the turn issues the
    remote call and no job is in flight. *)
Lemma queueBuild_drain_witness :
  count is_queue_call (trace (step sample_due (InTimer 0)))
  <> count is_queue_call (trace sample_due)
  /\ pending (uploadQueue (step sample_due (InTimer 0))) = []
  /\ waiting (uploadQueue (step sample_due (InTimer 0))) = [].
Proof.
  assert (H : count is_queue_call (trace (step sample_due (InTimer 0)))
              <> count is_queue_call (trace sample_due))
    by (intro E; vm_compute in E; discriminate E).
  split; [exact H|].
  exact (proj2 (proj2 queueBuild_waits_for_the_drain) sample_due (InTimer 0) H).
Defined.

(** Witness of C2: three changes, 1000 ms and 3499 ms apart, then 3500 ms
    of quiet. *)
Lemma debounce_witness :
  let c1 := burst [(1000%Z, (WE_add, "/p/src/b.css"));
                   (3499%Z, (WE_unlink, "/p/src/c.css"))]
              (upload_required_change WE_change "/p/src/a.css"
                 (sample_running UP_always)) in
  count is_queueBuild_entry (trace c1) = 0
  /\ count is_queueBuild_entry (trace (elapse 3500 c1)) = 1
  /\ timers (elapse 3500 c1) = [].
Proof.
  assert (U : uploading (sample_running UP_always)) by (repeat split).
  assert (S : slot_ok (sample_running UP_always)) by (now left).
  assert (V : visible "/p/src/a.css") by (split; reflexivity).
  destruct (proj2 (proj2 debounce_coalesces_a_burst)
              (sample_running UP_always) WE_change "/p/src/a.css"
              [(1000%Z, (WE_add, "/p/src/b.css"));
               (3499%Z, (WE_unlink, "/p/src/c.css"))]
              U S V)
    as (E & _ & H).
  - repeat constructor; split; reflexivity.
  - repeat constructor; unfold within_quiet_period, BUILD_DEBOUNCE_TIME;
      cbn; lia.
  - destruct (H 3500%Z) as [H1 H2];
      [unfold BUILD_DEBOUNCE_TIME; lia|].
    split; [exact E|]. split; [exact H1 | exact H2].
Defined.

(** Witness of C5: an upload-required change in the sample under [never],
    and a run of that sample from [start()]. *)
Lemma never_mode_witness :
  uploadPermission (sample_running UP_never) = UP_never
  /\ devModeStatus
       (handleWatchEvent_notified (sample_change "/p/src/a.css")
          (Resolved (VNotify true)) (sample_running UP_never))
     = Some noUploadsAllowed
  /\ count is_upload_call
       (trace (run (start (sample_manager UP_never))
                 [InSettle 0 (Resolved VUndefined);
                  InWatch WE_change "/p/src/a.css";
                  InSettle 0 (Rejected (OtherError "bridge down"));
                  InWatch WE_unlink "/p/src/b.css";
                  InSettle 0 (Resolved (VNotify true))])) = 0.
Proof.
  split; [reflexivity|]. split.
  - exact (proj1 (proj1 never_mode_never_uploads (sample_running UP_never)
                    (sample_change "/p/src/a.css") (Resolved (VNotify true))
                    eq_refl eq_refl)).
  - exact (proj2 (proj2 never_mode_never_uploads) (sample_options UP_never)
             (sample_manager UP_never) _ eq_refl eq_refl).
Defined.

(** Witness of X1: twelve changes arrive one after the other; ten uploads
    are in flight and two jobs wait. *)
Lemma at_most_ten_uploads_witness :
  constructor (sample_options UP_always) = Manager (sample_manager UP_always)
  /\ List.length (in_flight (run (start (sample_manager UP_always))
                               sample_session)) <= 10
  /\ Permutation
       (in_flight (run (start (sample_manager UP_always)) sample_session))
       (pending (uploadQueue (run (start (sample_manager UP_always))
                                sample_session)))
  /\ NoDup (in_flight (run (start (sample_manager UP_always)) sample_session)).
Proof.
  split; [reflexivity|].
  exact (at_most_ten_uploads_in_flight (sample_options UP_always)
           (sample_manager UP_always) sample_session eq_refl).
Defined.

(** Witness of X2: the run [sample_twice]. *)
Lemma standby_buffers_a_path_once_witness :
  constructor (sample_options UP_manual) = Manager (sample_manager UP_manual)
  /\ NoDup (unsupported_paths
              (run (start (sample_manager UP_manual)) sample_twice)).
Proof.
  split; [reflexivity|].
  exact (standby_buffers_a_path_once (sample_options UP_manual)
           (sample_manager UP_manual) sample_twice eq_refl).
Defined.

(** Witness of X3: the run [sample_declined]. *)
Lemma no_remote_build_call_witness :
  constructor (sample_options UP_manual) = Manager (sample_manager UP_manual)
  /\ forallb (fun i => negb (is_approval i)) sample_declined = true
  /\ count is_build_api_call
       (trace (run (start (sample_manager UP_manual)) sample_declined)) = 0.
Proof.
  split; [reflexivity|]. split; [reflexivity|].
  exact (no_remote_build_call_without_permission (sample_options UP_manual)
           (sample_manager UP_manual) sample_declined
           (sample_manager_constructed UP_manual)
           (or_intror (conj eq_refl eq_refl))).
Defined.

(** Witness of X4: the running sample is told of a deleted file. *)
Lemma change_is_uploaded_witness :
  uploading (sample_running UP_always)
  /\ visible "/p/src/a.css"
  /\ exists before key,
       trace (upload_required_change WE_unlink "/p/src/a.css"
                (sample_running UP_always))
       = before
         ++ [E_queue (q_add 0 (send_task
                                 {| event := WE_unlink;
                                    filePath := "/p/src/a.css";
                                    remotePath := "a.css";
                                    supported := None |}));
             E_queue (q_run 0);
             E_spin (sp_add key (i18n "content.uploadingChange" ["a.css"])
                       non_spinnable);
             E_call (deleteFileFromBuild 42 "proj" "a.css")].
Proof.
  assert (U : uploading (sample_running UP_always)) by (repeat split).
  assert (V : visible "/p/src/a.css") by (split; reflexivity).
  split; [exact U|]. split; [exact V|].
  assert (L : List.length (pending (uploadQueue (sample_running UP_always)))
              < CONCURRENCY) by (vm_compute; lia).
  destruct (proj1 (change_is_uploaded_at_once (sample_running UP_always)
                     WE_unlink "/p/src/a.css" U V) eq_refl L)
    as (before & key & T & _).
  exists before, key. exact T.
Defined.

(** Witness of X5: the upload awaited in [sample_uploading] times out. *)
Lemma failed_upload_witness :
  exited sample_uploading = None
  /\ exited (step sample_uploading (InSettle 0 (Rejected (OtherError "timeout"))))
     = None
  /\ added_tasks
       (trace (step sample_uploading
                 (InSettle 0 (Rejected (OtherError "timeout")))))
     = added_tasks (trace sample_uploading).
Proof.
  split; [reflexivity|].
  destruct (failed_upload_is_reported_as_uploaded sample_uploading 0 0
              {| event := WE_change; filePath := "/p/src/theme/template.html";
                 remotePath := "theme/template.html"; supported := None |}
              (Generated 0) (Rejected (OtherError "timeout")) eq_refl eq_refl)
    as (_ & E & A & _).
  split; [exact E | exact A].
Defined.

(** Witness of X6: the sample under [always], whose dev servers fail to
    start. *)
Lemma start_witness :
  constructor (sample_options UP_always) = Manager (sample_manager UP_always)
  /\ exited (settle_last (Rejected (OtherError "port in use"))
               (start (sample_manager UP_always))) = None
  /\ pool (settle_last (Rejected (OtherError "port in use"))
             (start (sample_manager UP_always)))
     = [K_provisionBuild F_startWatching].
Proof.
  split; [reflexivity|].
  destruct (start_provisions_before_watching (sample_options UP_always)
              (sample_manager UP_always) (Rejected (OtherError "port in use"))
              (sample_manager_constructed UP_always)) as (E & _ & A & _).
  split; [exact E|]. exact (proj1 (proj2 (proj2 (A eq_refl)))).
Defined.

(** Witness of X7: the poll of the build queued in [sample_polling]
    resolves. *)
Lemma build_cycle_witness :
  nth_error (pool sample_polling) 0 = Some (K_poll (Generated 1))
  /\ uploadQueue (step sample_polling (InSettle 0 (Resolved VUndefined)))
     = uploadQueue sample_polling
  /\ pool (step sample_polling (InSettle 0 (Resolved VUndefined)))
     = [K_provisionBuild F_queueBuild_created].
Proof.
  split; [reflexivity|].
  destruct (proj1 (proj1 (proj2 build_cycle_restarts_the_queue) sample_polling
                     0 (Generated 1) VUndefined eq_refl eq_refl) eq_refl)
    as (Q & P & _).
  split; [exact Q | exact P].
Defined.

(** Witness of X8: the user approves the upload [sample_prompting] asks
    for. *)
Lemma manual_upload_prompt_witness :
  uploadPermission sample_prompting = UP_manual
  /\ hasAnyUnsupportedStandbyChanges sample_prompting = true
  /\ devModeStatus
       (onKeypress {| key_ctrl := false; key_name := "y" |} sample_prompting)
     = Some manualUpload
  /\ added_tasks
       (trace (settle_last (Resolved (VBuild 8))
                 (onKeypress {| key_ctrl := false; key_name := "y" |}
                    sample_prompting)))
     = added_tasks (trace sample_prompting)
       ++ map flush_task (standbyChanges sample_prompting).
Proof.
  split; [reflexivity|]. split; [reflexivity|].
  destruct (proj1 (proj2 (manual_upload_prompt sample_prompting
                            {| key_ctrl := false; key_name := "y" |}
                            eq_refl eq_refl eq_refl)) eq_refl)
    as (D & _ & _ & _ & B).
  split; [exact D|]. exact (proj1 (proj2 (B 8%N))).
Defined.

(** Witness of X9: the project of the sample is locked when [start()]
    provisions its first staging build. *)
Lemma staging_build_failure_witness :
  nth_error (pool sample_provisioning) 0 = Some (K_provisionBuild F_startWatching)
  /\ watching (step sample_provisioning
                 (InSettle 0 (Rejected (ApiError PROJECT_LOCKED)))) = false
  /\ exited (settle_last (Resolved VUndefined)
               (step sample_provisioning
                  (InSettle 0 (Rejected (ApiError PROJECT_LOCKED)))))
     = Some ERROR.
Proof.
  split; [reflexivity|].
  destruct (staging_build_failure_is_fatal sample_provisioning 0
              F_startWatching (ApiError PROJECT_LOCKED) eq_refl eq_refl)
    as (_ & W & _ & _ & _ & L).
  split; [exact W|].
  exact (proj2 (proj2 (proj2 (proj2 (L eq_refl))) VUndefined)).
Defined.

(** Witness of X10: a file is deleted while the queued build of the sample
    is polled. *)
Lemma buffered_change_witness :
  isPaused (uploadQueue sample_polling_notified) = true
  /\ standbyChanges
       (step sample_polling_notified (InSettle 1 (Resolved (VNotify true))))
     = [{| event := WE_unlink; filePath := "/p/src/a.css";
           remotePath := "a.css"; supported := Some false |}]
  /\ count is_upload_call
       (trace (step sample_polling_notified
                 (InSettle 1 (Resolved (VNotify true)))))
     = count is_upload_call (trace sample_polling_notified).
Proof.
  split; [reflexivity|].
  destruct (changes_during_a_build_are_buffered sample_polling_notified 1
              {| event := WE_unlink; filePath := "/p/src/a.css";
                 remotePath := "a.css"; supported := None |}
              eq_refl eq_refl eq_refl eq_refl)
    as (_ & _ & _ & C & _ & S).
  split; [exact S | exact C].
Defined.

(** Witness of X16: a folder is moved. *)
Lemma getCorrectedDestPath_witness :
  Mv.getCorrectedDestPath (fun _ => true) "themes/blog" "archive"
  = "archive/blog"
  /\ exists dir segment,
       "themes/blog" = (dir ++ segment)%string
       /\ Mv.getCorrectedDestPath (fun _ => true) "themes/blog" "archive"
          = ("archive" ++ "/" ++ segment)%string.
Proof.
  split; [reflexivity|].
  destruct (proj2 (getCorrectedDestPath_appends_the_last_segment
                     (fun _ => true) "themes/blog" "archive") eq_refl)
    as (dir & segment & E & _ & _ & G).
  exists dir, segment. split; [exact E | exact G].
Defined.

(** Witness of X17: the React app of the sample project, one of whose two
    card files is missing. *)
Lemma legacy_app_witness :
  ProjectStructure.getIsLegacyApp (fs := sample_files)
    (ProjectStructure.parse_file (FileSystem := sample_files)
       "/p/src/app/app.json")
    "/p/src/app/"
  = ProjectStructure.Ok false.
Proof.
  exact (proj1 (legacy_apps_have_cards_and_no_react_extension
                  (fs := sample_files)
                  (ProjectStructure.parse_file (FileSystem := sample_files)
                     "/p/src/app/app.json")
                  "/p/src/app/" _ eq_refl)).
Defined.

(** Witness of X18: the files of the sample project. *)
Lemma components_witness :
  exists apps,
    ProjectStructure.findProjectComponents (fs := sample_files)
      ["/p/src/app/app.json"; "/p/src/readme.md"; "/p/src/app.json.d/app.json"]
    = ProjectStructure.Ok apps
    /\ List.length apps <= 3.
Proof.
  eexists. split; [reflexivity|].
  exact (proj1 (components_come_from_app_configs (fs := sample_files)
                  ["/p/src/app/app.json"; "/p/src/readme.md";
                   "/p/src/app.json.d/app.json"] _ eq_refl)).
Defined.
